(** * Book Bans 2025: the faceted book browser, the map info panel and the
    subject-by-geography report

  A shallow embedding of the filtering, counting, sorting and pagination
  code of the three front-ends:

  - [Explore]  : apps/explore/src/App.vue (the paginated, faceted browser);
  - [MapPanel] : the info panel component of the map app (its
    [allSubjects] and [filteredBooks] computed properties);
  - [ByState]  : [analyzeData] of the subject-by-geography report.

  JavaScript arrays are lists, numbers that count things are [nat] or
  [Z].  The plain objects the code uses as counters are [gmap]s keyed by
  strings: a [gmap] holds the own properties of the object, and it agrees
  with the object at every key that is not one of the names a plain
  object inherits ([JS.inherited]).  Statements that read a counter at a
  key that comes from the data carry that condition as a hypothesis.
  Likewise [JS.toLowerCase] is the lower-casing of ASCII text, and the
  statements about the search say so. *)

From Stdlib Require Import ZArith Ascii String.
From stdpp Require Import gmap strings list sorting.

Local Open Scope string_scope.
Local Open Scope list_scope.

(** ** Data model *)

(** A ban event.  [state] and [district] are strings; the empty string is
  the falsy value the report checks for. *)
Record Ban := mkBan {
  state : string;
  district : string;
  ban_status : option string;
  date : option string
}.

(** The [subjects] field of a record is absent, a single string (the map
  panel handles this variant) or an array of strings. *)
Inductive SubjectsField :=
| SubjectsAbsent
| SubjectsScalar (s : string)
| SubjectsArray (l : list string).

(** A book record.  [bans = None] stands for a [bans] field that is absent
  or not an array. *)
Record Book := mkBook {
  id : string;
  title : option string;
  author : option string;
  subjects : SubjectsField;
  bans : option (list Ban);
  popularityLevel : option string
}.

(** ** JavaScript primitives used by the front-ends *)

Module JS.

(** [String.prototype.toLowerCase] on a string of ASCII characters: the
    letters [A]-[Z] are mapped to [a]-[z], every other character is left
    as it is.  (Outside ASCII the method also maps the other cased
    letters; [isAscii] marks the strings on which the two agree.) *)
Definition lower_ascii (c : ascii) : ascii :=
  let n := nat_of_ascii c in
  if (65 <=? n)%nat && (n <=? 90)%nat then ascii_of_nat (n + 32) else c.

Fixpoint toLowerCase (s : string) : string :=
  match s with
  | EmptyString => EmptyString
  | String c s' => String (lower_ascii c) (toLowerCase s')
  end.

(** [String.prototype.includes]: [q] occurs in [s] as a substring. *)
Fixpoint str_includes (s q : string) : bool :=
  String.prefix q s ||
  match s with
  | EmptyString => false
  | String _ s' => str_includes s' q
  end.

(** [Array.prototype.includes] on an array of strings. *)
Definition includes (l : list string) (x : string) : bool :=
  bool_decide (x ∈ l).

(** [Array.prototype.every] and [Array.prototype.some]. *)
Definition every {A} (p : A → bool) (l : list A) : bool := forallb p l.
Definition some {A} (p : A → bool) (l : list A) : bool := existsb p l.

(** [Array.prototype.indexOf]: position of the first occurrence. *)
Fixpoint indexOf (l : list string) (x : string) : option nat :=
  match l with
  | [] => None
  | y :: l' => if bool_decide (y = x) then Some 0%nat
               else S <$> indexOf l' x
  end.

(** [arr.splice(i, 1)]: remove the element at position [i]. *)
Definition splice1 {A} (l : list A) (i : nat) : list A := delete i l.

(** [arr.push(x)]. *)
Definition push {A} (l : list A) (x : A) : list A := l ++ [x].

(** [Array.prototype.sort(cmp)].  The language requires the sort to be
    stable; for a comparator that orders by a numeric key the result is
    then determined: it is computed here by inserting each element, from
    the last to the first, in front of the first element that does not
    have to precede it. *)
Fixpoint sort_insert {A} (cmp : A → A → Z) (x : A) (l : list A) : list A :=
  match l with
  | [] => [x]
  | y :: l' => if (cmp x y <=? 0)%Z then x :: y :: l'
               else y :: sort_insert cmp x l'
  end.

Definition sort {A} (cmp : A → A → Z) (l : list A) : list A :=
  foldr (sort_insert cmp) [] l.

(** [Array.prototype.slice(start, end)], negative indices counting from
    the end of the array. *)
Definition slice {A} (l : list A) (start end_ : Z) : list A :=
  let len := Z.of_nat (length l) in
  let k := if (start <? 0)%Z then Z.max (len + start) 0 else Z.min start len in
  let fin := if (end_ <? 0)%Z then Z.max (len + end_) 0 else Z.min end_ len in
  take (Z.to_nat (fin - k)) (drop (Z.to_nat k) l).

(** [new Set(arr)] listed in iteration order: the first occurrence of
    each value, in the order of the array. *)
Definition setOf (l : list string) : list string :=
  rev (remove_dups (rev l)).

(** The names a plain object inherits from [Object.prototype].  Reading
    one of them from a counter that has no own property of that name
    gives a function (or the prototype), not [undefined]. *)
Definition inherited : list string :=
  [ "constructor"; "__defineGetter__"; "__defineSetter__"; "hasOwnProperty";
    "__lookupGetter__"; "__lookupSetter__"; "isPrototypeOf";
    "propertyIsEnumerable"; "toString"; "valueOf"; "__proto__";
    "toLocaleString" ].

(** [counts[k] = (counts[k] || 0) + 1], for a key [k] outside [inherited]
    (at an inherited name the sum is a string concatenation, and
    [__proto__] is not stored at all). *)
Definition bump (counts : gmap string nat) (k : string) : gmap string nat :=
  <[k := (default 0 (counts !! k) + 1)%nat]> counts.

(** [Math.ceil(n / d)] for a count [n] and a positive [d]. *)
Definition ceil_div (n d : Z) : Z := (- ((- n) / d))%Z.

(** Reading a counter: [counts[k] || 0], for a key [k] outside
    [inherited]. *)
Definition get (counts : gmap string nat) (k : string) : nat :=
  default 0%nat (counts !! k).

(** The order [Array.prototype.sort()] uses without a comparator: the
    strings are compared code unit by code unit. *)
Definition compareStrings (a b : string) : Z :=
  match String.compare a b with
  | Lt => (-1)%Z
  | Eq => 0%Z
  | Gt => 1%Z
  end.

(** [set.add(x)] on a [Set] listed in insertion order. *)
Definition setAdd (set : list string) (x : string) : list string :=
  if bool_decide (x ∈ set) then set else set ++ [x].

End JS.

(** ** The book explorer (apps/explore/src/App.vue) *)

Module Explore.

(** The refs the filter reads. *)
Record Selection := mkSelection {
  selectedSubjects : list string;
  selectedStates : list string;
  selectedDistricts : list string;
  searchQuery : string
}.

Definition itemsPerPage : Z := 100.

(** [ban.state === 'Nation' ? 'DoDEA' : ban.state] *)
Definition normState (ban : Ban) : string :=
  if bool_decide (state ban = "Nation") then "DoDEA" else state ban.

(** [book.title?.toLowerCase().includes(query)] *)
Definition fieldMatches (f : option string) (query : string) : bool :=
  match f with
  | Some t => JS.str_includes (JS.toLowerCase t) query
  | None => false
  end.

(** The search clause: skipped when the query is the empty string. *)
Definition searchClause (sel : Selection) (book : Book) : bool :=
  if bool_decide (searchQuery sel = "") then true
  else
    let query := JS.toLowerCase (searchQuery sel) in
    fieldMatches (title book) query || fieldMatches (author book) query.

(** The subject clause: the book must have ALL selected subjects. *)
Definition subjectClause (sel : Selection) (book : Book) : bool :=
  if (0 <? length (selectedSubjects sel))%nat then
    match subjects book with
    | SubjectsArray l => JS.every (fun subject => JS.includes l subject)
                                  (selectedSubjects sel)
    | _ => false
    end
  else true.

(** The state clause: bans in ALL selected states. *)
Definition stateClause (sel : Selection) (book : Book) : bool :=
  if (0 <? length (selectedStates sel))%nat then
    match bans book with
    | Some bs => JS.every (fun st =>
                   JS.some (fun ban => bool_decide (normState ban = st)) bs)
                   (selectedStates sel)
    | None => false
    end
  else true.

(** The district clause: bans in ALL selected districts. *)
Definition districtClause (sel : Selection) (book : Book) : bool :=
  if (0 <? length (selectedDistricts sel))%nat then
    match bans book with
    | Some bs => JS.every (fun d =>
                   JS.some (fun ban => bool_decide (district ban = d)) bs)
                   (selectedDistricts sel)
    | None => false
    end
  else true.

(** The callback of [books.value.filter]: the clauses are tried in
    order, the first that fails returns [false]. *)
Definition keeps (sel : Selection) (book : Book) : bool :=
  if negb (searchClause sel book) then false
  else if negb (subjectClause sel book) then false
  else if negb (stateClause sel book) then false
  else if negb (districtClause sel book) then false
  else true.

(** [Array.isArray(a.bans) ? a.bans.length : 0] *)
Definition banCount (a : Book) : Z :=
  match bans a with
  | Some bs => Z.of_nat (length bs)
  | None => 0
  end.

(** The comparator [(a, b) => bBans - aBans]. *)
Definition byBans (a b : Book) : Z := (banCount b - banCount a)%Z.

Definition filteredBooks (books : list Book) (sel : Selection) : list Book :=
  let filtered := List.filter (keeps sel) books in
  JS.sort byBans filtered.

(** *** Pagination *)

(** [Math.ceil(filteredBooks.value.length / itemsPerPage)] *)
Definition totalPagesOf (filtered : list Book) : Z :=
  JS.ceil_div (Z.of_nat (length filtered)) itemsPerPage.

Definition totalPages (books : list Book) (sel : Selection) : Z :=
  totalPagesOf (filteredBooks books sel).

(** The page shown for [currentPage]. *)
Definition paginatedOf (filtered : list Book) (currentPage : Z) : list Book :=
  let start := ((currentPage - 1) * itemsPerPage)%Z in
  let end_ := (start + itemsPerPage)%Z in
  JS.slice filtered start end_.


(** *** Facet counts, over the filtered books *)

(** The values a book brings to each facet, as the arrays the counting
    code turns into a [Set]. *)
Definition subjectValues (book : Book) : list string :=
  match subjects book with
  | SubjectsArray l => l
  | _ => []
  end.

Definition stateValues (book : Book) : list string :=
  match bans book with
  | Some bs => map normState bs
  | None => []
  end.

Definition districtValues (book : Book) : list string :=
  match bans book with
  | Some bs => map district bs
  | None => []
  end.

Definition subjectCountsOf (filtered : list Book) : gmap string nat :=
  foldl (fun counts book =>
           match subjects book with
           | SubjectsArray l =>
               let uniqueSubjects := JS.setOf l in
               foldl JS.bump counts uniqueSubjects
           | _ => counts
           end) ∅ filtered.

Definition stateCountsOf (filtered : list Book) : gmap string nat :=
  foldl (fun counts book =>
           match bans book with
           | Some bs =>
               let uniqueStates := JS.setOf (map normState bs) in
               foldl JS.bump counts uniqueStates
           | None => counts
           end) ∅ filtered.

Definition districtCountsOf (filtered : list Book) : gmap string nat :=
  foldl (fun counts book =>
           match bans book with
           | Some bs =>
               let uniqueDistricts := JS.setOf (map district bs) in
               foldl JS.bump counts uniqueDistricts
           | None => counts
           end) ∅ filtered.

Definition subjectCounts (books : list Book) (sel : Selection) :=
  subjectCountsOf (filteredBooks books sel).
Definition stateCounts (books : list Book) (sel : Selection) :=
  stateCountsOf (filteredBooks books sel).
Definition districtCounts (books : list Book) (sel : Selection) :=
  districtCountsOf (filteredBooks books sel).

(** *** The component state and its event handlers *)

Inductive SortMode := ByCount | Alpha.

Record App := mkApp {
  books : list Book;
  selection : Selection;
  statesSortBy : SortMode;
  districtsSortBy : SortMode;
  subjectsSortBy : SortMode;
  currentPage : Z;
  selectedBook : option Book
}.

(** The state the component starts in, before the data is loaded. *)
Definition initial : App :=
  {| books := [];
     selection := mkSelection [] [] [] "";
     statesSortBy := ByCount;
     districtsSortBy := ByCount;
     subjectsSortBy := ByCount;
     currentPage := 1;
     selectedBook := None |}.

Definition withSelection (app : App) (sel : Selection) : App :=
  {| books := books app; selection := sel;
     statesSortBy := statesSortBy app;
     districtsSortBy := districtsSortBy app;
     subjectsSortBy := subjectsSortBy app;
     currentPage := currentPage app;
     selectedBook := selectedBook app |}.

Definition withPage (app : App) (p : Z) : App :=
  {| books := books app; selection := selection app;
     statesSortBy := statesSortBy app;
     districtsSortBy := districtsSortBy app;
     subjectsSortBy := subjectsSortBy app;
     currentPage := p;
     selectedBook := selectedBook app |}.

(** [resetPage]: [currentPage.value = 1] *)
Definition resetPage (app : App) : App := withPage app 1.

(** The body shared by [toggleSubject], [toggleState], [toggleDistrict]:
    remove the value when it is selected, append it otherwise. *)
Definition toggleIn (l : list string) (x : string) : list string :=
  match JS.indexOf l x with
  | Some index => JS.splice1 l index
  | None => JS.push l x
  end.

(** The body shared by [removeSubject], [removeState], [removeDistrict]. *)
Definition removeFrom (l : list string) (x : string) : list string :=
  match JS.indexOf l x with
  | Some index => JS.splice1 l index
  | None => l
  end.

Definition toggleSubject (app : App) (subject : string) : App :=
  let s := selection app in
  resetPage (withSelection app
    (mkSelection (toggleIn (selectedSubjects s) subject) (selectedStates s)
                 (selectedDistricts s) (searchQuery s))).

Definition toggleState (app : App) (st : string) : App :=
  let s := selection app in
  resetPage (withSelection app
    (mkSelection (selectedSubjects s) (toggleIn (selectedStates s) st)
                 (selectedDistricts s) (searchQuery s))).

Definition toggleDistrict (app : App) (d : string) : App :=
  let s := selection app in
  resetPage (withSelection app
    (mkSelection (selectedSubjects s) (selectedStates s)
                 (toggleIn (selectedDistricts s) d) (searchQuery s))).

Definition removeSubject (app : App) (subject : string) : App :=
  let s := selection app in
  resetPage (withSelection app
    (mkSelection (removeFrom (selectedSubjects s) subject) (selectedStates s)
                 (selectedDistricts s) (searchQuery s))).

Definition removeState (app : App) (st : string) : App :=
  let s := selection app in
  resetPage (withSelection app
    (mkSelection (selectedSubjects s) (removeFrom (selectedStates s) st)
                 (selectedDistricts s) (searchQuery s))).

Definition removeDistrict (app : App) (d : string) : App :=
  let s := selection app in
  resetPage (withSelection app
    (mkSelection (selectedSubjects s) (selectedStates s)
                 (removeFrom (selectedDistricts s) d) (searchQuery s))).

Definition clearFilters (app : App) : App :=
  resetPage (withSelection app (mkSelection [] [] [] "")).

(** Typing in the search box: [v-model] stores the text and the [@input]
    listener calls [resetPage]. *)
Definition searchInput (app : App) (q : string) : App :=
  let s := selection app in
  resetPage (withSelection app
    (mkSelection (selectedSubjects s) (selectedStates s)
                 (selectedDistricts s) q)).

(** The page buttons: rendered when there is more than one page,
    [currentPage--] disabled on page 1, [currentPage++] disabled on the
    last page. *)
Definition prevPage (app : App) : App :=
  if (1 <? totalPages (books app) (selection app))%Z
     && negb (currentPage app =? 1)%Z
  then withPage app (currentPage app - 1)%Z else app.

Definition nextPage (app : App) : App :=
  if (1 <? totalPages (books app) (selection app))%Z
     && negb (currentPage app =? totalPages (books app) (selection app))%Z
  then withPage app (currentPage app + 1)%Z else app.

(** The operations that change the filter state. *)
Inductive FilterOp :=
| ToggleSubject (subject : string)
| ToggleState (st : string)
| ToggleDistrict (d : string)
| RemoveSubject (subject : string)
| RemoveState (st : string)
| RemoveDistrict (d : string)
| SearchInput (q : string)
| ClearFilters.

(** Everything the user can do to the component. *)
Inductive Event :=
| Filter (op : FilterOp)
| PrevPage
| NextPage
| LoadData (data : list Book)
| OpenBookModal (book : Book)
| CloseModal.

Definition applyFilterOp (app : App) (op : FilterOp) : App :=
  match op with
  | ToggleSubject s => toggleSubject app s
  | ToggleState s => toggleState app s
  | ToggleDistrict d => toggleDistrict app d
  | RemoveSubject s => removeSubject app s
  | RemoveState s => removeState app s
  | RemoveDistrict d => removeDistrict app d
  | SearchInput q => searchInput app q
  | ClearFilters => clearFilters app
  end.

Definition step (app : App) (ev : Event) : App :=
  match ev with
  | Filter op => applyFilterOp app op
  | PrevPage => prevPage app
  | NextPage => nextPage app
  | LoadData data =>
      {| books := data; selection := selection app;
         statesSortBy := statesSortBy app;
         districtsSortBy := districtsSortBy app;
         subjectsSortBy := subjectsSortBy app;
         currentPage := currentPage app;
         selectedBook := selectedBook app |}
  | OpenBookModal book =>
      {| books := books app; selection := selection app;
         statesSortBy := statesSortBy app;
         districtsSortBy := districtsSortBy app;
         subjectsSortBy := subjectsSortBy app;
         currentPage := currentPage app;
         selectedBook := Some book |}
  | CloseModal =>
      {| books := books app; selection := selection app;
         statesSortBy := statesSortBy app;
         districtsSortBy := districtsSortBy app;
         subjectsSortBy := subjectsSortBy app;
         currentPage := currentPage app;
         selectedBook := None |}
  end.

(** Running a sequence of events from a state. *)
Definition run (app : App) (evs : list Event) : App := foldl step app evs.

(** The states the component can be in. *)
Inductive reachable : App → Prop :=
| reachable_initial : reachable initial
| reachable_step app ev : reachable app → reachable (step app ev).

(** *** The facet lists and the filter tags *)

(** [hasActiveFilters]: some subject, state or district is selected. *)
Definition hasActiveFilters (sel : Selection) : bool :=
  (0 <? length (selectedSubjects sel))%nat
  || (0 <? length (selectedStates sel))%nat
  || (0 <? length (selectedDistricts sel))%nat.





End Explore.

(** ** The info panel of the map app *)

Module MapPanel.

Record Selection := mkSelection {
  selectedSubjects : list string;
  selectedBanStatus : list string;
  selectedPopularityLevels : list string
}.

(** [if (book.subjects)]: an absent field and the empty string are falsy. *)
Definition truthy (f : SubjectsField) : bool :=
  match f with
  | SubjectsAbsent => false
  | SubjectsScalar s => negb (bool_decide (s = ""))
  | SubjectsArray _ => true
  end.

(** [Array.isArray(book.subjects) ? book.subjects : [book.subjects]] *)
Definition asArray (f : SubjectsField) : list string :=
  match f with
  | SubjectsArray l => l
  | SubjectsScalar s => [s]
  | SubjectsAbsent => []
  end.

(** The object [subjectCounts] that [allSubjects] builds from
    [this.bannedBooks] before it sorts the entries for display. *)
Definition subjectCounts (bannedBooks : list Book) : gmap string nat :=
  foldl (fun counts book =>
           if truthy (subjects book) then
             let subjects := asArray (subjects book) in
             foldl JS.bump counts subjects
           else counts) ∅ bannedBooks.

(** [selected.includes(v)] for an optional field [v]: an absent value is
    never among the selected strings. *)
Definition includesOpt (l : list string) (v : option string) : bool :=
  match v with
  | Some x => JS.includes l x
  | None => false
  end.

Definition filteredBooks (bannedBooks : list Book) (sel : Selection)
    : list Book :=
  List.filter (fun book =>
    if (0 <? length (selectedSubjects sel))%nat
       && (negb (truthy (subjects book))
           || negb (JS.some (fun s => JS.includes (selectedSubjects sel) s)
                            (asArray (subjects book))))
    then false
    else if (0 <? length (selectedBanStatus sel))%nat
       && negb (match bans book with
                | Some bs => JS.some (fun b =>
                    includesOpt (selectedBanStatus sel) (ban_status b)) bs
                | None => false
                end)
    then false
    else if (0 <? length (selectedPopularityLevels sel))%nat
       && negb (includesOpt (selectedPopularityLevels sel)
                            (popularityLevel book))
    then false
    else true) bannedBooks.

(** *** The component state and its methods *)

(** The object that describes the selected district or military base.
    [District] is the name the bans are matched against; a base has none. *)
Record Item := mkItem {
  District : option string;
  formatted_name : option string;
  name : option string
}.

(** An entry of [districtChoices]: [{ name, count, data }]. *)
Record Choice := mkChoice {
  choice_name : option string;
  choice_count : nat;
  choice_data : Item
}.

Record Panel := mkPanel {
  selectedItem : option Item;
  itemType : option string;
  bannedBooks : list Book;
  selection : Selection;
  selectedBook : option Book;
  showingDistrictSelection : bool;
  districtChoices : list Choice
}.

(** [data()] *)
Definition initial : Panel :=
  mkPanel None None [] (mkSelection [] [] []) None false [].

(** [hasSelection] and [showFilters] *)
Definition hasSelection (p : Panel) : bool :=
  match selectedItem p with Some _ => true | None => false end.

Definition showFilters (p : Panel) : bool := (5 <? length (bannedBooks p))%nat.

(** [book.bans && book.bans.some(ban => ban.district === districtName)] *)
Definition bannedIn (districtName : option string) (book : Book) : bool :=
  match bans book with
  | Some bs => JS.some (λ ban, bool_decide (Some (district ban) = districtName)) bs
  | None => false
  end.

(** [setSelectedItem(item, type, books)]; [books] may be undefined. *)
Definition setSelectedItem (p : Panel) (item : Item) (type : string)
    (books : option (list Book)) : Panel :=
  mkPanel (Some item) (Some type) (default [] books) (mkSelection [] [] [])
          None (showingDistrictSelection p) (districtChoices p).

Definition clearSelection (p : Panel) : Panel :=
  mkPanel None None [] (mkSelection [] [] []) None
          (showingDistrictSelection p) (districtChoices p).

Definition selectBook (p : Panel) (book : Book) : Panel :=
  mkPanel (selectedItem p) (itemType p) (bannedBooks p) (selection p)
          (Some book) (showingDistrictSelection p) (districtChoices p).

Definition backToList (p : Panel) : Panel :=
  mkPanel (selectedItem p) (itemType p) (bannedBooks p) (selection p)
          None (showingDistrictSelection p) (districtChoices p).

(** The body of the three toggle methods. *)
Definition toggle (l : list string) (x : string) : list string :=
  match JS.indexOf l x with
  | Some index => JS.splice1 l index
  | None => JS.push l x
  end.

Definition withSelection (p : Panel) (sel : Selection) : Panel :=
  mkPanel (selectedItem p) (itemType p) (bannedBooks p) sel
          (selectedBook p) (showingDistrictSelection p) (districtChoices p).

Definition toggleSubject (p : Panel) (subject : string) : Panel :=
  let s := selection p in
  withSelection p (mkSelection (toggle (selectedSubjects s) subject)
                     (selectedBanStatus s) (selectedPopularityLevels s)).

Definition toggleBanStatus (p : Panel) (status : string) : Panel :=
  let s := selection p in
  withSelection p (mkSelection (selectedSubjects s)
                     (toggle (selectedBanStatus s) status)
                     (selectedPopularityLevels s)).

Definition togglePopularityLevel (p : Panel) (level : string) : Panel :=
  let s := selection p in
  withSelection p (mkSelection (selectedSubjects s) (selectedBanStatus s)
                     (toggle (selectedPopularityLevels s) level)).

(** [showDistrictSelection(districts, booksData)]: one choice per district
    of the county, with the number of books banned there. *)
Definition showDistrictSelection (p : Panel) (districts : list (string * Item))
    (booksData : list Book) : Panel :=
  mkPanel None (itemType p) (bannedBooks p) (selection p) None true
    (map (λ d, let districtName := District d.2 in
               let bannedCount :=
                 length (List.filter (bannedIn districtName) booksData) in
               mkChoice districtName bannedCount d.2) districts).

(** [selectDistrictFromList(districtData)]; [windowBooksData] is the
    global [window.booksData]. *)
Definition selectDistrictFromList (p : Panel) (windowBooksData : list Book)
    (districtData : Choice) : Panel :=
  let districtName := District (choice_data districtData) in
  let bannedBooksForDistrict :=
    List.filter (bannedIn districtName) windowBooksData in
  let p' := setSelectedItem p (choice_data districtData) "district"
                            (Some bannedBooksForDistrict) in
  mkPanel (selectedItem p') (itemType p') (bannedBooks p') (selection p')
          (selectedBook p') false (districtChoices p').

(** The books the panel lists, following the template: the district
    choices replace everything else while [showingDistrictSelection] is
    set; without a selected item the panel asks to select a location; an
    open book shows its details; otherwise the list is
    [v-for="book in filteredBooks"], inside [v-if="bannedBooks.length > 0"]. *)
Definition shownBooks (p : Panel) : list Book :=
  if showingDistrictSelection p then []
  else if negb (hasSelection p) then []
  else match selectedBook p with
       | Some _ => []
       | None =>
           if (0 <? length (bannedBooks p))%nat
           then filteredBooks (bannedBooks p) (selection p)
           else []
       end.

(** [allBanStatuses]: the distinct non-empty statuses, sorted.  The
    method calls [book.bans.forEach] without a test, so a book without a
    [bans] array raises a [TypeError]: the result is then [None]. *)
Definition addStatuses (statusSet : list string) (bs : list Ban) : list string :=
  foldl (λ set ban,
           match ban_status ban with
           | Some st => if bool_decide (st = "") then set else JS.setAdd set st
           | None => set
           end) statusSet bs.

Definition collectStatuses (bannedBooks : list Book) : option (list string) :=
  foldl (λ acc book,
           match acc, bans book with
           | Some statusSet, Some bs => Some (addStatuses statusSet bs)
           | _, _ => None
           end) (Some []) bannedBooks.

Definition allBanStatuses (bannedBooks : list Book) : option (list string) :=
  match collectStatuses bannedBooks with
  | Some statusSet => Some (JS.sort JS.compareStrings statusSet)
  | None => None
  end.

(** [allPopularityLevels]: the levels of the fixed order that some book
    has, each with its number of books. *)
Definition popularityCounts (bannedBooks : list Book) : gmap string nat :=
  foldl (λ counts book,
           match popularityLevel book with
           | Some level =>
               if bool_decide (level = "") then counts
               else JS.bump counts level
           | None => counts
           end) ∅ bannedBooks.

Definition popularityOrder : list string :=
  ["Very Popular"; "Popular"; "Medium"; "Less Popular"].

Definition allPopularityLevels (bannedBooks : list Book) : list (string * nat) :=
  let popularityCounts := popularityCounts bannedBooks in
  map (λ level, (level, JS.get popularityCounts level))
      (List.filter (λ level, (0 <? JS.get popularityCounts level)%nat)
                   popularityOrder).

End MapPanel.

(** ** The subject-by-geography report *)

Module ByState.

Record DistrictData := mkDistrictData {
  districtSubjectCounts : gmap string nat;
  districtTotalBans : nat
}.

Record StateData := mkStateData {
  districts : gmap string DistrictData;
  subjectCounts : gmap string nat;
  totalBans : nat
}.

(** The entries created on first use. *)
Definition newState : StateData := mkStateData ∅ ∅ 0.
Definition newDistrict : DistrictData := mkDistrictData ∅ 0.

(** [!s] for a string. *)
Definition falsy (s : string) : bool := bool_decide (s = "").

(** The body of [book.subjects.forEach]: both counters of a non-empty
    subject are incremented (see [JS.bump] for the subjects this covers). *)
Definition countSubject (acc : gmap string nat * gmap string nat)
    (subject : string) : gmap string nat * gmap string nat :=
  if falsy subject then acc
  else (JS.bump acc.1 subject, JS.bump acc.2 subject).

(** The body of [book.bans.forEach], for a book with subjects [subjs] and
    a ban whose state and district are outside [JS.inherited]: the entry
    of the state, and in it the entry of the district, is created when it
    is missing.  (For an inherited name [stateData[state]] finds the
    inherited value, no entry is created, and the code fails on the first
    property it reads from it; [plainPlaces] excludes such data.) *)
Definition addBan (subjs : list string) (stateData : gmap string StateData)
    (ban : Ban) : gmap string StateData :=
  if falsy (state ban) || falsy (district ban) then stateData
  else
    let sd := default newState (stateData !! state ban) in
    let dd := default newDistrict (districts sd !! district ban) in
    let counts := foldl countSubject
                    (subjectCounts sd, districtSubjectCounts dd) subjs in
    let dd' := mkDistrictData counts.2 (districtTotalBans dd + 1) in
    <[state ban := mkStateData (<[district ban := dd']> (districts sd))
                               counts.1 (totalBans sd + 1)]> stateData.

(** The body of [books.forEach]: a book is skipped unless both [bans] and
    [subjects] are arrays. *)
Definition addBook (stateData : gmap string StateData) (book : Book)
    : gmap string StateData :=
  match bans book, subjects book with
  | Some bs, SubjectsArray subjs => foldl (addBan subjs) stateData bs
  | _, _ => stateData
  end.

Definition analyzeData (books : list Book) : gmap string StateData :=
  foldl addBook ∅ books.

(** *** The sections of the report *)

(** [getTopSubjects(subjectCounts, limit)]; [entries] stands for
    [Object.entries(subjectCounts)], the pairs of the object in the order
    the engine lists them. *)
Definition getTopSubjects (entries : list (string * nat)) (limit : Z)
    : list (string * nat) :=
  JS.slice (JS.sort (λ a b, Z.of_nat b.2 - Z.of_nat a.2)%Z entries) 0 limit.

(** The two columns of a section: [topSubjects.slice(0, 10)] and
    [topSubjects.slice(10, 20)]. *)
Definition leftSubjects (topSubjects : list (string * nat)) :=
  JS.slice topSubjects 0 10.
Definition rightSubjects (topSubjects : list (string * nat)) :=
  JS.slice topSubjects 10 20.

(** The order of the states in [init] and of the districts of a state in
    [createStateSection]: by [totalBans], largest first. *)
Definition sortedStates (entries : list (string * StateData))
    : list (string * StateData) :=
  JS.sort (λ a b, Z.of_nat (totalBans b.2) - Z.of_nat (totalBans a.2))%Z entries.

Definition sortedDistricts (entries : list (string * DistrictData))
    : list (string * DistrictData) :=
  JS.sort (λ a b, Z.of_nat (districtTotalBans b.2)
                  - Z.of_nat (districtTotalBans a.2))%Z entries.

End ByState.

(** ** The map (the click handlers of the map app's main script) *)

Module MapMain.

(** [booksData.filter(book => book.bans &&
      book.bans.some(ban => ban.district === districtName))] *)
Definition bannedBooksForDistrict (booksData : list Book)
    (districtName : option string) : list Book :=
  List.filter (MapPanel.bannedIn districtName) booksData.

(** The number shown in the tooltip and stored in [data-banned-count]. *)
Definition bannedCount (booksData : list Book)
    (districtName : option string) : nat :=
  length (List.filter (MapPanel.bannedIn districtName) booksData).

(** The district name all military bases share. *)
Definition militaryDistrict : string :=
  "Department of Defense Educational Activitity".

(** What a click on a district does to the info panel: with several
    districts in the county the list of choices is shown, otherwise the
    books banned in the district. *)
Definition clickDistrict (p : MapPanel.Panel) (booksData : list Book)
    (data : MapPanel.Item) (districtsInCounty : list (string * MapPanel.Item))
    : MapPanel.Panel :=
  if (1 <? length districtsInCounty)%nat
  then MapPanel.showDistrictSelection p districtsInCounty booksData
  else MapPanel.setSelectedItem p data "district"
         (Some (bannedBooksForDistrict booksData (MapPanel.District data))).

(** What a click on a military base does to the info panel. *)
Definition clickBase (p : MapPanel.Panel) (booksData : list Book)
    (d : MapPanel.Item) : MapPanel.Panel :=
  MapPanel.setSelectedItem p d "base"
    (Some (bannedBooksForDistrict booksData (Some militaryDistrict))).

End MapMain.

(** ** Vocabulary of the properties *)

(** [a] may stand in front of [b] in a list ordered by [key], largest
    first. *)
Definition notBelow {A} (key : A → Z) (a b : A) : Prop := (key b ≤ key a)%Z.

(** The number of books of [l] whose deduplicated set of facet values
    contains [V]; [vals] gives the values of a book for the facet. *)
Definition booksWith (vals : Book → list string) (V : string)
    (l : list Book) : nat :=
  length (List.filter (λ book, bool_decide (V ∈ JS.setOf (vals book))) l).

(** What one book adds to the count of [V]. *)
Definition share (vals : Book → list string) (V : string) (book : Book) : nat :=
  if bool_decide (V ∈ vals book) then 1 else 0.

(** The subjects the map panel reads from a record: none when the field
    is falsy, the array or the single string otherwise. *)
Definition panelSubjects (book : Book) : list string :=
  if MapPanel.truthy (subjects book) then MapPanel.asArray (subjects book)
  else [].

(** The number of times [V] occurs among the subjects of the books. *)
Definition occurrences (V : string) (l : list Book) : nat :=
  length (List.filter (λ x, bool_decide (x = V))
                      (concat (map panelSubjects l))).

(** Sample records. *)
Definition bookA : Book :=
  mkBook "A" (Some "First") None (SubjectsArray ["Fiction"]) None None.

Definition bookB : Book :=
  mkBook "B" (Some "Second") None (SubjectsArray ["Fiction"; "LGBTQ"])
         (Some [mkBan "Texas" "Katy ISD" None None]) None.

Definition bookAAB : Book :=
  mkBook "C" None None (SubjectsArray ["a"; "a"; "b"])
         (Some [mkBan "Nation" "DoDEA Europe" None None;
                mkBan "Florida" "Clay County" None None;
                mkBan "Nation" "DoDEA Pacific" None None]) None.

(** A record whose [subjects] is a single string, with three ban events. *)
Definition bookScalar : Book :=
  mkBook "D" None None (SubjectsScalar "Fiction")
         (Some [mkBan "Texas" "Katy ISD" None None;
                mkBan "Texas" "Conroe ISD" None None;
                mkBan "Florida" "Clay County" None None]) None.

(** [V] is among the values of [book] for a facet. *)
Definition hasValue (vals : Book → list string) (V : string) (book : Book)
    : bool :=
  bool_decide (V ∈ vals book).

(** The selections with one more subject, state or district, as
    [push] leaves them. *)
Definition withSubject (sel : Explore.Selection) (V : string) :=
  Explore.mkSelection (JS.push (Explore.selectedSubjects sel) V)
    (Explore.selectedStates sel) (Explore.selectedDistricts sel)
    (Explore.searchQuery sel).

Definition withState (sel : Explore.Selection) (V : string) :=
  Explore.mkSelection (Explore.selectedSubjects sel)
    (JS.push (Explore.selectedStates sel) V) (Explore.selectedDistricts sel)
    (Explore.searchQuery sel).

Definition withDistrict (sel : Explore.Selection) (V : string) :=
  Explore.mkSelection (Explore.selectedSubjects sel)
    (Explore.selectedStates sel) (JS.push (Explore.selectedDistricts sel) V)
    (Explore.searchQuery sel).

(** Two lists hold the same values. *)
Definition sameValues (l l' : list string) : Prop := ∀ x, x ∈ l ↔ x ∈ l'.

(** The explorer after loading the three sample records. *)
Definition sampleApp : Explore.App :=
  Explore.step Explore.initial (Explore.LoadData [bookA; bookB; bookAAB]).



(** [q] occurs in [s]: [s] is [pre ++ q ++ post]. *)
Definition occursIn (q s : string) : Prop :=
  ∃ pre post, s = String.append pre (String.append q post).

(** The strings of ASCII characters, on which [JS.toLowerCase] is the
    lower-casing of the language; [asciiField] is the same for a field
    that may be absent. *)
Fixpoint isAscii (s : string) : bool :=
  match s with
  | EmptyString => true
  | String c s' => (nat_of_ascii c <? 128)%nat && isAscii s'
  end.

Definition asciiField (field : option string) : bool :=
  match field with
  | Some s => isAscii s
  | None => true
  end.

(** The book with its title and author in lower case. *)
Definition lowerCased (book : Book) : Book :=
  mkBook (id book) (JS.toLowerCase <$> title book)
         (JS.toLowerCase <$> author book) (subjects book) (bans book)
         (popularityLevel book).

(** The selection with another search text. *)
Definition withQuery (sel : Explore.Selection) (q : string) :=
  Explore.mkSelection (Explore.selectedSubjects sel)
    (Explore.selectedStates sel) (Explore.selectedDistricts sel) q.


(** The order of the default sort of strings. *)
Definition strLe (a b : string) : Prop := String.leb a b = true.

(** [book] has the popularity level [level]. *)
Definition hasLevel (level : string) (book : Book) : bool :=
  bool_decide (popularityLevel book = Some level).

(** Some ban of some book of the list has the status [st]. *)
Definition statusOccurs (bannedBooks : list Book) (st : string) : Prop :=
  ∃ book bs ban, book ∈ bannedBooks ∧ bans book = Some bs ∧ ban ∈ bs
                 ∧ ban_status ban = Some st.

(** Two sample districts of one county and a map panel. *)
Definition katy : MapPanel.Item := MapPanel.mkItem (Some "Katy ISD") None None.

(** The ban events the report counts: those with a non-empty state and
    district, of the books whose [bans] and [subjects] are arrays; each
    comes with the subjects of its book. *)
Definition counted (ban : Ban) : bool :=
  negb (ByState.falsy (state ban)) && negb (ByState.falsy (district ban)).

Definition countedBans (books : list Book) : list (list string * Ban) :=
  concat (map (λ book,
                 match bans book, subjects book with
                 | Some bs, SubjectsArray subjs =>
                     map (pair subjs) (List.filter counted bs)
                 | _, _ => []
                 end) books).

(** No counted ban names a state or a district that is one of the names
    every plain object inherits: the data on which [analyzeData] runs to
    the end and [ByState.addBan] describes it. *)
Definition plainPlaces (books : list Book) : Prop :=
  Forall (λ e, (state e.2 ∉ JS.inherited) ∧ (district e.2 ∉ JS.inherited))
         (countedBans books).

Definition inState (s : string) (e : list string * Ban) : bool :=
  bool_decide (state e.2 = s).

Definition inDistrict (s d : string) (e : list string * Ban) : bool :=
  bool_decide (state e.2 = s) && bool_decide (district e.2 = d).

(** How often the subject [V] is mentioned by the events [es]. *)
Definition mentions (V : string) (es : list (list string * Ban)) : nat :=
  length (List.filter (λ x, bool_decide (x = V)) (concat (map fst es))).

(** Readings of the report, 0 where the state or district has no entry. *)
Definition stateTotal (stateData : gmap string ByState.StateData)
    (s : string) : nat :=
  match stateData !! s with
  | Some sd => ByState.totalBans sd
  | None => 0
  end.

Definition districtsOf (stateData : gmap string ByState.StateData)
    (s : string) : gmap string ByState.DistrictData :=
  match stateData !! s with
  | Some sd => ByState.districts sd
  | None => ∅
  end.

Definition districtTotal (stateData : gmap string ByState.StateData)
    (s d : string) : nat :=
  match districtsOf stateData s !! d with
  | Some dd => ByState.districtTotalBans dd
  | None => 0
  end.

Definition stateSubjectCount (stateData : gmap string ByState.StateData)
    (s V : string) : nat :=
  match stateData !! s with
  | Some sd => JS.get (ByState.subjectCounts sd) V
  | None => 0
  end.

Definition districtSubjectCount (stateData : gmap string ByState.StateData)
    (s d V : string) : nat :=
  match districtsOf stateData s !! d with
  | Some dd => JS.get (ByState.districtSubjectCounts dd) V
  | None => 0
  end.

(** The sum of [totalBans] over the districts of a state. *)
Definition sumTotals (ds : gmap string ByState.DistrictData) : nat :=
  map_fold (λ _ dd n, (ByState.districtTotalBans dd + n)%nat) 0%nat ds.

(** The sum of the counts of the subject [V] over the districts of a
    state. *)
Definition sumSubject (V : string) (ds : gmap string ByState.DistrictData)
    : nat :=
  map_fold (λ _ dd n, (JS.get (ByState.districtSubjectCounts dd) V + n)%nat)
           0%nat ds.

(** The entry of a state agrees with the entries of its districts. *)
Definition addsUp (sd : ByState.StateData) : Prop :=
  ByState.totalBans sd = sumTotals (ByState.districts sd)
  ∧ (∀ V, JS.get (ByState.subjectCounts sd) V
          = sumSubject V (ByState.districts sd))
  ∧ (∀ d dd, ByState.districts sd !! d = Some dd →
             (1 ≤ ByState.districtTotalBans dd)%nat).

(** What the user can do to the info panel of the map: click a district
    or a military base on the map, take one of the offered districts, tick
    a filter, open a book and go back, and click the empty map (or the
    close button, which does the same). *)
Inductive PanelEvent :=
| ClickDistrict (data : MapPanel.Item)
                (districtsInCounty : list (string * MapPanel.Item))
| ClickBase (d : MapPanel.Item)
| ChooseDistrict (choice : MapPanel.Choice)
| TickSubject (subject : string)
| TickBanStatus (status : string)
| TickPopularityLevel (level : string)
| OpenBook (book : Book)
| BackToList
| ClickMap.

(** One step of the panel over the loaded data set [booksData] (which is
    also [window.booksData]). *)
Definition panelStep (booksData : list Book) (p : MapPanel.Panel)
    (ev : PanelEvent) : MapPanel.Panel :=
  match ev with
  | ClickDistrict data districtsInCounty =>
      MapMain.clickDistrict p booksData data districtsInCounty
  | ClickBase d => MapMain.clickBase p booksData d
  | ChooseDistrict choice => MapPanel.selectDistrictFromList p booksData choice
  | TickSubject subject => MapPanel.toggleSubject p subject
  | TickBanStatus status => MapPanel.toggleBanStatus p status
  | TickPopularityLevel level => MapPanel.togglePopularityLevel p level
  | OpenBook book => MapPanel.selectBook p book
  | BackToList => MapPanel.backToList p
  | ClickMap => MapPanel.clearSelection p
  end.

Inductive panelReachable (booksData : list Book) : MapPanel.Panel → Prop :=
| panelReachable_initial : panelReachable booksData MapPanel.initial
| panelReachable_step p ev :
    panelReachable booksData p →
    panelReachable booksData (panelStep booksData p ev).

(** * Properties *)

(** ** The stable sort by a numeric key, largest first *)

Section DescendingSort.
Context {A : Type} (key : A → Z).

Let cmp (a b : A) : Z := (key b - key a)%Z.

Lemma sort_insert_perm (x : A) (l : list A) :
  JS.sort_insert cmp x l ≡ₚ x :: l.
Proof.
  induction l as [|y l IH]; simpl; [done|].
  destruct (cmp x y <=? 0)%Z; [done|].
  rewrite IH. apply Permutation_swap.
Qed.

Lemma sort_perm (l : list A) : JS.sort cmp l ≡ₚ l.
Proof.
  induction l as [|x l IH]; simpl; [done|].
  rewrite sort_insert_perm. by rewrite IH.
Qed.

Lemma sort_insert_sorted (x : A) (l : list A) :
  StronglySorted (notBelow key) l → StronglySorted (notBelow key) (JS.sort_insert cmp x l).
Proof.
  induction 1 as [|y l Hl IH Hy]; simpl.
  - repeat constructor.
  - destruct (Z.leb_spec (cmp x y) 0) as [Hle|Hgt].
    + unfold cmp in Hle. constructor; [by constructor|].
      constructor; [unfold notBelow; lia|].
      eapply Forall_impl; [exact Hy|]. unfold notBelow. intros; lia.
    + unfold cmp in Hgt. constructor; [done|].
      rewrite sort_insert_perm. constructor; [unfold notBelow; lia|done].
Qed.

Lemma sort_sorted (l : list A) : StronglySorted (notBelow key) (JS.sort cmp l).
Proof.
  induction l as [|x l IH]; simpl; [constructor|].
  by apply sort_insert_sorted.
Qed.

(** Inserting does not disturb the order among the elements of one key. *)
Lemma sort_insert_stable (k : Z) (x : A) (l : list A) :
  List.filter (λ a, key a =? k)%Z (JS.sort_insert cmp x l)
  = List.filter (λ a, key a =? k)%Z (x :: l).
Proof.
  induction l as [|y l IH]; [done|]. simpl JS.sort_insert.
  destruct (Z.leb_spec (cmp x y) 0) as [Hle|Hgt]; [done|].
  unfold cmp in Hgt. cbn [List.filter] in *. rewrite IH.
  destruct (Z.eqb_spec (key x) k), (Z.eqb_spec (key y) k); try done; lia.
Qed.

Lemma sort_stable (k : Z) (l : list A) :
  List.filter (λ a, key a =? k)%Z (JS.sort cmp l)
  = List.filter (λ a, key a =? k)%Z l.
Proof.
  induction l as [|x l IH]; [done|]. simpl JS.sort.
  rewrite sort_insert_stable. cbn [List.filter]. by rewrite IH.
Qed.

(** A list already in order is left as it is. *)
Lemma sort_sorted_id (l : list A) :
  StronglySorted (notBelow key) l → JS.sort cmp l = l.
Proof.
  induction 1 as [|x l Hl IH Hx]; [done|]. simpl. rewrite IH.
  destruct Hx as [|y l Hy _]; [done|]. simpl.
  destruct (Z.leb_spec (cmp x y) 0) as [Hle|Hgt]; [done|].
  unfold cmp, notBelow in *. lia.
Qed.

Lemma sort_idem (l : list A) : JS.sort cmp (JS.sort cmp l) = JS.sort cmp l.
Proof. apply sort_sorted_id, sort_sorted. Qed.

End DescendingSort.

(** ** Filtering *)

Lemma filter_all_true {A} (p : A → bool) (l : list A) :
  Forall (λ a, p a = true) l → List.filter p l = l.
Proof.
  induction 1 as [|x l Hx _ IH]; [done|]. simpl. by rewrite Hx, IH.
Qed.

Lemma elem_of_List_filter {A} (p : A → bool) (l : list A) (x : A) :
  x ∈ List.filter p l ↔ x ∈ l ∧ p x = true.
Proof. rewrite !list_elem_of_In. apply filter_In. Qed.

Lemma every_spec {A} (p : A → bool) (l : list A) :
  JS.every p l = true ↔ ∀ x, x ∈ l → p x = true.
Proof.
  unfold JS.every. rewrite forallb_forall.
  split; intros H x Hx; apply H; by apply list_elem_of_In.
Qed.

Lemma some_spec {A} (p : A → bool) (l : list A) :
  JS.some p l = true ↔ ∃ x, x ∈ l ∧ p x = true.
Proof.
  unfold JS.some. rewrite existsb_exists.
  split; intros (x & Hx & Hp); exists x; split; try done;
    by apply list_elem_of_In.
Qed.

Lemma includes_spec (l : list string) (x : string) :
  JS.includes l x = true ↔ x ∈ l.
Proof. unfold JS.includes. apply bool_decide_eq_true. Qed.

(** ** Counters *)

Lemma get_bump (m : gmap string nat) (k k' : string) :
  JS.get (JS.bump m k) k'
  = (JS.get m k' + if bool_decide (k' = k) then 1 else 0)%nat.
Proof.
  unfold JS.get, JS.bump. case_bool_decide as Hk.
  - subst. by rewrite lookup_insert_eq.
  - rewrite lookup_insert_ne by done. lia.
Qed.

Lemma lookup_bump_ne (m : gmap string nat) (k k' : string) :
  k' ≠ k → JS.bump m k !! k' = m !! k'.
Proof. intros. unfold JS.bump. by rewrite lookup_insert_ne. Qed.

Lemma lookup_bumps_notin (l : list string) (m : gmap string nat) (k : string) :
  k ∉ l → foldl JS.bump m l !! k = m !! k.
Proof.
  revert m. induction l as [|x l IH]; intros m Hk; [done|].
  apply not_elem_of_cons in Hk as [Hx Hl]. simpl.
  rewrite IH by done. by apply lookup_bump_ne.
Qed.

(** Bumping once for every member of a duplicate-free list adds one to
    the counters of its members and leaves the others alone. *)
Lemma get_bumps_NoDup (l : list string) (m : gmap string nat) (k : string) :
  NoDup l →
  JS.get (foldl JS.bump m l) k
  = (JS.get m k + if bool_decide (k ∈ l) then 1 else 0)%nat.
Proof.
  intros Hl. revert m. induction Hl as [|x l Hx Hl IH]; intros m; cbn [foldl].
  - rewrite bool_decide_eq_false_2 by apply not_elem_of_nil. lia.
  - rewrite IH, get_bump.
    destruct (decide (k = x)) as [->|Hne].
    + rewrite (bool_decide_eq_false_2 (x ∈ l)) by done.
      rewrite !bool_decide_eq_true_2; [lia|apply list_elem_of_here|reflexivity].
    + rewrite (bool_decide_eq_false_2 (k = x)) by done.
      rewrite (bool_decide_ext (k ∈ x :: l) (k ∈ l)); [lia|].
      rewrite elem_of_cons. split; [intros [?|?]; [congruence|done]|by right].
Qed.

(** Bumping for every occurrence counts the occurrences. *)
Lemma get_bumps_occurrences (l : list string) (m : gmap string nat) (k : string) :
  JS.get (foldl JS.bump m l) k
  = (JS.get m k + length (List.filter (λ x, bool_decide (x = k)) l))%nat.
Proof.
  revert m. induction l as [|x l IH]; intros m; simpl; [lia|].
  rewrite IH, get_bump.
  rewrite (bool_decide_ext (k = x) (x = k)) by naive_solver.
  case_bool_decide; simpl; lia.
Qed.

Lemma NoDup_setOf (l : list string) : NoDup (JS.setOf l).
Proof.
  unfold JS.setOf. rewrite <- Permutation_rev. apply NoDup_remove_dups.
Qed.

Lemma elem_of_setOf (l : list string) (x : string) : x ∈ JS.setOf l ↔ x ∈ l.
Proof.
  unfold JS.setOf.
  by rewrite <- Permutation_rev, elem_of_remove_dups, <- Permutation_rev.
Qed.

Lemma get_bumps_setOf (l : list string) (m : gmap string nat) (k : string) :
  JS.get (foldl JS.bump m (JS.setOf l)) k
  = (JS.get m k + if bool_decide (k ∈ l) then 1 else 0)%nat.
Proof.
  rewrite get_bumps_NoDup by apply NoDup_setOf.
  by rewrite (bool_decide_ext _ _ (elem_of_setOf l k)).
Qed.

Lemma booksWith_cons vals V book l :
  booksWith vals V (book :: l) = (share vals V book + booksWith vals V l)%nat.
Proof.
  unfold booksWith, share. simpl.
  rewrite (bool_decide_ext _ _ (elem_of_setOf (vals book) V)).
  by case_bool_decide.
Qed.

Lemma booksWith_app vals V l1 l2 :
  booksWith vals V (l1 ++ l2)
  = (booksWith vals V l1 + booksWith vals V l2)%nat.
Proof.
  unfold booksWith. by rewrite List.filter_app, length_app.
Qed.

(** A facet count built by folding a per-book step over the books. *)
Section FacetFold.
Context (f : gmap string nat → Book → gmap string nat).
Context (vals : Book → list string).
Hypothesis f_get : ∀ counts book V,
  JS.get (f counts book) V = (JS.get counts V + share vals V book)%nat.
Hypothesis f_lookup : ∀ counts book V,
  V ∉ vals book → f counts book !! V = counts !! V.

Lemma facet_fold_get (l : list Book) (m : gmap string nat) (V : string) :
  JS.get (foldl f m l) V = (JS.get m V + booksWith vals V l)%nat.
Proof.
  revert m. induction l as [|book l IH]; intros m; simpl.
  - unfold booksWith. simpl. lia.
  - rewrite IH, f_get, booksWith_cons. lia.
Qed.

Lemma facet_fold_absent (l : list Book) (m : gmap string nat) (V : string) :
  (∀ book, book ∈ l → V ∉ vals book) → foldl f m l !! V = m !! V.
Proof.
  revert m. induction l as [|book l IH]; intros m Hl; simpl; [done|].
  rewrite IH.
  - apply f_lookup, Hl, list_elem_of_here.
  - intros b Hb. by apply Hl, list_elem_of_further.
Qed.

(** The entry of [V] itself: absent when no book has [V], the number of
    books that have it otherwise. *)
Lemma facet_fold_lookup (l : list Book) (V : string) :
  foldl f ∅ l !! V
  = if decide (booksWith vals V l = 0%nat) then None
    else Some (booksWith vals V l).
Proof.
  case_decide as Hn.
  - rewrite facet_fold_absent; [apply lookup_empty|].
    intros book Hin Hv. unfold booksWith in Hn.
    apply length_zero_iff_nil in Hn.
    assert (book ∈ List.filter
              (λ book, bool_decide (V ∈ JS.setOf (vals book))) l) as Hc.
    { apply elem_of_List_filter. split; [done|].
      apply bool_decide_eq_true. by apply elem_of_setOf. }
    rewrite Hn in Hc. by apply not_elem_of_nil in Hc.
  - pose proof (facet_fold_get l ∅ V) as Hg. unfold JS.get in Hg.
    rewrite lookup_empty in Hg. simpl in Hg.
    destruct (foldl f ∅ l !! V) as [n|]; simpl in Hg; [by subst|done].
Qed.

End FacetFold.

(** The three per-book steps of the explorer. *)
Lemma subject_step_get counts book V :
  JS.get (match subjects book with
          | SubjectsArray l => foldl JS.bump counts (JS.setOf l)
          | _ => counts
          end) V
  = (JS.get counts V + share Explore.subjectValues V book)%nat.
Proof.
  unfold share, Explore.subjectValues.
  destruct (subjects book); try apply get_bumps_setOf;
    (rewrite bool_decide_eq_false_2 by apply not_elem_of_nil); lia.
Qed.

Lemma subject_step_absent counts book V :
  V ∉ Explore.subjectValues book →
  match subjects book with
  | SubjectsArray l => foldl JS.bump counts (JS.setOf l)
  | _ => counts
  end !! V = counts !! V.
Proof.
  unfold Explore.subjectValues. destruct (subjects book); try done.
  intros. apply lookup_bumps_notin. by rewrite elem_of_setOf.
Qed.

Lemma bans_step_get (g : Ban → string) counts book V :
  JS.get (match bans book with
          | Some bs => foldl JS.bump counts (JS.setOf (map g bs))
          | None => counts
          end) V
  = (JS.get counts V
     + share (λ b, match bans b with Some bs => map g bs | None => [] end)
             V book)%nat.
Proof.
  unfold share. destruct (bans book); [apply get_bumps_setOf|].
  rewrite bool_decide_eq_false_2 by apply not_elem_of_nil. lia.
Qed.

Lemma bans_step_absent (g : Ban → string) counts book V :
  V ∉ match bans book with Some bs => map g bs | None => [] end →
  match bans book with
  | Some bs => foldl JS.bump counts (JS.setOf (map g bs))
  | None => counts
  end !! V = counts !! V.
Proof.
  destruct (bans book); [|done].
  intros. apply lookup_bumps_notin. by rewrite elem_of_setOf.
Qed.

Lemma get_empty (V : string) : JS.get ∅ V = 0%nat.
Proof. unfold JS.get. by rewrite lookup_empty. Qed.

Lemma subjectCountsOf_get l V :
  JS.get (Explore.subjectCountsOf l) V = booksWith Explore.subjectValues V l.
Proof.
  unfold Explore.subjectCountsOf.
  rewrite (facet_fold_get _ Explore.subjectValues); [by rewrite get_empty|].
  intros. apply subject_step_get.
Qed.

Lemma stateCountsOf_get l V :
  JS.get (Explore.stateCountsOf l) V = booksWith Explore.stateValues V l.
Proof.
  unfold Explore.stateCountsOf.
  rewrite (facet_fold_get _ Explore.stateValues); [by rewrite get_empty|].
  intros. apply (bans_step_get Explore.normState).
Qed.

Lemma subjectCountsOf_lookup l V :
  Explore.subjectCountsOf l !! V
  = if decide (booksWith Explore.subjectValues V l = 0%nat) then None
    else Some (booksWith Explore.subjectValues V l).
Proof.
  unfold Explore.subjectCountsOf. apply facet_fold_lookup; intros.
  - apply subject_step_get.
  - by apply subject_step_absent.
Qed.

Lemma stateCountsOf_lookup l V :
  Explore.stateCountsOf l !! V
  = if decide (booksWith Explore.stateValues V l = 0%nat) then None
    else Some (booksWith Explore.stateValues V l).
Proof.
  unfold Explore.stateCountsOf. apply facet_fold_lookup; intros.
  - apply (bans_step_get Explore.normState).
  - by apply (bans_step_absent Explore.normState).
Qed.

Lemma districtCountsOf_lookup l V :
  Explore.districtCountsOf l !! V
  = if decide (booksWith Explore.districtValues V l = 0%nat) then None
    else Some (booksWith Explore.districtValues V l).
Proof.
  unfold Explore.districtCountsOf. apply facet_fold_lookup; intros.
  - apply (bans_step_get district).
  - by apply (bans_step_absent district).
Qed.

Lemma districtCountsOf_get l V :
  JS.get (Explore.districtCountsOf l) V = booksWith Explore.districtValues V l.
Proof.
  unfold Explore.districtCountsOf.
  rewrite (facet_fold_get _ Explore.districtValues); [by rewrite get_empty|].
  intros. apply (bans_step_get district).
Qed.

(** ** The filter of the explorer *)

Lemma keeps_spec sel book :
  Explore.keeps sel book = true ↔
  Explore.searchClause sel book = true ∧ Explore.subjectClause sel book = true
  ∧ Explore.stateClause sel book = true
  ∧ Explore.districtClause sel book = true.
Proof.
  unfold Explore.keeps.
  destruct (Explore.searchClause sel book), (Explore.subjectClause sel book),
    (Explore.stateClause sel book), (Explore.districtClause sel book);
    simpl; intuition congruence.
Qed.

Lemma filteredBooks_perm books sel :
  Explore.filteredBooks books sel ≡ₚ List.filter (Explore.keeps sel) books.
Proof. unfold Explore.filteredBooks. apply (sort_perm Explore.banCount). Qed.

Lemma elem_of_filteredBooks books sel book :
  book ∈ Explore.filteredBooks books sel
  ↔ book ∈ books ∧ Explore.keeps sel book = true.
Proof. by rewrite filteredBooks_perm, elem_of_List_filter. Qed.

Lemma nonempty_length {A} (l : list A) : l ≠ [] → (0 <? length l)%nat = true.
Proof. destruct l; [done|]. intros _. reflexivity. Qed.

Lemma subjectClause_spec sel book :
  Explore.selectedSubjects sel ≠ [] →
  Explore.subjectClause sel book = true
  ↔ ∀ s, s ∈ Explore.selectedSubjects sel → s ∈ Explore.subjectValues book.
Proof.
  intros Hne. unfold Explore.subjectClause, Explore.subjectValues.
  rewrite nonempty_length by done.
  destruct (subjects book) as [|x|l].
  - split; [done|]. intros H. destruct (Explore.selectedSubjects sel) as [|s ?];
      [done|]. exfalso. eapply not_elem_of_nil, (H s), list_elem_of_here.
  - split; [done|]. intros H. destruct (Explore.selectedSubjects sel) as [|s ?];
      [done|]. exfalso. eapply not_elem_of_nil, (H s), list_elem_of_here.
  - rewrite every_spec. by setoid_rewrite includes_spec.
Qed.

(** The subject test of the map panel, read off its filter when no ban
    status and no popularity level is selected. *)
Lemma elem_of_panel_filteredBooks bannedBooks subjs book :
  subjs ≠ [] →
  book ∈ MapPanel.filteredBooks bannedBooks (MapPanel.mkSelection subjs [] [])
  ↔ book ∈ bannedBooks
    ∧ ∃ s, s ∈ panelSubjects book ∧ s ∈ subjs.
Proof.
  intros Hne. unfold MapPanel.filteredBooks. rewrite elem_of_List_filter.
  cbn [MapPanel.selectedSubjects MapPanel.selectedBanStatus
       MapPanel.selectedPopularityLevels length].
  rewrite nonempty_length by done. unfold panelSubjects.
  change (0 <? 0)%nat with false. cbn [andb].
  destruct (MapPanel.truthy (subjects book)); cbn [negb orb].
  - destruct (JS.some _ _) eqn:Hs; cbn [negb].
    + apply some_spec in Hs as (s & Hel & Hin). apply includes_spec in Hin.
      split; intros [? _]; eauto.
    + split; [intros [_ ?]; done|]. intros [_ (s & Hel & Hin)].
      assert (JS.some (λ s, JS.includes subjs s)
                (MapPanel.asArray (subjects book)) = true) as Hc; [|congruence].
      apply some_spec. exists s. by rewrite includes_spec.
  - split; [intros [_ ?]; done|]. intros [_ (s & Hs & _)].
    by apply not_elem_of_nil in Hs.
Qed.

(** C1, the book explorer and the map panel: when some subject is
    selected, the subject clause of the explorer admits a book exactly when
    the book's subjects contain every selected value, and a book is in the
    explorer's filtered list exactly when it is in the input, carries all
    selected subjects and passes the other clauses; with "Fiction" and
    "LGBTQ" selected, of a book with subjects ["Fiction"] and a book with
    subjects ["Fiction","LGBTQ"] only the second is returned.  The map
    panel's filter instead keeps a book as soon as it carries one of the
    selected subjects. *)
Theorem subject_clause_has_all (books : list Book) (sel : Explore.Selection) :
  Explore.selectedSubjects sel ≠ [] →
  (∀ book, Explore.subjectClause sel book = true
     ↔ ∀ s, s ∈ Explore.selectedSubjects sel → s ∈ Explore.subjectValues book)
  ∧ (∀ book, book ∈ Explore.filteredBooks books sel
     ↔ book ∈ books
       ∧ (∀ s, s ∈ Explore.selectedSubjects sel → s ∈ Explore.subjectValues book)
       ∧ Explore.searchClause sel book = true
       ∧ Explore.stateClause sel book = true
       ∧ Explore.districtClause sel book = true)
  ∧ (∀ A B, subjects A = SubjectsArray ["Fiction"] →
       subjects B = SubjectsArray ["Fiction"; "LGBTQ"] →
       Explore.filteredBooks [A; B]
         (Explore.mkSelection ["Fiction"; "LGBTQ"] [] [] "") = [B])
  ∧ (∀ bannedBooks book,
       book ∈ MapPanel.filteredBooks bannedBooks
                (MapPanel.mkSelection (Explore.selectedSubjects sel) [] [])
       ↔ book ∈ bannedBooks
         ∧ ∃ s, s ∈ panelSubjects book ∧ s ∈ Explore.selectedSubjects sel).
Proof.
  intros Hne. split; [|split; [|split]].
  - intros book. by apply subjectClause_spec.
  - intros book. rewrite elem_of_filteredBooks, keeps_spec.
    rewrite subjectClause_spec by done. tauto.
  - intros A B HA HB. unfold Explore.filteredBooks. cbn [List.filter].
    unfold Explore.keeps, Explore.searchClause, Explore.subjectClause,
      Explore.stateClause, Explore.districtClause.
    cbn [Explore.searchQuery Explore.selectedSubjects Explore.selectedStates
         Explore.selectedDistricts].
    rewrite HA, HB. reflexivity.
  - intros bannedBooks book. by apply elem_of_panel_filteredBooks.
Qed.

Lemma subject_clause_has_all_witness :
  Explore.selectedSubjects (Explore.mkSelection ["Fiction"; "LGBTQ"] [] [] "")
    ≠ []
  ∧ Explore.filteredBooks [bookA; bookB]
      (Explore.mkSelection ["Fiction"; "LGBTQ"] [] [] "") = [bookB].
Proof.
  assert (Explore.selectedSubjects
            (Explore.mkSelection ["Fiction"; "LGBTQ"] [] [] "") ≠ []) as Hne
    by discriminate.
  split; [exact Hne|].
  exact (proj1 (proj2 (proj2
    (subject_clause_has_all [bookA; bookB] _ Hne))) bookA bookB eq_refl eq_refl).
Defined.

(** C1 as stated fails in the map panel: with "Fiction" and "LGBTQ"
    selected the panel returns both sample books, although the first one
    does not carry "LGBTQ". *)
Lemma map_panel_subject_filter_has_any :
  MapPanel.filteredBooks [bookA; bookB]
    (MapPanel.mkSelection ["Fiction"; "LGBTQ"] [] []) = [bookA; bookB]
  ∧ subjects bookA = SubjectsArray ["Fiction"]
  ∧ subjects bookB = SubjectsArray ["Fiction"; "LGBTQ"]
  ∧ MapPanel.filteredBooks [bookA; bookB]
      (MapPanel.mkSelection ["Fiction"; "LGBTQ"] [] []) ≠ [bookB].
Proof. repeat split; try reflexivity. vm_compute. discriminate. Qed.

(** ** Facet counts *)

Lemma occurrences_cons V book l :
  occurrences V (book :: l)
  = (length (List.filter (λ x, bool_decide (x = V)) (panelSubjects book))
     + occurrences V l)%nat.
Proof.
  unfold occurrences. cbn [map concat].
  by rewrite List.filter_app, length_app.
Qed.

Lemma panel_counts_fold (l : list Book) (m : gmap string nat) (V : string) :
  JS.get (foldl (λ counts book,
            if MapPanel.truthy (subjects book)
            then foldl JS.bump counts (MapPanel.asArray (subjects book))
            else counts) m l) V
  = (JS.get m V + occurrences V l)%nat.
Proof.
  revert m. induction l as [|book l IH]; intros m; cbn [foldl].
  - unfold occurrences. simpl. lia.
  - rewrite IH, occurrences_cons. unfold panelSubjects.
    destruct (MapPanel.truthy (subjects book)).
    + rewrite get_bumps_occurrences. lia.
    + simpl. lia.
Qed.

Lemma panel_counts_get (l : list Book) (V : string) :
  JS.get (MapPanel.subjectCounts l) V = occurrences V l.
Proof.
  unfold MapPanel.subjectCounts. by rewrite panel_counts_fold, get_empty.
Qed.

Lemma filter_drop {A} (p : A → bool) (pre post : list A) (x : A) :
  p x = false → List.filter p (pre ++ x :: post) = List.filter p (pre ++ post).
Proof.
  intros Hx. rewrite !List.filter_app. cbn [List.filter]. by rewrite Hx.
Qed.

(** C2, the book explorer and the map panel: in the explorer the count of
    a facet value [V] for subjects, states and districts, [V] not being
    one of the names every plain object inherits, is the number of books
    of the filtered list whose deduplicated values contain [V]; the entry
    of [V] is that number, and is absent when the number is 0.  A book the
    filter rejects adds nothing to any count: the counters are those of
    the data without it.  The counts of the map panel's [allSubjects] are
    taken over all of [bannedBooks], one per occurrence, and do not depend
    on the panel's selection. *)
Theorem facet_counts_over_filtered (books : list Book)
    (sel : Explore.Selection) (V : string) :
  (V ∉ JS.inherited →
   JS.get (Explore.subjectCounts books sel) V
    = booksWith Explore.subjectValues V (Explore.filteredBooks books sel)
  ∧ JS.get (Explore.stateCounts books sel) V
    = booksWith Explore.stateValues V (Explore.filteredBooks books sel)
  ∧ JS.get (Explore.districtCounts books sel) V
    = booksWith Explore.districtValues V (Explore.filteredBooks books sel)
  ∧ (Explore.subjectCounts books sel !! V
     = if decide (booksWith Explore.subjectValues V
                    (Explore.filteredBooks books sel) = 0%nat)
       then None
       else Some (booksWith Explore.subjectValues V
                    (Explore.filteredBooks books sel)))
  ∧ (Explore.stateCounts books sel !! V
     = if decide (booksWith Explore.stateValues V
                    (Explore.filteredBooks books sel) = 0%nat)
       then None
       else Some (booksWith Explore.stateValues V
                    (Explore.filteredBooks books sel)))
  ∧ (Explore.districtCounts books sel !! V
     = if decide (booksWith Explore.districtValues V
                    (Explore.filteredBooks books sel) = 0%nat)
       then None
       else Some (booksWith Explore.districtValues V
                    (Explore.filteredBooks books sel))))
  ∧ (∀ pre book post,
       books = pre ++ book :: post → Explore.keeps sel book = false →
       Explore.subjectCounts books sel = Explore.subjectCounts (pre ++ post) sel
       ∧ Explore.stateCounts books sel = Explore.stateCounts (pre ++ post) sel
       ∧ Explore.districtCounts books sel
         = Explore.districtCounts (pre ++ post) sel)
  ∧ (V ∉ JS.inherited →
     JS.get (MapPanel.subjectCounts books) V = occurrences V books).
Proof.
  split; [intros _|].
  { split; [apply subjectCountsOf_get|].
    split; [apply stateCountsOf_get|].
    split; [apply districtCountsOf_get|].
    split; [apply subjectCountsOf_lookup|].
    split; [apply stateCountsOf_lookup|].
    apply districtCountsOf_lookup. }
  split; [|intros _; apply panel_counts_get].
  intros pre book post -> Hk.
  unfold Explore.subjectCounts, Explore.stateCounts, Explore.districtCounts,
    Explore.filteredBooks.
  by rewrite (filter_drop _ pre post book Hk).
Qed.

Lemma facet_counts_over_filtered_witness :
  Explore.keeps (Explore.mkSelection ["LGBTQ"] [] [] "") bookA = false
  ∧ Explore.subjectCounts [bookA; bookB] (Explore.mkSelection ["LGBTQ"] [] [] "")
    = Explore.subjectCounts [bookB] (Explore.mkSelection ["LGBTQ"] [] [] "")
  ∧ JS.get (Explore.subjectCounts [bookA; bookB]
              (Explore.mkSelection ["LGBTQ"] [] [] "")) "Fiction" = 1%nat.
Proof.
  assert (Explore.keeps (Explore.mkSelection ["LGBTQ"] [] [] "") bookA = false)
    as Hk by reflexivity.
  assert ("Fiction" ∉ JS.inherited) as Hplain
    by (apply (bool_decide_unpack _); vm_compute; exact I).
  split; [exact Hk|]. split.
  - destruct (facet_counts_over_filtered [bookA; bookB]
         (Explore.mkSelection ["LGBTQ"] [] [] "") "Fiction")
      as (_ & Hdrop & _).
    exact (proj1 (Hdrop [] bookA [bookB] eq_refl Hk)).
  - rewrite (proj1 (proj1 (facet_counts_over_filtered [bookA; bookB]
         (Explore.mkSelection ["LGBTQ"] [] [] "") "Fiction") Hplain)).
    reflexivity.
Defined.

(** C2 as stated fails in the map panel: with "LGBTQ" selected the panel
    shows only the second sample book, yet the count of "Fiction" is 2: the
    rejected first book is counted. *)
Lemma map_panel_counts_ignore_filter :
  MapPanel.filteredBooks [bookA; bookB] (MapPanel.mkSelection ["LGBTQ"] [] [])
    = [bookB]
  ∧ JS.get (MapPanel.subjectCounts [bookA; bookB]) "Fiction" = 2%nat
  ∧ booksWith panelSubjects "Fiction"
      (MapPanel.filteredBooks [bookA; bookB]
         (MapPanel.mkSelection ["LGBTQ"] [] [])) = 1%nat.
Proof. repeat split; reflexivity. Qed.

Lemma booksWith_middle vals V pre book post :
  booksWith vals V (pre ++ book :: post)
  = (booksWith vals V (pre ++ post) + share vals V book)%nat.
Proof. rewrite !booksWith_app, booksWith_cons. lia. Qed.

Lemma occurrences_middle V pre book post :
  occurrences V (pre ++ book :: post)
  = (occurrences V (pre ++ post)
     + length (List.filter (λ x, bool_decide (x = V)) (panelSubjects book)))%nat.
Proof.
  unfold occurrences. rewrite !map_app, !concat_app. cbn [map concat].
  rewrite !List.filter_app, !length_app. lia.
Qed.

Lemma share_le_1 vals V book : (share vals V book ≤ 1)%nat.
Proof. unfold share. case_bool_decide; lia. Qed.

Lemma share_1 vals V book : V ∈ vals book → share vals V book = 1%nat.
Proof. intros. unfold share. by rewrite bool_decide_eq_true_2. Qed.

Lemma filter_nonempty_elem {A} (p : A → bool) (l : list A) :
  (1 ≤ length (List.filter p l))%nat → ∃ x, x ∈ l ∧ p x = true.
Proof.
  destruct (List.filter p l) as [|x l'] eqn:Hf; simpl; [lia|]. intros _.
  exists x. apply elem_of_List_filter. rewrite Hf. apply list_elem_of_here.
Qed.

(** C3, the book explorer and the map panel: in the explorer's counts a
    book of the filtered list [pre ++ book :: post] adds to the count of a
    value [V], [V] not being one of the names every plain object inherits,
    exactly 1 when [V] is among its values and 0 otherwise, however often
    the value is repeated: a book with subjects ["a","a","b"] adds exactly
    1 to "a" and 1 to "b", and a book with one or more bans in a state
    adds exactly 1 to that state.  In the map panel's [allSubjects] a book
    adds one per occurrence. *)
Theorem book_counts_once (pre post : list Book) (book : Book) :
  (∀ V,
     V ∉ JS.inherited →
     JS.get (Explore.subjectCountsOf (pre ++ book :: post)) V
     = (JS.get (Explore.subjectCountsOf (pre ++ post)) V
        + share Explore.subjectValues V book)%nat
     ∧ JS.get (Explore.stateCountsOf (pre ++ book :: post)) V
       = (JS.get (Explore.stateCountsOf (pre ++ post)) V
          + share Explore.stateValues V book)%nat
     ∧ JS.get (Explore.districtCountsOf (pre ++ book :: post)) V
       = (JS.get (Explore.districtCountsOf (pre ++ post)) V
          + share Explore.districtValues V book)%nat
     ∧ (share Explore.subjectValues V book ≤ 1)%nat
     ∧ (share Explore.stateValues V book ≤ 1)%nat
     ∧ (share Explore.districtValues V book ≤ 1)%nat)
  ∧ (subjects book = SubjectsArray ["a"; "a"; "b"] →
     JS.get (Explore.subjectCountsOf (pre ++ book :: post)) "a"
     = (JS.get (Explore.subjectCountsOf (pre ++ post)) "a" + 1)%nat
     ∧ JS.get (Explore.subjectCountsOf (pre ++ book :: post)) "b"
       = (JS.get (Explore.subjectCountsOf (pre ++ post)) "b" + 1)%nat)
  ∧ (∀ bs s, s ∉ JS.inherited → bans book = Some bs →
     (1 ≤ length (List.filter
            (λ ban, bool_decide (Explore.normState ban = s)) bs))%nat →
     JS.get (Explore.stateCountsOf (pre ++ book :: post)) s
     = (JS.get (Explore.stateCountsOf (pre ++ post)) s + 1)%nat)
  ∧ (∀ V,
     V ∉ JS.inherited →
     JS.get (MapPanel.subjectCounts (pre ++ book :: post)) V
     = (JS.get (MapPanel.subjectCounts (pre ++ post)) V
        + length (List.filter (λ x, bool_decide (x = V))
                              (panelSubjects book)))%nat).
Proof.
  split; [|split; [|split]].
  - intros V _. rewrite !subjectCountsOf_get, !stateCountsOf_get,
      !districtCountsOf_get, !booksWith_middle.
    repeat split; auto using share_le_1.
  - intros Hs. rewrite !subjectCountsOf_get, !booksWith_middle.
    unfold share, Explore.subjectValues. rewrite Hs. split; reflexivity.
  - intros bs s _ Hb Hn. rewrite !stateCountsOf_get, booksWith_middle.
    f_equal. apply share_1. unfold Explore.stateValues. rewrite Hb.
    apply filter_nonempty_elem in Hn as (ban & Hin & Hst).
    apply bool_decide_eq_true in Hst as <-. by apply list_elem_of_fmap_2.
  - intros V _. by rewrite !panel_counts_get, occurrences_middle.
Qed.

Lemma book_counts_once_witness :
  JS.get (Explore.subjectCountsOf [bookB; bookAAB]) "a" = 1%nat
  ∧ JS.get (Explore.subjectCountsOf [bookB; bookAAB]) "b" = 1%nat
  ∧ JS.get (Explore.stateCountsOf [bookB; bookAAB]) "DoDEA" = 1%nat.
Proof.
  pose proof (book_counts_once [bookB] [] bookAAB) as (_ & Hs & Hb & _).
  destruct (Hs eq_refl) as [Ha Hb'].
  split; [exact Ha|]. split; [exact Hb'|].
  refine (Hb _ "DoDEA" _ eq_refl _); [|vm_compute; lia].
  apply (bool_decide_unpack _). vm_compute. exact I.
Defined.

(** C3 as stated fails in the map panel: the book with subjects
    ["a","a","b"] adds 2 to the count of "a". *)
Lemma map_panel_counts_every_occurrence :
  subjects bookAAB = SubjectsArray ["a"; "a"; "b"]
  ∧ MapPanel.subjectCounts [bookAAB] !! "a" = Some 2%nat
  ∧ MapPanel.subjectCounts [bookAAB] !! "b" = Some 1%nat.
Proof. repeat split; reflexivity. Qed.

(** ** State normalisation *)

Lemma normState_not_Nation ban : Explore.normState ban ≠ "Nation".
Proof.
  unfold Explore.normState. case_bool_decide; [discriminate|done].
Qed.

Lemma Nation_not_stateValue book : "Nation" ∉ Explore.stateValues book.
Proof.
  unfold Explore.stateValues. destruct (bans book) as [bs|];
    [|apply not_elem_of_nil].
  intros (ban & Heq & _)%list_elem_of_fmap.
  by apply (normState_not_Nation ban).
Qed.

Lemma stateClause_spec sel book :
  Explore.selectedStates sel ≠ [] →
  Explore.stateClause sel book = true
  ↔ ∀ st, st ∈ Explore.selectedStates sel → st ∈ Explore.stateValues book.
Proof.
  intros Hne. unfold Explore.stateClause, Explore.stateValues.
  rewrite nonempty_length by done.
  destruct (bans book) as [bs|].
  - rewrite every_spec. apply forall_proper; intros st.
    apply forall_proper; intros _. rewrite some_spec, list_elem_of_fmap.
    split.
    + intros (ban & Hin & Hst). apply bool_decide_eq_true in Hst. eauto.
    + intros (ban & -> & Hin). exists ban. by rewrite bool_decide_eq_true.
  - split; [done|]. intros H. destruct (Explore.selectedStates sel) as [|s ?];
      [done|]. exfalso. eapply not_elem_of_nil, (H s), list_elem_of_here.
Qed.

Lemma stateCountsOf_absent filtered V :
  (∀ book, book ∈ filtered → V ∉ Explore.stateValues book) →
  Explore.stateCountsOf filtered !! V = None.
Proof.
  intros H. unfold Explore.stateCountsOf.
  rewrite (facet_fold_absent _ Explore.stateValues); [apply lookup_empty| |done].
  intros counts book V'. apply (bans_step_absent Explore.normState).
Qed.

(** C4: a ban whose raw state is "Nation" is normalised to "DoDEA"; its
    book adds 1 to the state count of "DoDEA"; the state counts never have
    an entry "Nation"; the state clause is met by that book when "DoDEA" is
    the selected state, and with more states selected it is met exactly
    when the book also has the others; such a book is in the filtered list
    when it passes the other clauses; and the raw value "Nation" as a
    selected state matches no book. *)
Theorem nation_counted_as_dodea (pre post : list Book) (book : Book)
    (bs : list Ban) (ban : Ban) :
  bans book = Some bs → ban ∈ bs → state ban = "Nation" →
  Explore.normState ban = "DoDEA"
  ∧ JS.get (Explore.stateCountsOf (pre ++ book :: post)) "DoDEA"
    = (JS.get (Explore.stateCountsOf (pre ++ post)) "DoDEA" + 1)%nat
  ∧ (∀ filtered, Explore.stateCountsOf filtered !! "Nation" = None)
  ∧ (∀ sel, Explore.selectedStates sel = ["DoDEA"] →
       Explore.stateClause sel book = true)
  ∧ (∀ sel, "DoDEA" ∈ Explore.selectedStates sel →
       Explore.stateClause sel book = true
       ↔ ∀ st, st ∈ Explore.selectedStates sel → st ≠ "DoDEA" →
               st ∈ Explore.stateValues book)
  ∧ (∀ books sel, Explore.selectedStates sel = ["DoDEA"] → book ∈ books →
       Explore.searchClause sel book = true →
       Explore.subjectClause sel book = true →
       Explore.districtClause sel book = true →
       book ∈ Explore.filteredBooks books sel)
  ∧ (∀ sel other, "Nation" ∈ Explore.selectedStates sel →
       Explore.stateClause sel other = false).
Proof.
  intros Hb Hin Hst.
  assert (Explore.normState ban = "DoDEA") as Hn.
  { unfold Explore.normState. by rewrite bool_decide_eq_true_2. }
  assert ("DoDEA" ∈ Explore.stateValues book) as Hv.
  { unfold Explore.stateValues. rewrite Hb, <- Hn.
    by apply list_elem_of_fmap_2. }
  assert (∀ sel, Explore.selectedStates sel = ["DoDEA"] →
            Explore.stateClause sel book = true) as Hone.
  { intros sel Hsel. apply stateClause_spec; [by rewrite Hsel|].
    rewrite Hsel. by intros st ->%list_elem_of_singleton. }
  split; [done|]. split; [|split; [|split; [done|split; [|split]]]].
  - rewrite !stateCountsOf_get, booksWith_middle. f_equal. by apply share_1.
  - intros filtered. apply stateCountsOf_absent.
    intros b _. apply Nation_not_stateValue.
  - intros sel Hsel. rewrite stateClause_spec.
    + split; [by auto|]. intros H st Hs.
      destruct (decide (st = "DoDEA")) as [->|]; auto.
    + intros Hnil. rewrite Hnil in Hsel. by apply not_elem_of_nil in Hsel.
  - intros books sel Hsel Hbook Hq Hsub Hd.
    apply elem_of_filteredBooks. split; [done|]. apply keeps_spec. auto.
  - intros sel other Hsel. apply not_true_is_false. intros Hc.
    assert (Explore.selectedStates sel ≠ []) as Hne.
    { intros Hnil. rewrite Hnil in Hsel. by apply not_elem_of_nil in Hsel. }
    apply (Nation_not_stateValue other).
    by apply (proj1 (stateClause_spec sel other Hne) Hc).
Qed.

Lemma nation_counted_as_dodea_witness :
  bans bookAAB
    = Some [mkBan "Nation" "DoDEA Europe" None None;
            mkBan "Florida" "Clay County" None None;
            mkBan "Nation" "DoDEA Pacific" None None]
  ∧ JS.get (Explore.stateCountsOf [bookB; bookAAB]) "DoDEA" = 1%nat
  ∧ Explore.stateCountsOf [bookB; bookAAB] !! "Nation" = None
  ∧ bookAAB ∈ Explore.filteredBooks [bookA; bookB; bookAAB]
                (Explore.mkSelection [] ["DoDEA"] [] "").
Proof.
  pose proof (nation_counted_as_dodea [bookB] [] bookAAB _
                (mkBan "Nation" "DoDEA Europe" None None)
                eq_refl (list_elem_of_here _ _) eq_refl)
    as (_ & Hc & Hn & _ & _ & Hf & _).
  split; [reflexivity|]. split; [exact Hc|]. split; [apply Hn|].
  apply Hf; try reflexivity. apply list_elem_of_further, list_elem_of_further,
    list_elem_of_here.
Defined.

(** ** The order of the filtered books *)

(** C5: the books that survive the filter are returned in descending order
    of ban count; the ban count is the length of [bans], 0 when [bans] is
    absent or not an array; and for every count the surviving books with
    that count come in their input order. *)
Theorem sorted_by_ban_count (books : list Book) (sel : Explore.Selection) :
  Explore.filteredBooks books sel ≡ₚ List.filter (Explore.keeps sel) books
  ∧ StronglySorted (notBelow Explore.banCount) (Explore.filteredBooks books sel)
  ∧ (∀ k : Z,
       List.filter (λ a, Explore.banCount a =? k)%Z
                   (Explore.filteredBooks books sel)
       = List.filter (λ a, Explore.banCount a =? k)%Z
                     (List.filter (Explore.keeps sel) books))
  ∧ (∀ book bs, bans book = Some bs →
       Explore.banCount book = Z.of_nat (length bs))
  ∧ (∀ book, bans book = None → Explore.banCount book = 0%Z).
Proof.
  split; [apply filteredBooks_perm|].
  split; [apply (sort_sorted Explore.banCount)|].
  split; [intros k; apply (sort_stable Explore.banCount)|].
  split; intros book; unfold Explore.banCount.
  - by intros bs ->.
  - by intros ->.
Qed.

Lemma sorted_by_ban_count_witness :
  Explore.banCount bookAAB = 3%Z ∧ Explore.banCount bookA = 0%Z.
Proof.
  destruct (sorted_by_ban_count [] (Explore.mkSelection [] [] [] ""))
    as (_ & _ & _ & Hsome & Hnone).
  split; [exact (Hsome bookAAB _ eq_refl)|exact (Hnone bookA eq_refl)].
Defined.

(** ** Pagination *)

Lemma ceil_div_bounds (n d : Z) :
  (0 < d)%Z → (d * (JS.ceil_div n d - 1) < n ≤ d * JS.ceil_div n d)%Z.
Proof.
  intros Hd. unfold JS.ceil_div.
  pose proof (Z.div_mod (- n) d ltac:(lia)) as Hdm.
  pose proof (Z.mod_pos_bound (- n) d Hd) as Hm.
  lia.
Qed.

Lemma slice_lookup {A} (l : list A) (start end_ : Z) (i : nat) :
  (0 ≤ start ≤ end_)%Z →
  JS.slice l start end_ !! i
  = if (i <? Z.to_nat (end_ - start))%nat then l !! (Z.to_nat start + i)%nat
    else None.
Proof.
  intros Hse. unfold JS.slice.
  rewrite (proj2 (Z.ltb_ge start 0)) by lia.
  rewrite (proj2 (Z.ltb_ge end_ 0)) by lia.
  destruct (Nat.ltb_spec i (Z.to_nat (end_ - start))) as [Hi|Hi].
  - destruct (decide (Z.to_nat start + i < length l)%nat) as [Hin|Hout].
    + rewrite lookup_take_lt by lia. rewrite lookup_drop. f_equal. lia.
    + rewrite (lookup_ge_None_2 l) by lia.
      apply lookup_ge_None_2. rewrite length_take, length_drop. lia.
  - apply lookup_take_ge. lia.
Qed.

Lemma slice_length {A} (l : list A) (start end_ : Z) :
  (0 ≤ start ≤ end_)%Z →
  Z.of_nat (length (JS.slice l start end_))
  = (Z.min end_ (Z.of_nat (length l)) - Z.min start (Z.of_nat (length l)))%Z.
Proof.
  intros Hse. unfold JS.slice.
  rewrite (proj2 (Z.ltb_ge start 0)) by lia.
  rewrite (proj2 (Z.ltb_ge end_ 0)) by lia.
  rewrite length_take, length_drop. lia.
Qed.

(** C6: with pages of 100 books the number of pages is the ceiling of
    [n / 100], the least [t] with [n ≤ 100 * t], which is 0 for an empty
    list; the page shown for the 1-based page number [p] holds the filtered
    books at the indices [(p-1)*100 .. p*100 - 1]; and 250 filtered books
    give 3 pages, the third with exactly 50 books. *)
Theorem pagination_pages_and_slices (filtered : list Book) :
  (100 * (Explore.totalPagesOf filtered - 1) < Z.of_nat (length filtered)
     ≤ 100 * Explore.totalPagesOf filtered)%Z
  ∧ (length filtered = 0%nat → Explore.totalPagesOf filtered = 0%Z)
  ∧ (∀ (p : Z) (i : nat), (1 ≤ p)%Z →
       Explore.paginatedOf filtered p !! i
       = if (i <? 100)%nat
         then filtered !! (Z.to_nat ((p - 1) * 100) + i)%nat
         else None)
  ∧ (length filtered = 250%nat →
       Explore.totalPagesOf filtered = 3%Z
       ∧ length (Explore.paginatedOf filtered 3) = 50%nat).
Proof.
  pose proof (ceil_div_bounds (Z.of_nat (length filtered)) 100 ltac:(lia))
    as Hb.
  unfold Explore.totalPagesOf, Explore.paginatedOf, Explore.itemsPerPage.
  split; [exact Hb|]. split; [intros H0; rewrite H0 in *; lia|]. split.
  - intros p i Hp. rewrite slice_lookup by lia.
    by replace (Z.to_nat ((p - 1) * 100 + 100 - (p - 1) * 100)) with 100%nat
      by lia.
  - intros Hn. rewrite Hn in Hb |- *. split; [lia|].
    apply Nat2Z.inj. rewrite slice_length by lia. rewrite Hn. lia.
Qed.

Lemma pagination_pages_and_slices_witness :
  length (replicate 250 bookA) = 250%nat
  ∧ Explore.totalPagesOf (replicate 250 bookA) = 3%Z
  ∧ length (Explore.paginatedOf (replicate 250 bookA) 3) = 50%nat
  ∧ Explore.paginatedOf (replicate 250 bookA) 3 !! 49%nat = Some bookA.
Proof.
  destruct (pagination_pages_and_slices (replicate 250 bookA)) as (_ & _ & Hp & H250).
  assert (length (replicate 250 bookA) = 250%nat) as Hlen by reflexivity.
  destruct (H250 Hlen) as [Ht Hl].
  split; [exact Hlen|]. split; [exact Ht|]. split; [exact Hl|].
  rewrite (Hp 3%Z 49%nat ltac:(lia)). reflexivity.
Defined.

(** ** The page number after a change of the filters *)

Lemma currentPage_resetPage app :
  Explore.currentPage (Explore.resetPage app) = 1%Z.
Proof. reflexivity. Qed.

Lemma run_snoc app evs ev :
  Explore.run app (evs ++ [ev]) = Explore.step (Explore.run app evs) ev.
Proof. unfold Explore.run. by rewrite foldl_app. Qed.

Lemma reachable_run evs : Explore.reachable (Explore.run Explore.initial evs).
Proof.
  induction evs as [|ev evs IH] using rev_ind.
  - constructor.
  - rewrite run_snoc. by constructor.
Qed.

(** C7: every handler that changes the filter state (toggling or removing
    a subject, state or district, typing in the search box, clearing the
    filters) leaves the page number at 1, from any state of the component;
    so the page number is 1 after any sequence of events that ends with
    such an operation. *)
Theorem filter_change_resets_page (app : Explore.App) (x : string) :
  Explore.currentPage (Explore.toggleSubject app x) = 1%Z
  ∧ Explore.currentPage (Explore.toggleState app x) = 1%Z
  ∧ Explore.currentPage (Explore.toggleDistrict app x) = 1%Z
  ∧ Explore.currentPage (Explore.removeSubject app x) = 1%Z
  ∧ Explore.currentPage (Explore.removeState app x) = 1%Z
  ∧ Explore.currentPage (Explore.removeDistrict app x) = 1%Z
  ∧ Explore.currentPage (Explore.searchInput app x) = 1%Z
  ∧ Explore.currentPage (Explore.clearFilters app) = 1%Z
  ∧ (∀ op, Explore.currentPage (Explore.step app (Explore.Filter op)) = 1%Z)
  ∧ (∀ evs op,
       Explore.reachable (Explore.run Explore.initial evs)
       ∧ Explore.currentPage
           (Explore.run Explore.initial (evs ++ [Explore.Filter op])) = 1%Z).
Proof.
  repeat (split; [reflexivity|]). split.
  - intros op. destruct op; reflexivity.
  - intros evs op. split; [apply reachable_run|].
    rewrite run_snoc. destruct op; reflexivity.
Qed.

(** ** The filter as a function of the book list *)

Lemma keeps_empty_selection book :
  Explore.keeps (Explore.mkSelection [] [] [] "") book = true.
Proof. reflexivity. Qed.

(** C8: with no selected subject, state or district and an empty search
    query the filter keeps every book, so the result is the input list
    changed only by the sort on ban count: a permutation of the input in
    which the books of each ban count keep their order, and the input
    itself when it is already in descending order of ban count. *)
Theorem empty_selection_passes_all (books : list Book) :
  (∀ book, Explore.keeps (Explore.mkSelection [] [] [] "") book = true)
  ∧ List.filter (Explore.keeps (Explore.mkSelection [] [] [] "")) books = books
  ∧ Explore.filteredBooks books (Explore.mkSelection [] [] [] "")
    = JS.sort Explore.byBans books
  ∧ Explore.filteredBooks books (Explore.mkSelection [] [] [] "") ≡ₚ books
  ∧ (∀ k : Z,
       List.filter (λ a, Explore.banCount a =? k)%Z
         (Explore.filteredBooks books (Explore.mkSelection [] [] [] ""))
       = List.filter (λ a, Explore.banCount a =? k)%Z books)
  ∧ (StronglySorted (notBelow Explore.banCount) books →
       Explore.filteredBooks books (Explore.mkSelection [] [] [] "") = books).
Proof.
  assert (List.filter (Explore.keeps (Explore.mkSelection [] [] [] "")) books
          = books) as Hall.
  { apply filter_all_true, Forall_forall. intros. apply keeps_empty_selection. }
  split; [apply keeps_empty_selection|]. split; [exact Hall|].
  unfold Explore.filteredBooks. rewrite Hall.
  split; [reflexivity|].
  split; [apply (sort_perm Explore.banCount)|].
  split; [intros k; apply (sort_stable Explore.banCount)|].
  apply (sort_sorted_id Explore.banCount).
Qed.

Lemma empty_selection_passes_all_witness :
  StronglySorted (notBelow Explore.banCount) [bookAAB; bookB; bookA]
  ∧ Explore.filteredBooks [bookAAB; bookB; bookA]
      (Explore.mkSelection [] [] [] "") = [bookAAB; bookB; bookA].
Proof.
  assert (StronglySorted (notBelow Explore.banCount) [bookAAB; bookB; bookA])
    as Hs.
  { repeat constructor; unfold notBelow; vm_compute; discriminate. }
  split; [exact Hs|].
  exact (proj2 (proj2 (proj2 (proj2 (proj2
    (empty_selection_passes_all [bookAAB; bookB; bookA]))))) Hs).
Defined.

(** C9: filtering the output of the filter again, with the same
    selection, gives the same list, element by element. *)
Theorem filter_idempotent (books : list Book) (sel : Explore.Selection) :
  Explore.filteredBooks (Explore.filteredBooks books sel) sel
  = Explore.filteredBooks books sel.
Proof.
  unfold Explore.filteredBooks at 1.
  rewrite filter_all_true.
  - unfold Explore.filteredBooks. apply (sort_idem Explore.banCount).
  - apply Forall_forall. intros book Hin.
    by apply elem_of_filteredBooks in Hin as [_ ?].
Qed.

(** ** The report by state *)

Lemma addBook_skip stateData book :
  (∀ l, subjects book ≠ SubjectsArray l) ∨ bans book = None →
  ByState.addBook stateData book = stateData.
Proof.
  unfold ByState.addBook. intros [Hs| ->]; [|done].
  destruct (bans book) as [bs|]; [|done].
  destruct (subjects book) as [| |subjs]; try done. by destruct (Hs subjs).
Qed.

(** C10: in [analyzeData] a book whose [subjects] is absent or not an
    array, or whose [bans] is absent or not an array, contributes nothing:
    the report is the one computed without the book, whatever ban events
    the book has. *)
Theorem analyzeData_skips_book (pre post : list Book) (book : Book) :
  (∀ l, subjects book ≠ SubjectsArray l) ∨ bans book = None →
  ByState.analyzeData (pre ++ book :: post) = ByState.analyzeData (pre ++ post).
Proof.
  intros H. unfold ByState.analyzeData. rewrite !foldl_app. cbn [foldl].
  by rewrite addBook_skip.
Qed.

Lemma analyzeData_skips_book_witness :
  length (default [] (bans bookScalar)) = 3%nat
  ∧ ByState.analyzeData [bookB; bookScalar; bookAAB]
    = ByState.analyzeData [bookB; bookAAB]
  ∧ ByState.totalBans
      <$> (ByState.analyzeData [bookB; bookScalar; bookAAB] !! "Texas")
    = Some 1%nat.
Proof.
  assert ((∀ l, subjects bookScalar ≠ SubjectsArray l)
          ∨ bans bookScalar = None) as H by (left; discriminate).
  split; [reflexivity|]. split.
  - exact (analyzeData_skips_book [bookB] [bookAAB] bookScalar H).
  - pose proof (analyzeData_skips_book [bookB] [bookAAB] bookScalar H) as E.
    cbn [app] in E. rewrite E. reflexivity.
Defined.

(** * Further properties of the three front-ends *)

(** ** The sort and the filter commute *)

Section SortFilter.
Context {A : Type} (key : A → Z) (p : A → bool).

Let cmp (a b : A) : Z := (key b - key a)%Z.

Lemma sort_insert_front (x : A) (l : list A) :
  Forall (λ z, key z ≤ key x)%Z l → JS.sort_insert cmp x l = x :: l.
Proof.
  destruct 1 as [|z l Hz _]; [done|]. simpl.
  destruct (Z.leb_spec (cmp x z) 0) as [_|Hgt]; [done|].
  unfold cmp in Hgt. lia.
Qed.

Lemma filter_sort_insert (x : A) (l : list A) :
  StronglySorted (notBelow key) l →
  List.filter p (JS.sort_insert cmp x l)
  = if p x then JS.sort_insert cmp x (List.filter p l) else List.filter p l.
Proof.
  induction 1 as [|y l Hl IH Hy].
  - simpl. by destruct (p x).
  - simpl JS.sort_insert.
    destruct (Z.leb_spec (cmp x y) 0) as [Hle|Hgt].
    + unfold cmp in Hle.
      change (List.filter p (x :: y :: l))
        with (if p x then x :: List.filter p (y :: l)
              else List.filter p (y :: l)).
      destruct (p x); [|done].
      symmetry. apply sort_insert_front.
      assert (Forall (λ z, key z ≤ key x)%Z (y :: l)) as Hall.
      { constructor; [lia|]. eapply Forall_impl; [exact Hy|].
        unfold notBelow. intros; lia. }
      apply Forall_forall. intros z Hz.
      apply elem_of_List_filter in Hz as [Hz _].
      by apply (proj1 (Forall_forall _ _) Hall).
    + cbn [List.filter]. rewrite IH. destruct (p y), (p x); try done.
      simpl. destruct (Z.leb_spec (cmp x y) 0); [lia|done].
Qed.

Lemma filter_sort (l : list A) :
  List.filter p (JS.sort cmp l) = JS.sort cmp (List.filter p l).
Proof.
  induction l as [|x l IH]; [done|]. simpl JS.sort.
  rewrite filter_sort_insert by apply sort_sorted.
  cbn [List.filter]. rewrite IH. by destruct (p x).
Qed.

End SortFilter.

Lemma filter_filter_andb {A} (p q : A → bool) (l : list A) :
  List.filter q (List.filter p l) = List.filter (λ a, p a && q a) l.
Proof.
  induction l as [|x l IH]; [done|]. simpl.
  destruct (p x); simpl; [destruct (q x)|]; by rewrite ?IH.
Qed.

Lemma sort_length {A} (cmp : A → A → Z) (l : list A) :
  length (JS.sort cmp l) = length l.
Proof.
  induction l as [|x l IH]; [done|]. simpl. rewrite <- IH.
  generalize (JS.sort cmp l). clear. intros l.
  induction l as [|y l IH]; [done|]. simpl.
  destruct (cmp x y <=? 0)%Z; simpl; by rewrite ?IH.
Qed.

(** ** The clauses of the explorer as has-ALL tests *)

Lemma every_false_nonempty {A} (l : list A) :
  l ≠ [] → JS.every (λ _, false) l = false.
Proof. by destruct l. Qed.

Lemma subjectClause_every sel book :
  Explore.subjectClause sel book
  = JS.every (λ s, hasValue Explore.subjectValues s book)
             (Explore.selectedSubjects sel).
Proof.
  unfold Explore.subjectClause, hasValue, Explore.subjectValues.
  destruct (Explore.selectedSubjects sel) as [|s ss] eqn:Hs; [done|].
  change (0 <? length (s :: ss))%nat with true. cbn match.
  destruct (subjects book) as [|x|l]; done.
Qed.

Lemma every_ext {A} (p q : A → bool) (l : list A) :
  (∀ x, p x = q x) → JS.every p l = JS.every q l.
Proof.
  intros H. induction l as [|x l IH]; [done|]. simpl. by rewrite H, IH.
Qed.

Lemma some_eq_elem {A} (g : A → string) (bs : list A) (V : string) :
  JS.some (λ a, bool_decide (g a = V)) bs = bool_decide (V ∈ map g bs).
Proof.
  destruct (JS.some _ bs) eqn:Hs; symmetry.
  - apply some_spec in Hs as (a & Hin & Ha). apply bool_decide_eq_true in Ha.
    apply bool_decide_eq_true_2. subst. by apply list_elem_of_fmap_2.
  - apply bool_decide_eq_false_2. intros (a & -> & Hin)%list_elem_of_fmap.
    assert (JS.some (λ a0, bool_decide (g a0 = g a)) bs = true) as Hc;
      [|congruence].
    apply some_spec. exists a. by rewrite bool_decide_eq_true.
Qed.

Lemma stateClause_every sel book :
  Explore.stateClause sel book
  = JS.every (λ s, hasValue Explore.stateValues s book)
             (Explore.selectedStates sel).
Proof.
  unfold Explore.stateClause, hasValue, Explore.stateValues.
  destruct (Explore.selectedStates sel) as [|s ss] eqn:Hs; [done|].
  change (0 <? length (s :: ss))%nat with true. cbn match.
  destruct (bans book) as [bs|].
  - apply every_ext. intros st. apply some_eq_elem.
  - done.
Qed.

Lemma districtClause_every sel book :
  Explore.districtClause sel book
  = JS.every (λ s, hasValue Explore.districtValues s book)
             (Explore.selectedDistricts sel).
Proof.
  unfold Explore.districtClause, hasValue, Explore.districtValues.
  destruct (Explore.selectedDistricts sel) as [|s ss] eqn:Hs; [done|].
  change (0 <? length (s :: ss))%nat with true. cbn match.
  destruct (bans book) as [bs|].
  - apply every_ext. intros st. apply some_eq_elem.
  - done.
Qed.

Lemma keeps_andb sel book :
  Explore.keeps sel book
  = Explore.searchClause sel book && Explore.subjectClause sel book
    && Explore.stateClause sel book && Explore.districtClause sel book.
Proof.
  unfold Explore.keeps.
  by destruct (Explore.searchClause sel book), (Explore.subjectClause sel book),
    (Explore.stateClause sel book), (Explore.districtClause sel book).
Qed.

Lemma every_push {A} (p : A → bool) (l : list A) (x : A) :
  JS.every p (JS.push l x) = JS.every p l && p x.
Proof.
  unfold JS.every, JS.push. rewrite forallb_app. simpl. by rewrite andb_true_r.
Qed.

Lemma every_sameValues (p : string → bool) (l l' : list string) :
  sameValues l l' → JS.every p l = JS.every p l'.
Proof.
  intros H. apply eq_true_iff_eq. rewrite !every_spec.
  split; intros Hp x Hx; apply Hp; by apply H.
Qed.

Lemma keeps_withSubject sel V book :
  Explore.keeps (withSubject sel V) book
  = Explore.keeps sel book && hasValue Explore.subjectValues V book.
Proof.
  rewrite !keeps_andb, !subjectClause_every.
  unfold withSubject at 2. cbn [Explore.selectedSubjects]. rewrite every_push.
  change (Explore.searchClause (withSubject sel V) book)
    with (Explore.searchClause sel book).
  change (Explore.stateClause (withSubject sel V) book)
    with (Explore.stateClause sel book).
  change (Explore.districtClause (withSubject sel V) book)
    with (Explore.districtClause sel book).
  destruct (Explore.searchClause sel book), (Explore.stateClause sel book),
    (Explore.districtClause sel book), (hasValue _ V book);
    by rewrite ?andb_true_r, ?andb_false_r.
Qed.

Lemma keeps_withState sel V book :
  Explore.keeps (withState sel V) book
  = Explore.keeps sel book && hasValue Explore.stateValues V book.
Proof.
  rewrite !keeps_andb, !stateClause_every.
  unfold withState at 3. cbn [Explore.selectedStates]. rewrite every_push.
  change (Explore.searchClause (withState sel V) book)
    with (Explore.searchClause sel book).
  change (Explore.subjectClause (withState sel V) book)
    with (Explore.subjectClause sel book).
  change (Explore.districtClause (withState sel V) book)
    with (Explore.districtClause sel book).
  destruct (Explore.searchClause sel book), (Explore.subjectClause sel book),
    (Explore.districtClause sel book), (hasValue _ V book);
    by rewrite ?andb_true_r, ?andb_false_r.
Qed.

Lemma keeps_withDistrict sel V book :
  Explore.keeps (withDistrict sel V) book
  = Explore.keeps sel book && hasValue Explore.districtValues V book.
Proof.
  rewrite !keeps_andb, !districtClause_every.
  unfold withDistrict at 4. cbn [Explore.selectedDistricts]. rewrite every_push.
  change (Explore.searchClause (withDistrict sel V) book)
    with (Explore.searchClause sel book).
  change (Explore.subjectClause (withDistrict sel V) book)
    with (Explore.subjectClause sel book).
  change (Explore.stateClause (withDistrict sel V) book)
    with (Explore.stateClause sel book).
  destruct (Explore.searchClause sel book), (Explore.subjectClause sel book),
    (Explore.stateClause sel book), (hasValue _ V book);
    by rewrite ?andb_true_r, ?andb_false_r.
Qed.

(** Keeping the books of a sorted result that pass one more test is the
    same as filtering with both tests before the sort. *)
Lemma filteredBooks_narrow books sel sel' (q : Book → bool) :
  (∀ book, Explore.keeps sel' book = Explore.keeps sel book && q book) →
  Explore.filteredBooks books sel'
  = List.filter q (Explore.filteredBooks books sel).
Proof.
  intros Hk. unfold Explore.filteredBooks.
  rewrite (filter_sort Explore.banCount q), filter_filter_andb.
  f_equal. apply List.filter_ext. intros book. apply Hk.
Qed.

Lemma length_filter_hasValue vals V l :
  length (List.filter (hasValue vals V) l) = booksWith vals V l.
Proof.
  unfold booksWith, hasValue. f_equal. apply List.filter_ext. intros book.
  apply bool_decide_ext. by rewrite elem_of_setOf.
Qed.

(** ** Toggling and removing selected values *)

Lemma indexOf_Some (l : list string) (x : string) (i : nat) :
  JS.indexOf l x = Some i → l !! i = Some x ∧ x ∉ take i l.
Proof.
  revert i. induction l as [|y l IH]; intros i; simpl; [done|].
  case_bool_decide as Hy.
  - intros [= <-]. subst. split; [done|apply not_elem_of_nil].
  - destruct (JS.indexOf l x) as [j|] eqn:Hj; simpl; [|done].
    intros [= <-]. destruct (IH j eq_refl) as [Hl Hn]. split; [done|].
    simpl. apply not_elem_of_cons. split; [congruence|done].
Qed.

Lemma indexOf_None (l : list string) (x : string) :
  JS.indexOf l x = None ↔ x ∉ l.
Proof.
  induction l as [|y l IH]; simpl.
  - split; [intros _; apply not_elem_of_nil|done].
  - case_bool_decide as Hy.
    + split; [done|]. intros Hn. destruct Hn. subst. apply list_elem_of_here.
    + rewrite not_elem_of_cons, <- IH.
      destruct (JS.indexOf l x); simpl.
      * split; [done|]. by intros [_ ?].
      * split; [|done]. intros _. split; [congruence|done].
Qed.

Lemma elem_of_delete_at (l : list string) (i : nat) (x y : string) :
  l !! i = Some x → y ∈ l ↔ y = x ∨ y ∈ delete i l.
Proof.
  intros Hi. rewrite <- (take_drop_middle l i x Hi) at 1.
  rewrite delete_take_drop, !elem_of_app, elem_of_cons. tauto.
Qed.

Lemma NoDup_delete_at (l : list string) (i : nat) (x : string) :
  NoDup l → l !! i = Some x → x ∉ delete i l.
Proof.
  intros Hnd Hi. rewrite <- (take_drop_middle l i x Hi) in Hnd.
  apply NoDup_app in Hnd as (_ & Hdis & Hnd').
  apply NoDup_cons in Hnd' as [Hx _].
  rewrite delete_take_drop, elem_of_app. intros [Ht|Hd]; [|done].
  apply (Hdis x Ht), list_elem_of_here.
Qed.

Lemma toggleIn_absent (l : list string) (x : string) :
  x ∉ l → Explore.toggleIn l x = JS.push l x.
Proof. intros H. unfold Explore.toggleIn. by rewrite (proj2 (indexOf_None l x) H). Qed.

Lemma toggleIn_present (l : list string) (x : string) :
  x ∈ l → Explore.toggleIn l x = Explore.removeFrom l x.
Proof.
  intros H. unfold Explore.toggleIn, Explore.removeFrom.
  destruct (JS.indexOf l x) eqn:Hi; [done|].
  by apply indexOf_None in Hi.
Qed.

Lemma removeFrom_sameValues (l : list string) (x : string) :
  NoDup l → x ∈ l → sameValues l (JS.push (Explore.removeFrom l x) x).
Proof.
  intros Hnd Hx y. unfold Explore.removeFrom, JS.push, JS.splice1.
  destruct (JS.indexOf l x) as [i|] eqn:Hi.
  - apply indexOf_Some in Hi as [Hi _].
    rewrite (elem_of_delete_at l i x y Hi), elem_of_app, list_elem_of_singleton.
    tauto.
  - by apply indexOf_None in Hi.
Qed.

(** ** Selecting a facet value narrows the result to its count *)

Lemma keeps_sameValues sel sel' book :
  sameValues (Explore.selectedSubjects sel) (Explore.selectedSubjects sel') →
  sameValues (Explore.selectedStates sel) (Explore.selectedStates sel') →
  sameValues (Explore.selectedDistricts sel) (Explore.selectedDistricts sel') →
  Explore.searchQuery sel = Explore.searchQuery sel' →
  Explore.keeps sel book = Explore.keeps sel' book.
Proof.
  intros Hs Hst Hd Hq.
  rewrite !keeps_andb, !subjectClause_every, !stateClause_every,
    !districtClause_every.
  rewrite (every_sameValues _ _ _ Hs), (every_sameValues _ _ _ Hst),
    (every_sameValues _ _ _ Hd).
  unfold Explore.searchClause. by rewrite Hq.
Qed.

(** X1: ticking a subject, state or district that is not selected yet
    shows exactly the books of the current result that have the value, in
    the same order; and, the value not being one of the names every plain
    object inherits, their number is the count the facet list shows for
    the value. *)
Theorem ticking_shows_the_counted_books (app : Explore.App) (V : string) :
  (V ∉ Explore.selectedSubjects (Explore.selection app) →
   Explore.filteredBooks (Explore.books (Explore.toggleSubject app V))
     (Explore.selection (Explore.toggleSubject app V))
   = List.filter (hasValue Explore.subjectValues V)
       (Explore.filteredBooks (Explore.books app) (Explore.selection app))
   ∧ (V ∉ JS.inherited →
      length (Explore.filteredBooks (Explore.books (Explore.toggleSubject app V))
                (Explore.selection (Explore.toggleSubject app V)))
      = JS.get (Explore.subjectCounts (Explore.books app)
                  (Explore.selection app)) V))
  ∧ (V ∉ Explore.selectedStates (Explore.selection app) →
   Explore.filteredBooks (Explore.books (Explore.toggleState app V))
     (Explore.selection (Explore.toggleState app V))
   = List.filter (hasValue Explore.stateValues V)
       (Explore.filteredBooks (Explore.books app) (Explore.selection app))
   ∧ (V ∉ JS.inherited →
      length (Explore.filteredBooks (Explore.books (Explore.toggleState app V))
                (Explore.selection (Explore.toggleState app V)))
      = JS.get (Explore.stateCounts (Explore.books app)
                  (Explore.selection app)) V))
  ∧ (V ∉ Explore.selectedDistricts (Explore.selection app) →
   Explore.filteredBooks (Explore.books (Explore.toggleDistrict app V))
     (Explore.selection (Explore.toggleDistrict app V))
   = List.filter (hasValue Explore.districtValues V)
       (Explore.filteredBooks (Explore.books app) (Explore.selection app))
   ∧ (V ∉ JS.inherited →
      length (Explore.filteredBooks (Explore.books (Explore.toggleDistrict app V))
                (Explore.selection (Explore.toggleDistrict app V)))
      = JS.get (Explore.districtCounts (Explore.books app)
                  (Explore.selection app)) V)).
Proof.
  split; [|split]; intros Hn.
  - assert (Explore.filteredBooks (Explore.books app)
              (Explore.selection (Explore.toggleSubject app V))
            = List.filter (hasValue Explore.subjectValues V)
                (Explore.filteredBooks (Explore.books app)
                   (Explore.selection app))) as E.
    { cbn [Explore.toggleSubject Explore.resetPage Explore.withPage
           Explore.withSelection Explore.selection].
      rewrite toggleIn_absent by done.
      apply (filteredBooks_narrow _ _ (withSubject _ V)), keeps_withSubject. }
    split; [exact E|intros _].
    change (Explore.books (Explore.toggleSubject app V)) with (Explore.books app).
    rewrite E, length_filter_hasValue. symmetry. apply subjectCountsOf_get.
  - assert (Explore.filteredBooks (Explore.books app)
              (Explore.selection (Explore.toggleState app V))
            = List.filter (hasValue Explore.stateValues V)
                (Explore.filteredBooks (Explore.books app)
                   (Explore.selection app))) as E.
    { cbn [Explore.toggleState Explore.resetPage Explore.withPage
           Explore.withSelection Explore.selection].
      rewrite toggleIn_absent by done.
      apply (filteredBooks_narrow _ _ (withState _ V)), keeps_withState. }
    split; [exact E|intros _].
    change (Explore.books (Explore.toggleState app V)) with (Explore.books app).
    rewrite E, length_filter_hasValue. symmetry. apply stateCountsOf_get.
  - assert (Explore.filteredBooks (Explore.books app)
              (Explore.selection (Explore.toggleDistrict app V))
            = List.filter (hasValue Explore.districtValues V)
                (Explore.filteredBooks (Explore.books app)
                   (Explore.selection app))) as E.
    { cbn [Explore.toggleDistrict Explore.resetPage Explore.withPage
           Explore.withSelection Explore.selection].
      rewrite toggleIn_absent by done.
      apply (filteredBooks_narrow _ _ (withDistrict _ V)), keeps_withDistrict. }
    split; [exact E|intros _].
    change (Explore.books (Explore.toggleDistrict app V))
      with (Explore.books app).
    rewrite E, length_filter_hasValue. symmetry. apply districtCountsOf_get.
Qed.

Lemma ticking_shows_the_counted_books_witness :
  ("Fiction" ∉ Explore.selectedSubjects (Explore.selection sampleApp))
  ∧ Explore.filteredBooks (Explore.books sampleApp)
      (Explore.selection (Explore.toggleSubject sampleApp "Fiction"))
    = [bookB; bookA]
  ∧ JS.get (Explore.subjectCounts (Explore.books sampleApp)
              (Explore.selection sampleApp)) "Fiction" = 2%nat
  ∧ length (Explore.filteredBooks (Explore.books sampleApp)
              (Explore.selection (Explore.toggleState sampleApp "DoDEA")))
    = 1%nat
  ∧ length (Explore.filteredBooks (Explore.books sampleApp)
              (Explore.selection (Explore.toggleDistrict sampleApp "Katy ISD")))
    = 1%nat.
Proof.
  destruct (ticking_shows_the_counted_books sampleApp "Fiction")
    as (Hs & _ & _).
  destruct (ticking_shows_the_counted_books sampleApp "DoDEA")
    as (_ & Hst & _).
  destruct (ticking_shows_the_counted_books sampleApp "Katy ISD")
    as (_ & _ & Hd).
  assert ("Fiction" ∉ Explore.selectedSubjects (Explore.selection sampleApp))
    as Hn by apply not_elem_of_nil.
  assert (("Fiction" ∉ JS.inherited) ∧ ("DoDEA" ∉ JS.inherited)
          ∧ ("Katy ISD" ∉ JS.inherited)) as (P1 & P2 & P3)
    by (repeat split; apply (bool_decide_unpack _); vm_compute; exact I).
  destruct (Hs Hn) as [E L]. destruct (Hst (not_elem_of_nil _)) as [_ Lst].
  destruct (Hd (not_elem_of_nil _)) as [_ Ld].
  split; [exact Hn|]. split; [exact E|]. split; [by rewrite <- (L P1)|].
  split; [exact (Lst P2)|exact (Ld P3)].
Defined.

Lemma filteredBooks_sameValues books sel sel' :
  sameValues (Explore.selectedSubjects sel) (Explore.selectedSubjects sel') →
  sameValues (Explore.selectedStates sel) (Explore.selectedStates sel') →
  sameValues (Explore.selectedDistricts sel) (Explore.selectedDistricts sel') →
  Explore.searchQuery sel = Explore.searchQuery sel' →
  Explore.filteredBooks books sel = Explore.filteredBooks books sel'.
Proof.
  intros Hs Hst Hd Hq. unfold Explore.filteredBooks. f_equal.
  apply List.filter_ext. intros book. by apply keeps_sameValues.
Qed.

(** X2: the result of the filter, and with it every facet count, depends
    only on which values are selected, not on the order in which they were
    ticked nor on repetitions. *)
Theorem filter_ignores_selection_order (books : list Book)
    (sel sel' : Explore.Selection) :
  sameValues (Explore.selectedSubjects sel) (Explore.selectedSubjects sel') →
  sameValues (Explore.selectedStates sel) (Explore.selectedStates sel') →
  sameValues (Explore.selectedDistricts sel) (Explore.selectedDistricts sel') →
  Explore.searchQuery sel = Explore.searchQuery sel' →
  Explore.filteredBooks books sel = Explore.filteredBooks books sel'
  ∧ Explore.subjectCounts books sel = Explore.subjectCounts books sel'
  ∧ Explore.stateCounts books sel = Explore.stateCounts books sel'
  ∧ Explore.districtCounts books sel = Explore.districtCounts books sel'
  ∧ Explore.totalPages books sel = Explore.totalPages books sel'.
Proof.
  intros Hs Hst Hd Hq.
  unfold Explore.subjectCounts, Explore.stateCounts, Explore.districtCounts,
    Explore.totalPages.
  by rewrite (filteredBooks_sameValues books sel sel').
Qed.

Lemma sameValues_swap (a b : string) : sameValues [a; b] [b; a; b].
Proof. intros x. rewrite !elem_of_cons. tauto. Qed.

Lemma filter_ignores_selection_order_witness :
  Explore.filteredBooks [bookA; bookB; bookAAB]
    (Explore.mkSelection ["Fiction"; "LGBTQ"] [] [] "")
  = Explore.filteredBooks [bookA; bookB; bookAAB]
      (Explore.mkSelection ["LGBTQ"; "Fiction"; "LGBTQ"] [] [] "").
Proof.
  apply (filter_ignores_selection_order [bookA; bookB; bookAAB]
           (Explore.mkSelection ["Fiction"; "LGBTQ"] [] [] "")
           (Explore.mkSelection ["LGBTQ"; "Fiction"; "LGBTQ"] [] [] ""));
    simpl; try done.
  apply sameValues_swap.
Defined.

(** X3: unticking a selected value (by its checkbox or by its tag) only
    widens the result: the books shown before are exactly the books of the
    new result that have the value, so none is lost. *)
Theorem unticking_widens (app : Explore.App) (V : string) :
  (NoDup (Explore.selectedSubjects (Explore.selection app)) →
   V ∈ Explore.selectedSubjects (Explore.selection app) →
   Explore.toggleSubject app V = Explore.removeSubject app V
   ∧ Explore.filteredBooks (Explore.books app) (Explore.selection app)
     = List.filter (hasValue Explore.subjectValues V)
         (Explore.filteredBooks (Explore.books app)
            (Explore.selection (Explore.removeSubject app V))))
  ∧ (NoDup (Explore.selectedStates (Explore.selection app)) →
   V ∈ Explore.selectedStates (Explore.selection app) →
   Explore.toggleState app V = Explore.removeState app V
   ∧ Explore.filteredBooks (Explore.books app) (Explore.selection app)
     = List.filter (hasValue Explore.stateValues V)
         (Explore.filteredBooks (Explore.books app)
            (Explore.selection (Explore.removeState app V))))
  ∧ (NoDup (Explore.selectedDistricts (Explore.selection app)) →
   V ∈ Explore.selectedDistricts (Explore.selection app) →
   Explore.toggleDistrict app V = Explore.removeDistrict app V
   ∧ Explore.filteredBooks (Explore.books app) (Explore.selection app)
     = List.filter (hasValue Explore.districtValues V)
         (Explore.filteredBooks (Explore.books app)
            (Explore.selection (Explore.removeDistrict app V)))).
Proof.
  split; [|split]; intros Hnd Hin.
  - split.
    { unfold Explore.toggleSubject, Explore.removeSubject.
      by rewrite toggleIn_present. }
    rewrite <- (filteredBooks_narrow _ _
      (withSubject (Explore.selection (Explore.removeSubject app V)) V))
      by (intros; apply keeps_withSubject).
    apply filteredBooks_sameValues; try done.
    by apply removeFrom_sameValues.
  - split.
    { unfold Explore.toggleState, Explore.removeState.
      by rewrite toggleIn_present. }
    rewrite <- (filteredBooks_narrow _ _
      (withState (Explore.selection (Explore.removeState app V)) V))
      by (intros; apply keeps_withState).
    apply filteredBooks_sameValues; try done.
    by apply removeFrom_sameValues.
  - split.
    { unfold Explore.toggleDistrict, Explore.removeDistrict.
      by rewrite toggleIn_present. }
    rewrite <- (filteredBooks_narrow _ _
      (withDistrict (Explore.selection (Explore.removeDistrict app V)) V))
      by (intros; apply keeps_withDistrict).
    apply filteredBooks_sameValues; try done.
    by apply removeFrom_sameValues.
Qed.

Lemma unticking_widens_witness :
  Explore.filteredBooks [bookA; bookB; bookAAB]
    (Explore.mkSelection ["Fiction"; "LGBTQ"] [] [] "")
  = List.filter (hasValue Explore.subjectValues "Fiction")
      (Explore.filteredBooks [bookA; bookB; bookAAB]
         (Explore.mkSelection ["LGBTQ"] [] [] "")).
Proof.
  destruct (unticking_widens
    (Explore.mkApp [bookA; bookB; bookAAB]
       (Explore.mkSelection ["Fiction"; "LGBTQ"] [] [] "")
       Explore.ByCount Explore.ByCount Explore.ByCount 1 None) "Fiction")
    as (Hs & _ & _).
  assert (NoDup ["Fiction"; "LGBTQ"]) as Hnd
    by (apply (bool_decide_unpack _); by vm_compute).
  exact (proj2 (Hs Hnd (list_elem_of_here _ _))).
Defined.

Lemma NoDup_toggleIn (l : list string) (x : string) :
  NoDup l → NoDup (Explore.toggleIn l x).
Proof.
  intros Hnd. unfold Explore.toggleIn, JS.splice1, JS.push.
  destruct (JS.indexOf l x) as [i|] eqn:Hi.
  - apply (sublist_NoDup _ l); [done|apply sublist_delete].
  - apply indexOf_None in Hi. apply NoDup_app. split; [done|]. split.
    + intros y Hy ->%list_elem_of_singleton. done.
    + apply NoDup_singleton.
Qed.

Lemma NoDup_removeFrom (l : list string) (x : string) :
  NoDup l → NoDup (Explore.removeFrom l x).
Proof.
  intros Hnd. unfold Explore.removeFrom, JS.splice1.
  destruct (JS.indexOf l x) as [i|]; [|done].
  apply (sublist_NoDup _ l); [done|apply sublist_delete].
Qed.

Lemma removeFrom_gone (l : list string) (x : string) :
  NoDup l → x ∉ Explore.removeFrom l x.
Proof.
  intros Hnd. unfold Explore.removeFrom, JS.splice1.
  destruct (JS.indexOf l x) as [i|] eqn:Hi.
  - apply indexOf_Some in Hi as [Hi _]. by apply NoDup_delete_at.
  - by apply indexOf_None in Hi.
Qed.

(** X4: on a selection without repetitions, toggling a value flips
    whether it is selected (the state of its checkbox), leaves every other
    value as it was, and keeps the selection free of repetitions; the
    toggles of the map panel have the same body. *)
Theorem toggle_flips_membership (l : list string) (x : string) :
  NoDup l →
  (x ∈ Explore.toggleIn l x ↔ x ∉ l)
  ∧ (∀ y, y ≠ x → y ∈ Explore.toggleIn l x ↔ y ∈ l)
  ∧ NoDup (Explore.toggleIn l x)
  ∧ MapPanel.toggle l x = Explore.toggleIn l x.
Proof.
  intros Hnd. split; [|split; [|split; [by apply NoDup_toggleIn|done]]].
  - unfold Explore.toggleIn, JS.splice1, JS.push.
    destruct (JS.indexOf l x) as [i|] eqn:Hi.
    + apply indexOf_Some in Hi as [Hi _].
      pose proof (NoDup_delete_at l i x Hnd Hi).
      pose proof (proj2 (elem_of_delete_at l i x x Hi) (or_introl eq_refl)).
      tauto.
    + apply indexOf_None in Hi. rewrite elem_of_app, list_elem_of_singleton.
      tauto.
  - intros y Hy. unfold Explore.toggleIn, JS.splice1, JS.push.
    destruct (JS.indexOf l x) as [i|] eqn:Hi.
    + apply indexOf_Some in Hi as [Hi _].
      rewrite (elem_of_delete_at l i x y Hi). tauto.
    + rewrite elem_of_app, list_elem_of_singleton. tauto.
Qed.

Lemma toggle_flips_membership_witness :
  "LGBTQ" ∈ Explore.toggleIn ["Fiction"] "LGBTQ"
  ∧ "Fiction" ∉ Explore.toggleIn ["Fiction"; "LGBTQ"] "Fiction".
Proof.
  assert (NoDup ["Fiction"]) as H1
    by (apply (bool_decide_unpack _); by vm_compute).
  assert (NoDup ["Fiction"; "LGBTQ"]) as H2
    by (apply (bool_decide_unpack _); by vm_compute).
  split.
  - apply (proj1 (toggle_flips_membership ["Fiction"] "LGBTQ" H1)).
    rewrite list_elem_of_singleton. discriminate.
  - intros Hin.
    apply (proj1 (toggle_flips_membership ["Fiction"; "LGBTQ"] "Fiction" H2))
      in Hin.
    apply Hin, list_elem_of_here.
Defined.

Lemma indexOf_push_absent (l : list string) (x : string) :
  x ∉ l → JS.indexOf (JS.push l x) x = Some (length l).
Proof.
  unfold JS.push. induction l as [|y l IH]; intros Hx; simpl.
  - by rewrite bool_decide_eq_true_2.
  - apply not_elem_of_cons in Hx as [Hne Hx].
    rewrite bool_decide_eq_false_2 by congruence. by rewrite IH.
Qed.

(** X5: ticking a value that is not selected and unticking it again (by
    the checkbox or by the tag) gives back the selection as it was; the
    other way round, unticking a selected value and ticking it again
    leaves the same values selected, the value now being the last. *)
Theorem toggle_twice (l : list string) (x : string) :
  (x ∉ l →
     Explore.toggleIn (Explore.toggleIn l x) x = l
     ∧ Explore.removeFrom (Explore.toggleIn l x) x = l)
  ∧ (NoDup l → x ∈ l →
     Explore.toggleIn (Explore.toggleIn l x) x
     = JS.push (Explore.removeFrom l x) x
     ∧ sameValues (Explore.toggleIn (Explore.toggleIn l x) x) l).
Proof.
  split.
  - intros Hx. rewrite (toggleIn_absent l x Hx).
    unfold Explore.toggleIn, Explore.removeFrom.
    rewrite indexOf_push_absent by done.
    unfold JS.splice1, JS.push.
    rewrite !delete_middle. by rewrite app_nil_r.
  - intros Hnd Hx.
    pose proof (removeFrom_gone l x Hnd) as Hout.
    rewrite (toggleIn_present l x Hx), (toggleIn_absent _ x Hout).
    split; [done|]. intros y. symmetry. by apply removeFrom_sameValues.
Qed.

Lemma toggle_twice_witness :
  Explore.toggleIn (Explore.toggleIn ["Fiction"] "LGBTQ") "LGBTQ" = ["Fiction"]
  ∧ Explore.toggleIn (Explore.toggleIn ["Fiction"; "LGBTQ"] "Fiction") "Fiction"
    = ["LGBTQ"; "Fiction"].
Proof.
  split.
  - apply (proj1 (toggle_twice ["Fiction"] "LGBTQ")).
    rewrite list_elem_of_singleton. discriminate.
  - assert (NoDup ["Fiction"; "LGBTQ"]) as H2
      by (apply (bool_decide_unpack _); by vm_compute).
    exact (proj1 (proj2 (toggle_twice ["Fiction"; "LGBTQ"] "Fiction")
                    H2 (list_elem_of_here _ _))).
Defined.

(** X6: removing a tag leaves the selection untouched when the value is
    not selected; otherwise (on a selection without repetitions) the value
    is gone, every other value stays, the remaining values keep their
    order, and removing it once more changes nothing. *)
Theorem remove_drops_only_that_value (l : list string) (x : string) :
  (x ∉ l → Explore.removeFrom l x = l)
  ∧ (Explore.removeFrom l x `sublist_of` l)
  ∧ (∀ y, y ≠ x → y ∈ Explore.removeFrom l x ↔ y ∈ l)
  ∧ (NoDup l →
     (x ∉ Explore.removeFrom l x)
     ∧ Explore.removeFrom (Explore.removeFrom l x) x = Explore.removeFrom l x
     ∧ NoDup (Explore.removeFrom l x)).
Proof.
  assert (x ∉ l → Explore.removeFrom l x = l) as Hid.
  { intros Hx. unfold Explore.removeFrom.
    by rewrite (proj2 (indexOf_None l x) Hx). }
  split; [exact Hid|]. split; [|split].
  - unfold Explore.removeFrom, JS.splice1.
    destruct (JS.indexOf l x); [apply sublist_delete|done].
  - intros y Hy. unfold Explore.removeFrom, JS.splice1.
    destruct (JS.indexOf l x) as [i|] eqn:Hi; [|done].
    apply indexOf_Some in Hi as [Hi _].
    rewrite (elem_of_delete_at l i x y Hi). tauto.
  - intros Hnd.
    pose proof (removeFrom_gone l x Hnd) as Hout.
    split; [done|]. split; [|by apply NoDup_removeFrom].
    unfold Explore.removeFrom at 1.
    by rewrite (proj2 (indexOf_None _ x) Hout).
Qed.

Lemma remove_drops_only_that_value_witness :
  Explore.removeFrom ["Fiction"] "LGBTQ" = ["Fiction"]
  ∧ "Fiction" ∉ Explore.removeFrom ["Fiction"; "LGBTQ"] "Fiction".
Proof.
  destruct (remove_drops_only_that_value ["Fiction"] "LGBTQ") as (H & _).
  destruct (remove_drops_only_that_value ["Fiction"; "LGBTQ"] "Fiction")
    as (_ & _ & _ & H').
  split.
  - apply H. rewrite list_elem_of_singleton. discriminate.
  - apply H'. apply (bool_decide_unpack _). by vm_compute.
Defined.

(** X7: in every state the explorer can reach, no subject, state or
    district is selected twice. *)
Theorem selection_never_repeats (app : Explore.App) :
  Explore.reachable app →
  NoDup (Explore.selectedSubjects (Explore.selection app))
  ∧ NoDup (Explore.selectedStates (Explore.selection app))
  ∧ NoDup (Explore.selectedDistricts (Explore.selection app)).
Proof.
  induction 1 as [|app ev _ (Hs & Hst & Hd)].
  - repeat split; apply NoDup_nil_2.
  - destruct ev as [[]| | | | |]; cbn; unfold Explore.prevPage, Explore.nextPage;
      repeat match goal with |- context [if ?b then _ else _] => destruct b end;
      cbn; repeat split;
      auto using NoDup_toggleIn, NoDup_removeFrom, NoDup_nil_2.
Qed.

Lemma selection_never_repeats_witness :
  NoDup (Explore.selectedSubjects (Explore.selection
    (Explore.run Explore.initial
       [Explore.LoadData [bookA; bookB];
        Explore.Filter (Explore.ToggleSubject "Fiction");
        Explore.Filter (Explore.ToggleSubject "LGBTQ");
        Explore.Filter (Explore.ToggleSubject "Fiction")]))).
Proof.
  apply selection_never_repeats. apply reachable_run.
Defined.

(** ** Pages *)

Lemma totalPagesOf_nonneg filtered : (0 ≤ Explore.totalPagesOf filtered)%Z.
Proof.
  pose proof (ceil_div_bounds (Z.of_nat (length filtered)) 100 ltac:(lia)).
  unfold Explore.totalPagesOf, Explore.itemsPerPage. lia.
Qed.

Lemma paginatedOf_take_drop (filtered : list Book) (p : Z) :
  (1 ≤ p)%Z →
  Explore.paginatedOf filtered p
  = take 100 (drop (Z.to_nat (p - 1) * 100) filtered).
Proof.
  intros Hp. apply list_eq. intros i.
  unfold Explore.paginatedOf, Explore.itemsPerPage.
  rewrite slice_lookup by lia.
  replace (Z.to_nat ((p - 1) * 100 + 100 - (p - 1) * 100)) with 100%nat by lia.
  destruct (Nat.ltb_spec i 100) as [Hi|Hi].
  - rewrite lookup_take_lt, lookup_drop by done. f_equal. lia.
  - by rewrite lookup_take_ge.
Qed.






Lemma pages_concat (l : list Book) (n : nat) :
  concat (map (λ p, Explore.paginatedOf l (Z.of_nat p)) (seq 1 n))
  = take (n * 100) l.
Proof.
  induction n as [|n IH]; [done|].
  rewrite seq_S, map_app, concat_app, IH. cbn [map concat].
  rewrite app_nil_r, paginatedOf_take_drop by lia.
  replace (Z.to_nat (Z.of_nat (1 + n) - 1) * 100)%nat with (n * 100)%nat by lia.
  rewrite take_take_drop. f_equal. lia.
Qed.

(** X9: the pages 1 to [totalPages] of a result, one after the other,
    are the result itself: every book is on exactly one page, in order;
    each of these pages holds between 1 and 100 books, and any later page
    is empty. *)
Theorem pages_partition_the_result (filtered : list Book) :
  concat (map (λ p, Explore.paginatedOf filtered (Z.of_nat p))
              (seq 1 (Z.to_nat (Explore.totalPagesOf filtered))))
  = filtered
  ∧ (∀ p, (1 ≤ p ≤ Explore.totalPagesOf filtered)%Z →
       (1 ≤ length (Explore.paginatedOf filtered p) ≤ 100)%nat)
  ∧ (∀ p, (Explore.totalPagesOf filtered < p)%Z →
       Explore.paginatedOf filtered p = []).
Proof.
  pose proof (ceil_div_bounds (Z.of_nat (length filtered)) 100 ltac:(lia))
    as Hb.
  pose proof (totalPagesOf_nonneg filtered) as H0.
  unfold Explore.totalPagesOf, Explore.itemsPerPage in Hb, H0.
  split; [|split].
  - rewrite pages_concat. apply take_ge.
    unfold Explore.totalPagesOf, Explore.itemsPerPage. lia.
  - intros p Hp. unfold Explore.totalPagesOf, Explore.itemsPerPage in Hp.
    rewrite paginatedOf_take_drop by lia.
    rewrite length_take, length_drop. lia.
  - intros p Hp. unfold Explore.totalPagesOf, Explore.itemsPerPage in Hp.
    rewrite paginatedOf_take_drop by lia.
    rewrite drop_ge; [done|]. lia.
Qed.

Lemma pages_partition_the_result_witness :
  length (Explore.paginatedOf (replicate 250 bookA) 2) = 100%nat
  ∧ Explore.paginatedOf (replicate 250 bookA) 4 = [].
Proof.
  destruct (pages_partition_the_result (replicate 250 bookA))
    as (_ & Hin & Hout).
  split; [|apply Hout; vm_compute; reflexivity].
  pose proof (Hin 2%Z ltac:(vm_compute; split; discriminate)) as H.
  vm_compute. reflexivity.
Defined.

(** ** The search box *)

Lemma lower_ascii_idem (c : ascii) :
  JS.lower_ascii (JS.lower_ascii c) = JS.lower_ascii c.
Proof. by destruct c as [[] [] [] [] [] [] [] []]. Qed.

Lemma toLowerCase_idem (s : string) :
  JS.toLowerCase (JS.toLowerCase s) = JS.toLowerCase s.
Proof.
  induction s as [|c s IH]; [done|]. simpl. by rewrite lower_ascii_idem, IH.
Qed.

Lemma toLowerCase_empty (s : string) : JS.toLowerCase s = "" ↔ s = "".
Proof. by destruct s. Qed.

Lemma prefix_spec (q s : string) :
  String.prefix q s = true ↔ ∃ post, s = String.append q post.
Proof.
  revert s. induction q as [|a q IH]; intros s.
  - split; [intros _; by exists s|by destruct s].
  - destruct s as [|b s]; simpl.
    + split; [done|]. by intros [post ?].
    + destruct (ascii_dec a b) as [->|Hne].
      * rewrite IH. split; intros [post Hp]; exists post.
        -- change (String b s = String b (String.append q post)).
           by rewrite Hp.
        -- change (String b s = String b (String.append q post)) in Hp.
           congruence.
      * split; [done|]. intros [post Hp].
        change (String b s = String a (String.append q post)) in Hp.
        congruence.
Qed.

Lemma str_includes_spec (s q : string) :
  JS.str_includes s q = true ↔ occursIn q s.
Proof.
  unfold occursIn. induction s as [|c s IH]; cbn [JS.str_includes].
  - rewrite orb_false_r, prefix_spec. split.
    + intros [post Hp]. by exists "", post.
    + intros (pre & post & Hp). destruct pre; [by exists post|done].
  - rewrite orb_true_iff, prefix_spec, IH. split.
    + intros [[post Hp]|(pre & post & Hp)].
      * by exists "", post.
      * exists (String c pre), post.
        change (String c s
                = String c (String.append pre (String.append q post))).
        by rewrite Hp.
    + intros (pre & post & Hp). destruct pre as [|c' pre].
      * left. by exists post.
      * right. exists pre, post.
        change (String c s
                = String c' (String.append pre (String.append q post))) in Hp.
        congruence.
Qed.

(** X10: for a query, a title and an author of ASCII characters, the
    search ignores the case of the letters, in the query and in the title
    and author; a non-empty query keeps exactly the books whose title or
    author, in lower case, contains the query in lower case; a book with
    neither title nor author matches no non-empty query, and the empty
    query keeps every book. *)
Theorem search_ignores_case (sel : Explore.Selection) (book : Book) :
  isAscii (Explore.searchQuery sel) = true →
  asciiField (title book) = true →
  asciiField (author book) = true →
  Explore.searchClause (withQuery sel (JS.toLowerCase (Explore.searchQuery sel)))
                       book
  = Explore.searchClause sel book
  ∧ Explore.searchClause sel (lowerCased book) = Explore.searchClause sel book
  ∧ (Explore.searchQuery sel ≠ "" →
     Explore.searchClause sel book = true
     ↔ (∃ t, title book = Some t
             ∧ occursIn (JS.toLowerCase (Explore.searchQuery sel))
                        (JS.toLowerCase t))
       ∨ (∃ a, author book = Some a
               ∧ occursIn (JS.toLowerCase (Explore.searchQuery sel))
                          (JS.toLowerCase a)))
  ∧ (Explore.searchQuery sel ≠ "" → title book = None → author book = None →
     Explore.searchClause sel book = false)
  ∧ (Explore.searchQuery sel = "" → Explore.searchClause sel book = true).
Proof.
  intros _ _ _.
  unfold Explore.searchClause, withQuery. cbn [Explore.searchQuery].
  split; [|split; [|split; [|split]]].
  - rewrite (bool_decide_ext _ _ (toLowerCase_empty (Explore.searchQuery sel))).
    by rewrite toLowerCase_idem.
  - unfold lowerCased, Explore.fieldMatches. cbn [title author].
    destruct (title book), (author book); simpl;
      by rewrite ?toLowerCase_idem.
  - intros Hq. rewrite bool_decide_eq_false_2 by done.
    rewrite orb_true_iff. unfold Explore.fieldMatches.
    split.
    + intros [H|H]; [left|right].
      * destruct (title book) as [t|]; [|done]. exists t.
        by rewrite <- str_includes_spec.
      * destruct (author book) as [a|]; [|done]. exists a.
        by rewrite <- str_includes_spec.
    + intros [(t & -> & H)|(a & -> & H)]; [left|right];
        by apply str_includes_spec.
  - intros Hq -> ->. by rewrite bool_decide_eq_false_2.
  - intros ->. done.
Qed.

Lemma search_ignores_case_witness :
  Explore.searchClause (Explore.mkSelection [] [] [] "SEC") bookB = true
  ∧ Explore.searchClause (Explore.mkSelection [] [] [] "first")
      (mkBook "E" None None SubjectsAbsent None None) = false.
Proof.
  destruct (search_ignores_case (Explore.mkSelection [] [] [] "SEC") bookB
              eq_refl eq_refl eq_refl)
    as (_ & _ & H & _).
  destruct (search_ignores_case (Explore.mkSelection [] [] [] "first")
              (mkBook "E" None None SubjectsAbsent None None)
              eq_refl eq_refl eq_refl)
    as (_ & _ & _ & H' & _).
  split; [|by apply H'].
  apply H; [done|]. left. exists "Second". split; [done|].
  by exists "", "ond".
Defined.

(** ** Sorting with any comparator *)

Section ComparatorSort.
Context {A : Type} (cmp : A → A → Z) (R : A → A → Prop).
Hypothesis R_le : ∀ a b, (cmp a b ≤ 0)%Z → R a b.
Hypothesis R_gt : ∀ a b, (0 < cmp a b)%Z → R b a.
Hypothesis R_trans : ∀ a b c, R a b → R b c → R a c.

Lemma cmp_insert_perm (x : A) (l : list A) : JS.sort_insert cmp x l ≡ₚ x :: l.
Proof.
  induction l as [|y l IH]; simpl; [done|].
  destruct (cmp x y <=? 0)%Z; [done|].
  rewrite IH. apply Permutation_swap.
Qed.

Lemma cmp_sort_perm (l : list A) : JS.sort cmp l ≡ₚ l.
Proof.
  induction l as [|x l IH]; simpl; [done|].
  rewrite cmp_insert_perm. by rewrite IH.
Qed.

Lemma cmp_insert_sorted (x : A) (l : list A) :
  StronglySorted R l → StronglySorted R (JS.sort_insert cmp x l).
Proof.
  induction 1 as [|y l Hl IH Hy]; simpl.
  - repeat constructor.
  - destruct (Z.leb_spec (cmp x y) 0) as [Hle|Hgt].
    + constructor; [by constructor|].
      constructor; [by apply R_le|].
      eapply Forall_impl; [exact Hy|]. intros z Hz.
      eapply R_trans; [by apply R_le|done].
    + constructor; [done|].
      rewrite cmp_insert_perm. constructor; [by apply R_gt|done].
Qed.

Lemma cmp_sort_sorted (l : list A) : StronglySorted R (JS.sort cmp l).
Proof.
  induction l as [|x l IH]; simpl; [constructor|].
  by apply cmp_insert_sorted.
Qed.

End ComparatorSort.

(** ** The order of strings *)

Lemma string_compare_trans (s t u : string) :
  String.compare s t ≠ Gt → String.compare t u ≠ Gt →
  String.compare s u ≠ Gt.
Proof.
  revert t u. induction s as [|a s IH]; intros [|b t] [|c u]; simpl;
    try done.
  unfold Ascii.compare.
  destruct (N.compare_spec (N_of_ascii a) (N_of_ascii b)),
    (N.compare_spec (N_of_ascii b) (N_of_ascii c)),
    (N.compare_spec (N_of_ascii a) (N_of_ascii c));
    try done; try lia.
  apply IH.
Qed.

Lemma strLe_trans (a b c : string) : strLe a b → strLe b c → strLe a c.
Proof.
  unfold strLe, String.leb. intros Hab Hbc.
  pose proof (string_compare_trans a b c) as H.
  destruct (String.compare a b), (String.compare b c),
    (String.compare a c); try done; by destruct H.
Qed.

Lemma strLe_of_compare (a b : string) :
  (JS.compareStrings a b ≤ 0)%Z → strLe a b.
Proof.
  unfold JS.compareStrings, strLe, String.leb.
  destruct (String.compare a b); [done|done|lia].
Qed.

Lemma strLe_of_compare_gt (a b : string) :
  (0 < JS.compareStrings a b)%Z → strLe b a.
Proof.
  unfold JS.compareStrings, strLe, String.leb.
  rewrite (String.compare_antisym b a).
  destruct (String.compare a b); simpl; [lia|lia|done].
Qed.

Lemma sort_strings_sorted (l : list string) :
  StronglySorted strLe (JS.sort JS.compareStrings l).
Proof.
  apply cmp_sort_sorted;
    eauto using strLe_of_compare, strLe_of_compare_gt, strLe_trans.
Qed.

(** ** The facet lists of the explorer *)







(** X12: when no subject, state or district is selected (no tag is
    shown) only the search text restricts the list, and after "Clear" the
    list is the whole data set in ban-count order; a search text alone
    does not count as an active filter. *)
Theorem no_tags_means_search_only (books : list Book) (sel : Explore.Selection) :
  (Explore.hasActiveFilters sel = false →
   (∀ book, Explore.keeps sel book = Explore.searchClause sel book)
   ∧ Explore.filteredBooks books sel
     = JS.sort Explore.byBans (List.filter (Explore.searchClause sel) books))
  ∧ (∀ app,
       Explore.hasActiveFilters (Explore.selection (Explore.clearFilters app))
       = false
       ∧ Explore.filteredBooks (Explore.books (Explore.clearFilters app))
           (Explore.selection (Explore.clearFilters app))
         = JS.sort Explore.byBans (Explore.books app))
  ∧ (∀ q, Explore.hasActiveFilters (Explore.mkSelection [] [] [] q) = false).
Proof.
  split; [|split; [|done]].
  - unfold Explore.hasActiveFilters. intros Hno.
    apply orb_false_elim in Hno as [Hno Hd].
    apply orb_false_elim in Hno as [Hs Hst].
    assert (∀ book, Explore.keeps sel book = Explore.searchClause sel book)
      as Hk.
    { intros book. rewrite keeps_andb.
      unfold Explore.subjectClause, Explore.stateClause, Explore.districtClause.
      rewrite Hs, Hst, Hd. by rewrite !andb_true_r. }
    split; [exact Hk|]. unfold Explore.filteredBooks. f_equal.
    by apply List.filter_ext.
  - intros app. split; [done|].
    cbn [Explore.clearFilters Explore.resetPage Explore.withPage
         Explore.withSelection Explore.selection Explore.books].
    unfold Explore.filteredBooks. f_equal.
    apply filter_all_true, Forall_forall. intros. apply keeps_empty_selection.
Qed.

Lemma no_tags_means_search_only_witness :
  Explore.filteredBooks [bookA; bookB; bookAAB]
    (Explore.mkSelection [] [] [] "sec") = [bookB].
Proof.
  destruct (no_tags_means_search_only [bookA; bookB; bookAAB]
              (Explore.mkSelection [] [] [] "sec")) as (H & _).
  rewrite (proj2 (H eq_refl)). reflexivity.
Defined.

(** ** The info panel of the map *)

Lemma List_filter_sublist {A} (p : A → bool) (l : list A) :
  List.filter p l `sublist_of` l.
Proof.
  induction l as [|x l IH]; simpl; [constructor|].
  destruct (p x); by constructor.
Qed.

Lemma includesOpt_spec (l : list string) (v : option string) :
  MapPanel.includesOpt l v = true ↔ ∃ x, v = Some x ∧ x ∈ l.
Proof.
  unfold MapPanel.includesOpt. destruct v as [x|].
  - rewrite includes_spec. split; [by eauto|]. by intros (y & [= ->] & ?).
  - split; [done|]. by intros (y & [=] & _).
Qed.

Lemma length_pos_nonempty {A} (l : list A) :
  (0 <? length l)%nat = negb (bool_decide (l = [])).
Proof. by destruct l. Qed.

Lemma and_iff3 (P A1 A2 A3 B1 B2 B3 : Prop) :
  (A1 ↔ B1) → (A2 ↔ B2) → (A3 ↔ B3) →
  (P ∧ A1 ∧ A2 ∧ A3) ↔ (P ∧ B1 ∧ B2 ∧ B3).
Proof. tauto. Qed.

Lemma elem_of_panel_filter (bannedBooks : list Book)
    (sel : MapPanel.Selection) (book : Book) :
  book ∈ MapPanel.filteredBooks bannedBooks sel
  ↔ book ∈ bannedBooks
    ∧ (MapPanel.selectedSubjects sel = []
       ∨ ∃ s, s ∈ panelSubjects book ∧ s ∈ MapPanel.selectedSubjects sel)
    ∧ (MapPanel.selectedBanStatus sel = []
       ∨ ∃ bs ban st, bans book = Some bs ∧ ban ∈ bs
                      ∧ ban_status ban = Some st
                      ∧ st ∈ MapPanel.selectedBanStatus sel)
    ∧ (MapPanel.selectedPopularityLevels sel = []
       ∨ ∃ level, popularityLevel book = Some level
                  ∧ level ∈ MapPanel.selectedPopularityLevels sel).
Proof.
  unfold MapPanel.filteredBooks.
  rewrite elem_of_List_filter, !length_pos_nonempty.
  assert (∀ (b1 b2 b3 : bool),
    (if b1 then false else if b2 then false else if b3 then false else true)
    = true ↔ b1 = false ∧ b2 = false ∧ b3 = false) as Hif
    by (intros [] [] []; intuition congruence).
  rewrite Hif, !andb_false_iff, !negb_false_iff, !orb_false_iff,
    !negb_false_iff, !bool_decide_eq_true.
  unfold panelSubjects. apply and_iff3.
  - apply or_iff_compat_l. split.
    + intros [Ht (s & Hs & Hin)%some_spec]. rewrite Ht. exists s.
      split; [done|]. by apply includes_spec.
    + intros (s & Hs & Hin). destruct (MapPanel.truthy (subjects book));
        [|by apply not_elem_of_nil in Hs].
      split; [done|]. apply some_spec. exists s. by rewrite includes_spec.
  - apply or_iff_compat_l. destruct (bans book) as [bs|].
    + rewrite some_spec. split.
      * intros (ban & Hin & (st & Hst & Hs)%includesOpt_spec). eauto 10.
      * intros (bs' & ban & st & [= <-] & Hin & Hst & Hs).
        exists ban. split; [done|]. apply includesOpt_spec. eauto.
    + split; [done|]. by intros (? & ? & ? & [=] & _).
  - apply or_iff_compat_l. apply includesOpt_spec.
Qed.

(** X13: the map panel keeps a book when, for each of the three filter
    groups, nothing is selected or the book matches at least one selected
    value (any within a group, all across groups); the books keep the
    order of the list (no sorting), and with nothing selected the list is
    shown unchanged. *)
Theorem panel_filter_any_within_all_across (bannedBooks : list Book)
    (sel : MapPanel.Selection) :
  (∀ book,
     book ∈ MapPanel.filteredBooks bannedBooks sel
     ↔ book ∈ bannedBooks
       ∧ (MapPanel.selectedSubjects sel = []
          ∨ ∃ s, s ∈ panelSubjects book ∧ s ∈ MapPanel.selectedSubjects sel)
       ∧ (MapPanel.selectedBanStatus sel = []
          ∨ ∃ bs ban st, bans book = Some bs ∧ ban ∈ bs
                         ∧ ban_status ban = Some st
                         ∧ st ∈ MapPanel.selectedBanStatus sel)
       ∧ (MapPanel.selectedPopularityLevels sel = []
          ∨ ∃ level, popularityLevel book = Some level
                     ∧ level ∈ MapPanel.selectedPopularityLevels sel))
  ∧ (MapPanel.filteredBooks bannedBooks sel `sublist_of` bannedBooks)
  ∧ MapPanel.filteredBooks bannedBooks (MapPanel.mkSelection [] [] [])
    = bannedBooks.
Proof.
  split; [|split].
  - intros book. apply elem_of_panel_filter.
  - apply List_filter_sublist.
  - unfold MapPanel.filteredBooks. apply filter_all_true, Forall_forall. done.
Qed.

Lemma panel_filter_any_within_all_across_witness :
  MapPanel.filteredBooks [bookA; bookB; bookAAB]
    (MapPanel.mkSelection [] [] []) = [bookA; bookB; bookAAB]
  ∧ bookA ∈ MapPanel.filteredBooks [bookA; bookB; bookAAB]
              (MapPanel.mkSelection ["LGBTQ"; "Fiction"] [] []).
Proof.
  destruct (panel_filter_any_within_all_across [bookA; bookB; bookAAB]
              (MapPanel.mkSelection [] [] [])) as (_ & _ & He).
  destruct (panel_filter_any_within_all_across [bookA; bookB; bookAAB]
              (MapPanel.mkSelection ["LGBTQ"; "Fiction"] [] []))
    as (Hm & _ & _).
  split; [exact He|]. apply Hm. split; [apply list_elem_of_here|].
  split; [|split; by left]. right. exists "Fiction".
  split; [apply list_elem_of_here|]. apply list_elem_of_further,
    list_elem_of_here.
Defined.






Lemma shownBooks_sublist (p : MapPanel.Panel) :
  MapPanel.shownBooks p `sublist_of` MapPanel.bannedBooks p.
Proof.
  unfold MapPanel.shownBooks.
  destruct (MapPanel.showingDistrictSelection p); [apply sublist_nil_l|].
  destruct (negb (MapPanel.hasSelection p)); [apply sublist_nil_l|].
  destruct (MapPanel.selectedBook p); [apply sublist_nil_l|].
  destruct (0 <? length (MapPanel.bannedBooks p))%nat; [|apply sublist_nil_l].
  apply List_filter_sublist.
Qed.




Lemma popularity_fold_get (l : list Book) (m : gmap string nat) (level : string) :
  level ≠ "" →
  JS.get (foldl (λ counts book,
            match popularityLevel book with
            | Some lv => if bool_decide (lv = "") then counts
                         else JS.bump counts lv
            | None => counts
            end) m l) level
  = (JS.get m level + length (List.filter (hasLevel level) l))%nat.
Proof.
  intros Hne. revert m. induction l as [|book l IH]; intros m; cbn [foldl].
  - simpl. lia.
  - rewrite IH. cbn [List.filter]. unfold hasLevel at 2.
    destruct (popularityLevel book) as [lv|].
    + case_bool_decide as Hlv.
      * subst. rewrite bool_decide_eq_false_2 by congruence. simpl. lia.
      * rewrite get_bump.
        rewrite (bool_decide_ext (level = lv) (Some lv = Some level))
          by (split; congruence).
        case_bool_decide; simpl; lia.
    + rewrite bool_decide_eq_false_2 by done. simpl. lia.
Qed.

Lemma popularityOrder_nonempty level :
  level ∈ MapPanel.popularityOrder → level ≠ "".
Proof.
  unfold MapPanel.popularityOrder. rewrite !elem_of_cons, elem_of_nil.
  intros H ->. decompose [or] H; try discriminate; done.
Qed.

(** X15: the popularity levels offered by the map panel are those of the
    fixed order ("Very Popular", "Popular", "Medium", "Less Popular") that
    at least one listed book has, in that order; the number beside a
    level is the number of listed books with that level, and it is the
    number of books shown when that level alone is ticked.  A level
    outside the fixed order is never offered. *)
Theorem popularity_levels_listed (bannedBooks : list Book) :
  (map fst (MapPanel.allPopularityLevels bannedBooks)
     `sublist_of` MapPanel.popularityOrder)
  ∧ (∀ level count,
       (level, count) ∈ MapPanel.allPopularityLevels bannedBooks
       ↔ level ∈ MapPanel.popularityOrder
         ∧ (0 < count)%nat
         ∧ count = length (List.filter (hasLevel level) bannedBooks))
  ∧ (∀ level count,
       (level, count) ∈ MapPanel.allPopularityLevels bannedBooks →
       length (MapPanel.filteredBooks bannedBooks
                 (MapPanel.mkSelection [] [] [level])) = count).
Proof.
  assert (∀ level count,
       (level, count) ∈ MapPanel.allPopularityLevels bannedBooks
       ↔ level ∈ MapPanel.popularityOrder
         ∧ (0 < count)%nat
         ∧ count = length (List.filter (hasLevel level) bannedBooks)) as Hmem.
  { intros level count. unfold MapPanel.allPopularityLevels.
    rewrite list_elem_of_fmap. split.
    - intros (lv & Heq & (Hin & Hpos)%elem_of_List_filter).
      simpl in Heq. injection Heq as <- ->.
      apply Nat.ltb_lt in Hpos. split; [done|]. split; [done|].
      unfold MapPanel.popularityCounts.
      rewrite popularity_fold_get by by apply popularityOrder_nonempty.
      by rewrite get_empty.
    - intros (Hin & Hpos & ->). exists level.
      assert (JS.get (MapPanel.popularityCounts bannedBooks) level
              = length (List.filter (hasLevel level) bannedBooks)) as Hg.
      { unfold MapPanel.popularityCounts.
        rewrite popularity_fold_get by by apply popularityOrder_nonempty.
        by rewrite get_empty. }
      split; [by rewrite Hg|]. apply elem_of_List_filter.
      split; [done|]. apply Nat.ltb_lt. by rewrite Hg. }
  split; [|split; [exact Hmem|]].
  - unfold MapPanel.allPopularityLevels.
    rewrite List.map_map. cbn [fst]. rewrite List.map_id.
    apply List_filter_sublist.
  - intros level count (_ & _ & ->)%Hmem. unfold MapPanel.filteredBooks.
    f_equal. apply List.filter_ext. intros book.
    cbn [MapPanel.selectedSubjects MapPanel.selectedBanStatus
         MapPanel.selectedPopularityLevels length].
    change (0 <? 0)%nat with false. change (0 <? 1)%nat with true.
    cbn [andb]. unfold hasLevel, MapPanel.includesOpt, JS.includes.
    destruct (popularityLevel book) as [lv|].
    + rewrite (bool_decide_ext (lv ∈ [level]) (Some lv = Some level)).
      * by destruct (bool_decide (Some lv = Some level)).
      * rewrite list_elem_of_singleton. split; congruence.
    + by rewrite bool_decide_eq_false_2.
Qed.

Lemma popularity_levels_listed_witness :
  MapPanel.allPopularityLevels
    [mkBook "P1" None None SubjectsAbsent None (Some "Popular");
     mkBook "P2" None None SubjectsAbsent None (Some "Very Popular");
     mkBook "P3" None None SubjectsAbsent None (Some "Popular");
     mkBook "P4" None None SubjectsAbsent None (Some "Cult")]
  = [("Very Popular", 1%nat); ("Popular", 2%nat)]
  ∧ length (MapPanel.filteredBooks
      [mkBook "P1" None None SubjectsAbsent None (Some "Popular");
       mkBook "P2" None None SubjectsAbsent None (Some "Very Popular");
       mkBook "P3" None None SubjectsAbsent None (Some "Popular");
       mkBook "P4" None None SubjectsAbsent None (Some "Cult")]
      (MapPanel.mkSelection [] [] ["Popular"])) = 2%nat.
Proof.
  split; [reflexivity|].
  apply (proj2 (proj2 (popularity_levels_listed _)) "Popular" 2%nat).
  apply list_elem_of_further, list_elem_of_here.
Defined.

Lemma elem_of_setAdd (set : list string) (x y : string) :
  y ∈ JS.setAdd set x ↔ y ∈ set ∨ y = x.
Proof.
  unfold JS.setAdd. case_bool_decide as Hx.
  - split; [tauto|]. intros [?| ->]; done.
  - by rewrite elem_of_app, list_elem_of_singleton.
Qed.

Lemma NoDup_setAdd (set : list string) (x : string) :
  NoDup set → NoDup (JS.setAdd set x).
Proof.
  intros Hnd. unfold JS.setAdd. case_bool_decide as Hx; [done|].
  apply NoDup_app. split; [done|]. split; [|apply NoDup_singleton].
  by intros y Hy ->%list_elem_of_singleton.
Qed.

Lemma addStatuses_spec (bs : list Ban) (set : list string) :
  NoDup set →
  NoDup (MapPanel.addStatuses set bs)
  ∧ ∀ st, st ∈ MapPanel.addStatuses set bs
          ↔ st ∈ set ∨ (st ≠ "" ∧ ∃ ban, ban ∈ bs ∧ ban_status ban = Some st).
Proof.
  unfold MapPanel.addStatuses. revert set.
  induction bs as [|ban bs IH]; intros set Hnd; cbn [foldl].
  - split; [done|]. intros st. split; [tauto|].
    intros [?|(_ & ban & Hin & _)]; [done|]. by apply not_elem_of_nil in Hin.
  - destruct (ban_status ban) as [s|] eqn:Hs; [case_bool_decide as He|].
    + destruct (IH set Hnd) as [Hn Hm]. split; [done|]. intros st.
      rewrite Hm. split.
      * intros [?|(Hne & b & Hin & Hb)]; [by left|]. right. split; [done|].
        exists b. split; [by apply list_elem_of_further|done].
      * intros [?|(Hne & b & Hin & Hb)]; [by left|]. right. split; [done|].
        apply elem_of_cons in Hin as [->|Hin]; [|by eauto].
        exfalso. rewrite Hs in Hb. injection Hb as <-. done.
    + destruct (IH _ (NoDup_setAdd set s Hnd)) as [Hn Hm]. split; [done|].
      intros st. rewrite Hm, elem_of_setAdd. split.
      * intros [[?| ->]|(Hne & b & Hin & Hb)]; [by left| |].
        -- right. split; [done|]. exists ban. split; [apply list_elem_of_here|done].
        -- right. split; [done|]. exists b.
           split; [by apply list_elem_of_further|done].
      * intros [?|(Hne & b & Hin & Hb)]; [by left; left|].
        apply elem_of_cons in Hin as [->|Hin].
        -- left; right. congruence.
        -- right. eauto.
    + destruct (IH set Hnd) as [Hn Hm]. split; [done|]. intros st.
      rewrite Hm. apply or_iff_compat_l. apply and_iff_compat_l.
      split; intros (b & Hin & Hb).
      * exists b. split; [by apply list_elem_of_further|done].
      * apply elem_of_cons in Hin as [->|Hin]; [congruence|by eauto].
Qed.

Lemma collect_fold_None (l : list Book) (acc : option (list string)) :
  foldl (λ acc book,
           match acc, bans book with
           | Some statusSet, Some bs => Some (MapPanel.addStatuses statusSet bs)
           | _, _ => None
           end) acc l = None
  ↔ acc = None ∨ ∃ book, book ∈ l ∧ bans book = None.
Proof.
  revert acc. induction l as [|book l IH]; intros acc; cbn [foldl].
  - split; [by left|]. intros [?|(b & Hb & _)]; [done|].
    by apply not_elem_of_nil in Hb.
  - rewrite IH. split.
    + intros [Hn|(b & Hb & Hnone)].
      * destruct acc as [set|]; [|by left]. right. exists book.
        split; [apply list_elem_of_here|]. by destruct (bans book).
      * right. exists b. split; [by apply list_elem_of_further|done].
    + intros [->|(b & Hb & Hnone)]; [by left|].
      apply elem_of_cons in Hb as [->|Hb]; [|by eauto].
      left. rewrite Hnone. by destruct acc.
Qed.

Lemma collect_fold_Some (l : list Book) (set set' : list string) :
  NoDup set →
  foldl (λ acc book,
           match acc, bans book with
           | Some statusSet, Some bs => Some (MapPanel.addStatuses statusSet bs)
           | _, _ => None
           end) (Some set) l = Some set' →
  NoDup set'
  ∧ ∀ st, st ∈ set' ↔ st ∈ set ∨ (st ≠ "" ∧ statusOccurs l st).
Proof.
  revert set. induction l as [|book l IH]; intros set Hnd; cbn [foldl].
  - intros [= <-]. split; [done|]. intros st. split; [tauto|].
    intros [?|(_ & b & bs & ban & Hb & _)]; [done|].
    by apply not_elem_of_nil in Hb.
  - destruct (bans book) as [bs|] eqn:Hbs.
    + destruct (addStatuses_spec bs set Hnd) as [Hn Hm].
      intros Hf. destruct (IH _ Hn Hf) as [Hn' Hm']. split; [done|].
      intros st. rewrite Hm', Hm. unfold statusOccurs. split.
      * intros [[?|(Hne & ban & Hin & Hst)]|(Hne & b & bs' & ban & Hb & ?)].
        -- by left.
        -- right. split; [done|]. exists book, bs, ban.
           split; [apply list_elem_of_here|done].
        -- right. split; [done|]. exists b, bs', ban.
           split; [by apply list_elem_of_further|done].
      * intros [?|(Hne & b & bs' & ban & Hb & Hbans & Hin & Hst)];
          [by left; left|].
        apply elem_of_cons in Hb as [->|Hb].
        -- left; right. split; [done|]. exists ban.
           rewrite Hbs in Hbans. injection Hbans as <-. done.
        -- right. split; [done|]. by exists b, bs', ban.
    + intros Hf. exfalso.
      assert (foldl (λ acc book,
           match acc, bans book with
           | Some statusSet, Some bs => Some (MapPanel.addStatuses statusSet bs)
           | _, _ => None
           end) None l = None) as Hc by (apply collect_fold_None; by left).
      congruence.
Qed.

(** X16: the list of ban statuses of the map panel fails (the unguarded
    [book.bans.forEach] throws) exactly when some listed book has no
    [bans] array, which never happens for the lists the map hands over;
    otherwise it holds each non-empty status of some ban of some listed
    book exactly once, in ascending order, and ticking one of them alone
    leaves at least one book. *)
Theorem ban_statuses_listed (bannedBooks : list Book) :
  (MapPanel.allBanStatuses bannedBooks = None
   ↔ ∃ book, book ∈ bannedBooks ∧ bans book = None)
  ∧ (∀ l, MapPanel.allBanStatuses bannedBooks = Some l →
       NoDup l ∧ StronglySorted strLe l
       ∧ (∀ st, st ∈ l ↔ st ≠ "" ∧ statusOccurs bannedBooks st)
       ∧ (∀ st, st ∈ l →
            MapPanel.filteredBooks bannedBooks
              (MapPanel.mkSelection [] [st] []) ≠ []))
  ∧ (∀ booksData districtName,
       is_Some (MapPanel.allBanStatuses
                  (MapMain.bannedBooksForDistrict booksData districtName))).
Proof.
  assert (∀ books, MapPanel.allBanStatuses books = None
            ↔ ∃ book, book ∈ books ∧ bans book = None) as Hnone.
  { intros books. unfold MapPanel.allBanStatuses, MapPanel.collectStatuses.
    pose proof (collect_fold_None books (Some [])) as H.
    destruct (foldl _ (Some []) books).
    - split; [done|]. intros Hex. discriminate (proj2 H (or_intror Hex)).
    - split; [|done]. intros _. by destruct (proj1 H eq_refl) as [?|?]. }
  split; [apply Hnone|]. split.
  - intros l. unfold MapPanel.allBanStatuses, MapPanel.collectStatuses.
    destruct (foldl _ (Some []) bannedBooks) as [set|] eqn:Hf; [|done].
    intros [= <-].
    destruct (collect_fold_Some bannedBooks [] set (NoDup_nil_2) Hf)
      as [Hn Hm].
    assert (∀ st, st ∈ JS.sort JS.compareStrings set
                  ↔ st ≠ "" ∧ statusOccurs bannedBooks st) as Hmem.
    { intros st. rewrite cmp_sort_perm, Hm. split; [|tauto].
      intros [H|H]; [by apply not_elem_of_nil in H|done]. }
    split; [by rewrite cmp_sort_perm|].
    split; [apply sort_strings_sorted|]. split; [exact Hmem|].
    intros st (_ & book & bs & ban & Hb & Hbans & Hin & Hst)%Hmem Hnil.
    assert (book ∈ MapPanel.filteredBooks bannedBooks
                     (MapPanel.mkSelection [] [st] [])) as Hc.
    { apply elem_of_panel_filter. split; [done|]. split; [by left|].
      split; [|by left]. right. exists bs, ban, st.
      repeat split; try done. apply list_elem_of_here. }
    rewrite Hnil in Hc. by apply not_elem_of_nil in Hc.
  - intros booksData districtName.
    destruct (MapPanel.allBanStatuses _) as [l|] eqn:Ha; [by eexists|].
    apply Hnone in Ha as (book & Hin & Hb).
    apply elem_of_List_filter in Hin as [_ Hin].
    unfold MapPanel.bannedIn in Hin. by rewrite Hb in Hin.
Qed.

Lemma ban_statuses_listed_witness :
  MapPanel.allBanStatuses
    [mkBook "S1" None None SubjectsAbsent
       (Some [mkBan "Texas" "Katy ISD" (Some "Banned") None;
              mkBan "Texas" "Conroe ISD" (Some "") None;
              mkBan "Florida" "Clay County" (Some "Banned") None]) None;
     mkBook "S2" None None SubjectsAbsent
       (Some [mkBan "Utah" "Davis" (Some "Banned Pending Investigation") None;
              mkBan "Utah" "Alpine" None None]) None]
  = Some ["Banned"; "Banned Pending Investigation"]
  ∧ MapPanel.allBanStatuses [bookA] = None.
Proof.
  split; [reflexivity|].
  apply (proj1 (ban_statuses_listed [bookA])).
  exists bookA. split; [apply list_elem_of_here|reflexivity].
Defined.

(** ** The report by state, event by event *)

Lemma addBan_counted subjs stateData ban :
  counted ban = true →
  ByState.addBan subjs stateData ban
  = let sd := default ByState.newState (stateData !! state ban) in
    let dd := default ByState.newDistrict
                (ByState.districts sd !! district ban) in
    let counts := foldl ByState.countSubject
                    (ByState.subjectCounts sd, ByState.districtSubjectCounts dd)
                    subjs in
    <[state ban :=
        ByState.mkStateData
          (<[district ban :=
               ByState.mkDistrictData counts.2
                 (ByState.districtTotalBans dd + 1)]> (ByState.districts sd))
          counts.1 (ByState.totalBans sd + 1)]> stateData.
Proof.
  unfold counted, ByState.addBan. intros Hc.
  apply andb_true_iff in Hc as [Hs Hd].
  apply negb_true_iff in Hs, Hd. by rewrite Hs, Hd.
Qed.

Lemma addBan_skipped subjs stateData ban :
  counted ban = false → ByState.addBan subjs stateData ban = stateData.
Proof.
  unfold counted, ByState.addBan. intros Hc.
  destruct (ByState.falsy (state ban)), (ByState.falsy (district ban)); done.
Qed.

Lemma addBans_counted subjs stateData bs :
  foldl (ByState.addBan subjs) stateData bs
  = foldl (λ m e, ByState.addBan e.1 m e.2) stateData
          (map (pair subjs) (List.filter counted bs)).
Proof.
  revert stateData. induction bs as [|ban bs IH]; intros m; [done|].
  cbn [foldl List.filter]. destruct (counted ban) eqn:Hc.
  - cbn [map foldl fst snd]. apply IH.
  - rewrite addBan_skipped by done. apply IH.
Qed.

Lemma analyzeData_events books :
  ByState.analyzeData books
  = foldl (λ m e, ByState.addBan e.1 m e.2) ∅ (countedBans books).
Proof.
  unfold ByState.analyzeData, countedBans. generalize (∅ : gmap string ByState.StateData).
  induction books as [|book books IH]; intros m; [done|].
  cbn [foldl map concat]. rewrite foldl_app, IH. f_equal.
  unfold ByState.addBook.
  destruct (bans book) as [bs|]; [|done].
  destruct (subjects book); try done. apply addBans_counted.
Qed.

Lemma countedBans_counted books :
  Forall (λ e, counted e.2 = true) (countedBans books).
Proof.
  unfold countedBans. apply Forall_concat, Forall_fmap, Forall_forall.
  intros book _. simpl. destruct (bans book) as [bs|]; [|constructor].
  destruct (subjects book); try constructor.
  apply Forall_fmap, Forall_forall. intros ban Hin. simpl.
  by apply elem_of_List_filter in Hin as [_ ?].
Qed.

Lemma countSubject_fold_get subjs a b V :
  V ≠ "" →
  JS.get (foldl ByState.countSubject (a, b) subjs).1 V
  = (JS.get a V + length (List.filter (λ x, bool_decide (x = V)) subjs))%nat
  ∧ JS.get (foldl ByState.countSubject (a, b) subjs).2 V
    = (JS.get b V + length (List.filter (λ x, bool_decide (x = V)) subjs))%nat.
Proof.
  intros HV. revert a b. induction subjs as [|x subjs IH]; intros a b.
  - simpl. lia.
  - cbn [foldl List.filter]. unfold ByState.countSubject at 2 4.
    unfold ByState.falsy. case_bool_decide as Hx.
    + subst. rewrite (bool_decide_eq_false_2 ("" = V)) by congruence. apply IH.
    + cbn [fst snd]. destruct (IH (JS.bump a x) (JS.bump b x)) as [-> ->].
      rewrite !get_bump.
      rewrite (bool_decide_ext (V = x) (x = V)) by (split; congruence).
      case_bool_decide; simpl; lia.
Qed.

Lemma countSubject_fold_empty subjs a b :
  JS.get (foldl ByState.countSubject (a, b) subjs).1 "" = JS.get a ""
  ∧ JS.get (foldl ByState.countSubject (a, b) subjs).2 "" = JS.get b "".
Proof.
  revert a b. induction subjs as [|x subjs IH]; intros a b; [done|].
  cbn [foldl]. unfold ByState.countSubject at 2 4.
  unfold ByState.falsy. case_bool_decide as Hx; [apply IH|].
  cbn [fst snd]. destruct (IH (JS.bump a x) (JS.bump b x)) as [-> ->].
  rewrite !get_bump. rewrite bool_decide_eq_false_2 by congruence. lia.
Qed.

Section EventFold.
Context (F : gmap string ByState.StateData → nat).
Context (w : list string * Ban → nat).
Hypothesis F_step : ∀ m e,
  counted e.2 = true → F (ByState.addBan e.1 m e.2) = (F m + w e)%nat.

Lemma event_fold (es : list (list string * Ban))
    (m : gmap string ByState.StateData) :
  Forall (λ e, counted e.2 = true) es →
  F (foldl (λ m e, ByState.addBan e.1 m e.2) m es)
  = (F m + foldr (λ e n, w e + n) 0 es)%nat.
Proof.
  intros Hes. revert m. induction Hes as [|e es He _ IH]; intros m.
  - simpl. lia.
  - cbn [foldl foldr]. rewrite IH, F_step by done. lia.
Qed.

End EventFold.

Lemma sum_indicator {A} (p : A → bool) (l : list A) :
  foldr (λ a n, (if p a then 1 else 0) + n)%nat 0%nat l
  = length (List.filter p l).
Proof.
  induction l as [|a l IH]; [done|]. cbn [foldr List.filter].
  rewrite IH. by destruct (p a).
Qed.

Lemma sum_mentions (p : list string * Ban → bool) (V : string)
    (es : list (list string * Ban)) :
  foldr (λ e n, (if p e
                 then length (List.filter (λ x, bool_decide (x = V)) e.1)
                 else 0) + n)%nat 0%nat es
  = mentions V (List.filter p es).
Proof.
  unfold mentions. induction es as [|e es IH]; [done|].
  cbn [foldr List.filter]. rewrite IH. destruct (p e); [|done].
  cbn [map concat]. by rewrite List.filter_app, length_app.
Qed.

Lemma stateTotal_step m e s :
  counted e.2 = true →
  stateTotal (ByState.addBan e.1 m e.2) s
  = (stateTotal m s + if inState s e then 1 else 0)%nat.
Proof.
  intros Hc. rewrite addBan_counted by done. unfold stateTotal, inState.
  cbn zeta. case_bool_decide as Hs.
  - subst. rewrite lookup_insert_eq. cbn [ByState.totalBans].
    by destruct (m !! state e.2).
  - rewrite lookup_insert_ne by done. lia.
Qed.

Lemma districtsOf_step m e s :
  counted e.2 = true →
  districtsOf (ByState.addBan e.1 m e.2) s
  = if inState s e
    then <[district e.2 :=
             ByState.mkDistrictData
               (foldl ByState.countSubject
                  (ByState.subjectCounts
                     (default ByState.newState (m !! s)),
                   ByState.districtSubjectCounts
                     (default ByState.newDistrict
                        (districtsOf m s !! district e.2))) e.1).2
               (districtTotal m s (district e.2) + 1)]> (districtsOf m s)
    else districtsOf m s.
Proof.
  intros Hc. rewrite addBan_counted by done.
  unfold districtsOf, districtTotal, districtsOf, inState.
  cbn zeta. case_bool_decide as Hs.
  - subst. rewrite lookup_insert_eq. cbn [ByState.districts].
    destruct (m !! state e.2) as [sd|]; simpl.
    + by destruct (ByState.districts sd !! district e.2).
    + by rewrite lookup_empty.
  - by rewrite lookup_insert_ne.
Qed.

Lemma districtTotal_step m e s d :
  counted e.2 = true →
  districtTotal (ByState.addBan e.1 m e.2) s d
  = (districtTotal m s d + if inDistrict s d e then 1 else 0)%nat.
Proof.
  intros Hc. unfold districtTotal at 1. rewrite districtsOf_step by done.
  unfold inDistrict, inState. case_bool_decide as Hs; cbn [andb].
  - case_bool_decide as Hd.
    + subst. by rewrite lookup_insert_eq.
    + rewrite lookup_insert_ne by done. unfold districtTotal. lia.
  - unfold districtTotal. lia.
Qed.

Lemma stateSubjectCount_step m e s V :
  V ≠ "" → counted e.2 = true →
  stateSubjectCount (ByState.addBan e.1 m e.2) s V
  = (stateSubjectCount m s V
     + if inState s e
       then length (List.filter (λ x, bool_decide (x = V)) e.1) else 0)%nat.
Proof.
  intros HV Hc. rewrite addBan_counted by done.
  unfold stateSubjectCount, inState. cbn zeta. case_bool_decide as Hs.
  - subst. rewrite lookup_insert_eq. cbn [ByState.subjectCounts].
    rewrite (proj1 (countSubject_fold_get _ _ _ V HV)).
    destruct (m !! state e.2); [done|]. cbn [default ByState.newState
      ByState.subjectCounts]. by rewrite get_empty.
  - rewrite lookup_insert_ne by done. lia.
Qed.

Lemma districtSubjectCount_step m e s d V :
  V ≠ "" → counted e.2 = true →
  districtSubjectCount (ByState.addBan e.1 m e.2) s d V
  = (districtSubjectCount m s d V
     + if inDistrict s d e
       then length (List.filter (λ x, bool_decide (x = V)) e.1) else 0)%nat.
Proof.
  intros HV Hc. unfold districtSubjectCount at 1.
  rewrite districtsOf_step by done.
  unfold inDistrict, inState. case_bool_decide as Hs; cbn [andb].
  - case_bool_decide as Hd.
    + subst. rewrite lookup_insert_eq. cbn [ByState.districtSubjectCounts].
      rewrite (proj2 (countSubject_fold_get _ _ _ V HV)).
      unfold districtSubjectCount.
      destruct (districtsOf m (state e.2) !! district e.2); [done|].
      cbn [default ByState.newDistrict ByState.districtSubjectCounts].
      by rewrite get_empty.
    + rewrite lookup_insert_ne by done. unfold districtSubjectCount. lia.
  - unfold districtSubjectCount. lia.
Qed.

Lemma emptySubject_step m e :
  counted e.2 = true →
  (∀ s, stateSubjectCount (ByState.addBan e.1 m e.2) s ""
        = stateSubjectCount m s "")
  ∧ (∀ s d, districtSubjectCount (ByState.addBan e.1 m e.2) s d ""
            = districtSubjectCount m s d "").
Proof.
  intros Hc. split.
  - intros s. rewrite addBan_counted by done.
    unfold stateSubjectCount. cbn zeta.
    destruct (decide (state e.2 = s)) as [<-|Hs].
    + rewrite lookup_insert_eq. cbn [ByState.subjectCounts].
      rewrite (proj1 (countSubject_fold_empty _ _ _)).
      destruct (m !! state e.2); [done|]. apply get_empty.
    + by rewrite lookup_insert_ne.
  - intros s d. unfold districtSubjectCount at 1.
    rewrite districtsOf_step by done. unfold inState.
    case_bool_decide as Hs; [|done].
    destruct (decide (district e.2 = d)) as [<-|Hd].
    + rewrite lookup_insert_eq. cbn [ByState.districtSubjectCounts].
      rewrite (proj2 (countSubject_fold_empty _ _ _)).
      unfold districtSubjectCount.
      destruct (districtsOf m s !! district e.2); [done|]. apply get_empty.
    + by rewrite lookup_insert_ne.
Qed.

(** ** The totals of a state and of its districts *)

Lemma map_sum_insert (g : ByState.DistrictData → nat)
    (ds : gmap string ByState.DistrictData) (d : string)
    (x : ByState.DistrictData) (k : nat) :
  g x = (match ds !! d with Some dd => g dd | None => 0 end + k)%nat →
  map_fold (λ _ dd n, (g dd + n)%nat) 0%nat (<[d:=x]> ds)
  = (map_fold (λ _ dd n, (g dd + n)%nat) 0%nat ds + k)%nat.
Proof.
  intros Hx.
  assert (∀ (z1 z2 : ByState.DistrictData) (y : nat),
            (g z1 + (g z2 + y) = g z2 + (g z1 + y))%nat) as Hcomm
    by (intros; lia).
  destruct (ds !! d) as [dd|] eqn:Hd.
  - rewrite <- insert_delete_eq.
    rewrite map_fold_insert_L; [|intros; apply Hcomm|apply lookup_delete_eq].
    rewrite (map_fold_delete_L _ _ d dd ds); [|intros; apply Hcomm|done].
    lia.
  - rewrite map_fold_insert_L; [|intros; apply Hcomm|done]. lia.
Qed.

Lemma map_sum_ge (g : ByState.DistrictData → nat)
    (ds : gmap string ByState.DistrictData) (d : string)
    (dd : ByState.DistrictData) :
  ds !! d = Some dd →
  (g dd ≤ map_fold (λ _ dd n, (g dd + n)%nat) 0%nat ds)%nat.
Proof.
  intros Hd. rewrite (map_fold_delete_L _ _ d dd ds); [lia| |done].
  intros; lia.
Qed.

Lemma addsUp_new : addsUp ByState.newState.
Proof.
  unfold addsUp, sumTotals, sumSubject. cbn.
  rewrite map_fold_empty. split; [done|]. split.
  - intros V. by rewrite map_fold_empty, get_empty.
  - intros d dd. by rewrite lookup_empty.
Qed.

Lemma addBan_addsUp m e :
  counted e.2 = true →
  (∀ s sd, m !! s = Some sd → addsUp sd ∧ (1 ≤ ByState.totalBans sd)%nat) →
  ∀ s sd, ByState.addBan e.1 m e.2 !! s = Some sd →
          addsUp sd ∧ (1 ≤ ByState.totalBans sd)%nat.
Proof.
  intros Hc Hm s sd'. rewrite addBan_counted by done. cbn zeta.
  destruct (decide (state e.2 = s)) as [<-|Hs];
    [|rewrite lookup_insert_ne by done; apply Hm].
  rewrite lookup_insert_eq. intros [= <-].
  assert (addsUp (default ByState.newState (m !! state e.2))) as (Ht & Hsub & Hd).
  { destruct (m !! state e.2) as [sd|] eqn:Hl; [apply (Hm _ _ Hl)|].
    apply addsUp_new. }
  set (sd := default ByState.newState (m !! state e.2)) in *.
  set (ds := ByState.districts sd) in *.
  split; [|cbn; lia]. unfold addsUp. cbn [ByState.totalBans ByState.districts
    ByState.subjectCounts].
  split; [|split].
  - unfold sumTotals in *. rewrite (map_sum_insert _ ds _ _ 1); [lia|].
    cbn. by destruct (ds !! district e.2).
  - intros V. unfold sumSubject in *.
    destruct (decide (V = "")) as [->|HV].
    + rewrite (map_sum_insert _ ds _ _ 0).
      * rewrite (proj1 (countSubject_fold_empty _ _ _)), Hsub. lia.
      * cbn [ByState.districtSubjectCounts].
        rewrite (proj2 (countSubject_fold_empty _ _ _)).
        destruct (ds !! district e.2); cbn; [lia|]. by rewrite get_empty.
    + rewrite (map_sum_insert _ ds _ _
        (length (List.filter (λ x, bool_decide (x = V)) e.1))).
      * rewrite (proj1 (countSubject_fold_get _ _ _ V HV)), Hsub. lia.
      * cbn [ByState.districtSubjectCounts].
        rewrite (proj2 (countSubject_fold_get _ _ _ V HV)).
        destruct (ds !! district e.2); cbn; [lia|]. by rewrite get_empty.
  - intros d dd. destruct (decide (district e.2 = d)) as [<-|Hne].
    + rewrite lookup_insert_eq. intros [= <-]. cbn. lia.
    + rewrite lookup_insert_ne by done. apply Hd.
Qed.

Lemma events_addsUp es m :
  Forall (λ e, counted e.2 = true) es →
  (∀ s sd, m !! s = Some sd → addsUp sd ∧ (1 ≤ ByState.totalBans sd)%nat) →
  ∀ s sd, foldl (λ m e, ByState.addBan e.1 m e.2) m es !! s = Some sd →
          addsUp sd ∧ (1 ≤ ByState.totalBans sd)%nat.
Proof.
  intros Hes. revert m. induction Hes as [|e es He _ IH]; intros m Hm; [done|].
  cbn [foldl]. apply IH. by apply addBan_addsUp.
Qed.

(** X17: for data in which no counted ban names a state or district that
    every plain object inherits, every state entry of the report adds up:
    its [totalBans] is the sum of the [totalBans] of its districts, and
    its count of any subject, other than the inherited names, is the sum
    of the districts' counts of that subject; every state listed has at
    least one ban and at least one district, and every district listed has
    at least one ban and at most the state's total. *)
Theorem report_totals_add_up (books : list Book) (s : string)
    (sd : ByState.StateData) :
  plainPlaces books →
  ByState.analyzeData books !! s = Some sd →
  ByState.totalBans sd = sumTotals (ByState.districts sd)
  ∧ (∀ V, V ∉ JS.inherited →
          JS.get (ByState.subjectCounts sd) V
          = sumSubject V (ByState.districts sd))
  ∧ (1 ≤ ByState.totalBans sd)%nat
  ∧ ByState.districts sd ≠ ∅
  ∧ (∀ d dd, ByState.districts sd !! d = Some dd →
       (1 ≤ ByState.districtTotalBans dd ≤ ByState.totalBans sd)%nat
       ∧ ∀ V, V ∉ JS.inherited →
              (JS.get (ByState.districtSubjectCounts dd) V
               ≤ JS.get (ByState.subjectCounts sd) V)%nat).
Proof.
  intros _. rewrite analyzeData_events. intros Hl.
  destruct (events_addsUp (countedBans books) ∅ (countedBans_counted books)
              ltac:(intros ? ?; by rewrite lookup_empty) s sd Hl)
    as ((Ht & Hsub & Hd) & Hpos).
  split; [done|]. split; [by intros V _|]. split; [done|]. split.
  - intros Hempty. rewrite Hempty in Ht. unfold sumTotals in Ht.
    rewrite map_fold_empty in Ht. lia.
  - intros d dd Hdd. split.
    + split; [by apply (Hd d)|]. rewrite Ht. unfold sumTotals.
      by apply (map_sum_ge ByState.districtTotalBans _ d).
    + intros V _. rewrite Hsub. unfold sumSubject.
      by apply (map_sum_ge (λ dd, JS.get (ByState.districtSubjectCounts dd) V)
                  _ d).
Qed.

Lemma report_totals_add_up_witness :
  ByState.totalBans <$> (ByState.analyzeData [bookB; bookAAB] !! "Nation")
  = Some 2%nat
  ∧ sumTotals <$> (ByState.districts
                     <$> (ByState.analyzeData [bookB; bookAAB] !! "Nation"))
    = Some 2%nat.
Proof.
  destruct (ByState.analyzeData [bookB; bookAAB] !! "Nation") as [sd|] eqn:Hl;
    [|by vm_compute in Hl].
  assert (plainPlaces [bookB; bookAAB]) as Hplain
    by (apply (bool_decide_unpack _); vm_compute; exact I).
  destruct (report_totals_add_up _ _ _ Hplain Hl) as (Ht & _).
  assert (ByState.totalBans sd = 2%nat) as H2.
  { vm_compute in Hl. by injection Hl as <-. }
  simpl. split; f_equal; [done|]. by rewrite <- Ht.
Defined.

Lemma readings_empty s d V :
  stateTotal ∅ s = 0%nat ∧ districtTotal ∅ s d = 0%nat
  ∧ stateSubjectCount ∅ s V = 0%nat ∧ districtSubjectCount ∅ s d V = 0%nat.
Proof.
  unfold stateTotal, districtTotal, stateSubjectCount, districtSubjectCount,
    districtsOf.
  by rewrite !lookup_empty.
Qed.

(** X18: the report counts ban events, for data in which no counted ban
    names a state or district that every plain object inherits.  A
    state's [totalBans] is the number of ban events with that state, a
    district's the number with that state and district, counting only
    events whose state and district are non-empty and whose book has
    [bans] and [subjects] arrays; the count of a subject, other than the
    inherited names, is the number of times it is mentioned by these
    events (once per event and per occurrence in the book's subjects); the
    empty subject is never counted; a state has an entry exactly when it
    has such an event, under its raw name, and never under the empty
    name. *)
Theorem report_counts_ban_events (books : list Book) (s d V : string) :
  plainPlaces books →
  stateTotal (ByState.analyzeData books) s
  = length (List.filter (inState s) (countedBans books))
  ∧ districtTotal (ByState.analyzeData books) s d
    = length (List.filter (inDistrict s d) (countedBans books))
  ∧ (V ≠ "" → V ∉ JS.inherited →
     stateSubjectCount (ByState.analyzeData books) s V
     = mentions V (List.filter (inState s) (countedBans books))
     ∧ districtSubjectCount (ByState.analyzeData books) s d V
       = mentions V (List.filter (inDistrict s d) (countedBans books)))
  ∧ stateSubjectCount (ByState.analyzeData books) s "" = 0%nat
  ∧ districtSubjectCount (ByState.analyzeData books) s d "" = 0%nat
  ∧ (is_Some (ByState.analyzeData books !! s)
     ↔ ∃ e, e ∈ countedBans books ∧ state e.2 = s)
  ∧ ByState.analyzeData books !! "" = None.
Proof.
  intros _.
  pose proof (countedBans_counted books) as Hc.
  pose proof (readings_empty s d V) as (E1 & E2 & E3 & E4).
  pose proof (readings_empty s d "") as (_ & _ & E5 & E6).
  rewrite analyzeData_events.
  assert (stateTotal (foldl (λ m e, ByState.addBan e.1 m e.2) ∅
                        (countedBans books)) s
          = length (List.filter (inState s) (countedBans books))) as Hst.
  { rewrite (event_fold (λ m, stateTotal m s)
               (λ e, if inState s e then 1 else 0)%nat); [|
      intros; by apply stateTotal_step|done].
    by rewrite E1, sum_indicator. }
  assert (is_Some (foldl (λ m e, ByState.addBan e.1 m e.2) ∅
                     (countedBans books) !! s)
          ↔ ∃ e, e ∈ countedBans books ∧ state e.2 = s) as Hsome.
  { split.
    - intros [sd Hl].
      destruct (events_addsUp (countedBans books) ∅ Hc
        ltac:(intros ? ?; by rewrite lookup_empty) s sd Hl) as [_ Hpos].
      unfold stateTotal in Hst. rewrite Hl in Hst.
      destruct (filter_nonempty_elem (inState s) (countedBans books)
                  ltac:(lia)) as (e & Hin & He).
      exists e. split; [done|]. by apply bool_decide_eq_true in He.
    - intros (e & Hin & He).
      assert (e ∈ List.filter (inState s) (countedBans books)) as Hf.
      { apply elem_of_List_filter. split; [done|].
        by apply bool_decide_eq_true. }
      unfold stateTotal in Hst.
      destruct (foldl _ ∅ (countedBans books) !! s) as [sd|]; [by eexists|].
      destruct (List.filter (inState s) (countedBans books)); [|done].
      by apply not_elem_of_nil in Hf. }
  split; [exact Hst|]. split; [|split; [|split; [|split; [|split]]]].
  - rewrite (event_fold (λ m, districtTotal m s d)
               (λ e, if inDistrict s d e then 1 else 0)%nat); [|
      intros; by apply districtTotal_step|done].
    by rewrite E2, sum_indicator.
  - intros HV _. split.
    + rewrite (event_fold (λ m, stateSubjectCount m s V)
        (λ e, if inState s e
              then length (List.filter (λ x, bool_decide (x = V)) e.1)
              else 0)%nat); [|intros; by apply stateSubjectCount_step|done].
      by rewrite E3, sum_mentions.
    + rewrite (event_fold (λ m, districtSubjectCount m s d V)
        (λ e, if inDistrict s d e
              then length (List.filter (λ x, bool_decide (x = V)) e.1)
              else 0)%nat); [|intros; by apply districtSubjectCount_step|done].
      by rewrite E4, sum_mentions.
  - rewrite (event_fold (λ m, stateSubjectCount m s "") (λ _, 0%nat));
      [|intros m e He; rewrite (proj1 (emptySubject_step m e He)); lia|done].
    rewrite E5. clear. induction (countedBans books); [done|]. by simpl.
  - rewrite (event_fold (λ m, districtSubjectCount m s d "") (λ _, 0%nat));
      [|intros m e He; rewrite (proj2 (emptySubject_step m e He)); lia|done].
    rewrite E6. clear. induction (countedBans books); [done|]. by simpl.
  - exact Hsome.
  - clear Hst Hsome E1 E2 E3 E4 E5 E6.
    assert (∀ m : gmap string ByState.StateData, m !! "" = None →
              foldl (λ m e, ByState.addBan e.1 m e.2) m (countedBans books)
                !! "" = None) as H; [|apply H, lookup_empty].
    induction Hc as [|e es He _ IH]; intros m Hm; [done|].
    cbn [foldl]. apply IH. rewrite addBan_counted by done. cbn zeta.
    rewrite lookup_insert_ne; [done|].
    unfold counted, ByState.falsy in He.
    apply andb_true_iff in He as [He _]. apply negb_true_iff in He.
    by apply bool_decide_eq_false in He.
Qed.

Lemma report_counts_ban_events_witness :
  stateTotal (ByState.analyzeData [bookB; bookScalar; bookAAB]) "Nation"
  = 2%nat
  ∧ stateSubjectCount (ByState.analyzeData [bookB; bookScalar; bookAAB])
      "Nation" "a" = 4%nat
  ∧ is_Some (ByState.analyzeData [bookB; bookScalar; bookAAB] !! "Nation")
  ∧ ByState.analyzeData [bookB; bookScalar; bookAAB] !! "DoDEA" = None.
Proof.
  assert (plainPlaces [bookB; bookScalar; bookAAB]) as Hplain
    by (apply (bool_decide_unpack _); vm_compute; exact I).
  assert ("a" ∉ JS.inherited) as Ha
    by (apply (bool_decide_unpack _); vm_compute; exact I).
  destruct (report_counts_ban_events [bookB; bookScalar; bookAAB]
              "Nation" "" "a" Hplain) as (Ht & _ & Hs & _ & _ & Hsome & _).
  split; [by rewrite Ht|]. split; [by rewrite (proj1 (Hs ltac:(done) Ha))|].
  split; [|reflexivity].
  apply Hsome. exists (["a"; "a"; "b"], mkBan "Nation" "DoDEA Europe" None None).
  split; [|done]. vm_compute. apply list_elem_of_further, list_elem_of_here.
Defined.

(** ** The sections of the report *)

Lemma slice_from_0 {A} (l : list A) (n : Z) :
  (0 ≤ n)%Z → JS.slice l 0 n = take (Z.to_nat n) l.
Proof.
  intros Hn. apply list_eq. intros i. rewrite slice_lookup by lia.
  replace (Z.to_nat (n - 0)) with (Z.to_nat n) by lia. simpl.
  destruct (Nat.ltb_spec i (Z.to_nat n)).
  - by rewrite lookup_take_lt.
  - by rewrite lookup_take_ge.
Qed.

Lemma slice_10_20 {A} (l : list A) : JS.slice l 10 20 = take 10 (drop 10 l).
Proof.
  apply list_eq. intros i. rewrite slice_lookup by lia.
  change (Z.to_nat (20 - 10)) with 10%nat. change (Z.to_nat 10) with 10%nat.
  destruct (Nat.ltb_spec i 10).
  - by rewrite lookup_take_lt, lookup_drop.
  - by rewrite lookup_take_ge.
Qed.

Lemma sorted_app_cross {A} (R : A → A → Prop) (l1 l2 : list A) :
  StronglySorted R (l1 ++ l2) → ∀ a b, a ∈ l1 → b ∈ l2 → R a b.
Proof.
  induction l1 as [|x l1 IH]; intros Hs a b Ha Hb.
  - by apply not_elem_of_nil in Ha.
  - simpl in Hs. apply StronglySorted_inv in Hs as [Hs Hx].
    apply elem_of_cons in Ha as [->|Ha]; [|by apply IH].
    apply (proj1 (Forall_forall _ _) Hx). apply elem_of_app. by right.
Qed.

Lemma sorted_take {A} (R : A → A → Prop) (l : list A) (n : nat) :
  StronglySorted R l → StronglySorted R (take n l).
Proof.
  intros Hs. revert n. induction Hs as [|x l Hl IH Hx]; intros [|n]; simpl;
    try constructor; [apply IH|].
  apply Forall_forall. intros y Hy.
  apply (proj1 (Forall_forall _ _) Hx).
  eapply elem_of_sublist; [done|]. apply sublist_take.
Qed.

(** X19: [getTopSubjects] returns the [limit] entries with the largest
    counts (all entries when there are fewer), largest first: every entry
    left out has a count no larger than every entry kept.  With the limit
    of 20 the two columns of a section, put one after the other, are the
    top subjects: the left column takes the first ten, the right column
    the rest.  The states, and the districts of a state, are listed by
    their total number of bans, largest first. *)
Theorem top_subjects_are_the_largest (entries : list (string * nat))
    (limit : Z) :
  (0 ≤ limit)%Z →
  length (ByState.getTopSubjects entries limit)
  = Nat.min (Z.to_nat limit) (length entries)
  ∧ StronglySorted (notBelow (λ e : string * nat, Z.of_nat e.2))
      (ByState.getTopSubjects entries limit)
  ∧ (∃ rest, ByState.getTopSubjects entries limit ++ rest ≡ₚ entries
             ∧ ∀ a b, a ∈ ByState.getTopSubjects entries limit → b ∈ rest →
                      (b.2 ≤ a.2)%nat)
  ∧ (limit = 20%Z →
     ByState.leftSubjects (ByState.getTopSubjects entries limit)
       ++ ByState.rightSubjects (ByState.getTopSubjects entries limit)
     = ByState.getTopSubjects entries limit
     ∧ ByState.leftSubjects (ByState.getTopSubjects entries limit)
       = take 10 (ByState.getTopSubjects entries limit)
     ∧ (length (ByState.rightSubjects (ByState.getTopSubjects entries limit))
        ≤ 10)%nat)
  ∧ (∀ states, ByState.sortedStates states ≡ₚ states
       ∧ StronglySorted
           (notBelow (λ e : string * ByState.StateData,
                        Z.of_nat (ByState.totalBans e.2)))
           (ByState.sortedStates states))
  ∧ (∀ districts, ByState.sortedDistricts districts ≡ₚ districts
       ∧ StronglySorted
           (notBelow (λ e : string * ByState.DistrictData,
                        Z.of_nat (ByState.districtTotalBans e.2)))
           (ByState.sortedDistricts districts)).
Proof.
  intros Hl. unfold ByState.getTopSubjects. rewrite slice_from_0 by done.
  pose proof (sort_sorted (λ e : string * nat, Z.of_nat e.2) entries) as Hs.
  pose proof (sort_perm (λ e : string * nat, Z.of_nat e.2) entries) as Hp.
  cbv beta in Hs, Hp.
  set (sorted := JS.sort (λ a b, Z.of_nat b.2 - Z.of_nat a.2)%Z entries) in *.
  split; [rewrite length_take; unfold sorted; by rewrite sort_length|].
  split; [by apply sorted_take|]. split; [|split; [|split]].
  - exists (drop (Z.to_nat limit) sorted). rewrite take_drop. split; [done|].
    intros a b Ha Hb. rewrite <- (take_drop (Z.to_nat limit) sorted) in Hs.
    pose proof (sorted_app_cross _ _ _ Hs a b Ha Hb) as H.
    unfold notBelow in H. lia.
  - intros ->. change (Z.to_nat 20) with 20%nat.
    unfold ByState.leftSubjects, ByState.rightSubjects.
    rewrite slice_from_0, slice_10_20 by lia. change (Z.to_nat 10) with 10%nat.
    split; [|split; [done|]].
    + rewrite take_take_drop. apply take_ge. rewrite length_take. lia.
    + rewrite length_take. lia.
  - intros states. split.
    + apply (sort_perm (λ e : string * ByState.StateData,
                          Z.of_nat (ByState.totalBans e.2))).
    + apply (sort_sorted (λ e : string * ByState.StateData,
                            Z.of_nat (ByState.totalBans e.2))).
  - intros districts. split.
    + apply (sort_perm (λ e : string * ByState.DistrictData,
                          Z.of_nat (ByState.districtTotalBans e.2))).
    + apply (sort_sorted (λ e : string * ByState.DistrictData,
                            Z.of_nat (ByState.districtTotalBans e.2))).
Qed.

Lemma top_subjects_are_the_largest_witness :
  ByState.getTopSubjects
    [("Fiction", 2%nat); ("LGBTQ", 5%nat); ("a", 2%nat); ("b", 7%nat)] 3
  = [("b", 7%nat); ("LGBTQ", 5%nat); ("Fiction", 2%nat)]
  ∧ length (ByState.getTopSubjects
      [("Fiction", 2%nat); ("LGBTQ", 5%nat); ("a", 2%nat); ("b", 7%nat)] 3)
    = 3%nat.
Proof.
  split; [reflexivity|].
  exact (proj1 (top_subjects_are_the_largest
    [("Fiction", 2%nat); ("LGBTQ", 5%nat); ("a", 2%nat); ("b", 7%nat)] 3
    ltac:(lia))).
Defined.

(** ** The subject counts of the map panel against its list *)

Lemma panel_subject_pred (V : string) (book : Book) :
  (if (0 <? length [V])%nat
      && (negb (MapPanel.truthy (subjects book))
          || negb (JS.some (λ s, JS.includes [V] s)
                           (MapPanel.asArray (subjects book))))
   then false
   else if (0 <? 0)%nat
      && negb (match bans book with
               | Some bs => JS.some (λ b,
                   MapPanel.includesOpt [] (ban_status b)) bs
               | None => false
               end)
   then false
   else if (0 <? 0)%nat
      && negb (MapPanel.includesOpt [] (popularityLevel book))
   then false
   else true)
  = hasValue panelSubjects V book.
Proof.
  change (0 <? 0)%nat with false. change (0 <? length [V])%nat with true.
  cbn [andb]. unfold hasValue, panelSubjects.
  destruct (MapPanel.truthy (subjects book)); cbn [negb orb].
  - generalize (MapPanel.asArray (subjects book)). intros l.
    destruct (JS.some _ l) eqn:Hs; cbn [negb]; symmetry.
    + apply some_spec in Hs as (s & Hs & Hin).
      apply includes_spec, list_elem_of_singleton in Hin as ->.
      by apply bool_decide_eq_true_2.
    + apply bool_decide_eq_false_2. intros Hin.
      assert (JS.some (λ s, JS.includes [V] s) l = true) as Hc; [|congruence].
      apply some_spec. exists V. split; [done|].
      apply includes_spec, list_elem_of_here.
  - symmetry. apply bool_decide_eq_false_2, not_elem_of_nil.
Qed.

(** X20: in the map panel, ticking one subject alone shows the listed
    books that carry it; for a subject that is not one of the names every
    plain object inherits, their number is at most the count shown beside
    the subject (which counts occurrences), is positive exactly when the
    count is, and equals the count when no listed book repeats a
    subject. *)
Theorem panel_subject_count_bounds_list (bannedBooks : list Book) (V : string) :
  MapPanel.filteredBooks bannedBooks (MapPanel.mkSelection [V] [] [])
  = List.filter (hasValue panelSubjects V) bannedBooks
  ∧ (V ∉ JS.inherited →
     (length (MapPanel.filteredBooks bannedBooks
                (MapPanel.mkSelection [V] [] []))
      ≤ JS.get (MapPanel.subjectCounts bannedBooks) V)%nat
     ∧ ((0 < JS.get (MapPanel.subjectCounts bannedBooks) V)%nat
        ↔ (0 < length (MapPanel.filteredBooks bannedBooks
                         (MapPanel.mkSelection [V] [] [])))%nat)
     ∧ ((∀ book, book ∈ bannedBooks → NoDup (panelSubjects book)) →
        length (MapPanel.filteredBooks bannedBooks
                  (MapPanel.mkSelection [V] [] []))
        = JS.get (MapPanel.subjectCounts bannedBooks) V)).
Proof.
  assert (MapPanel.filteredBooks bannedBooks (MapPanel.mkSelection [V] [] [])
          = List.filter (hasValue panelSubjects V) bannedBooks) as E.
  { unfold MapPanel.filteredBooks. apply List.filter_ext. intros book.
    apply panel_subject_pred. }
  split; [exact E|]. intros _. rewrite E, panel_counts_get. clear E.
  assert (∀ book,
    ((if hasValue panelSubjects V book then 1 else 0)
     ≤ length (List.filter (λ x, bool_decide (x = V)) (panelSubjects book)))%nat
    ∧ (NoDup (panelSubjects book) →
       length (List.filter (λ x, bool_decide (x = V)) (panelSubjects book))
       = (if hasValue panelSubjects V book then 1 else 0)%nat)) as Hbook.
  { intros book. unfold hasValue. generalize (panelSubjects book). intros l.
    induction l as [|x l [IH1 IH2]]; [done|]. cbn [List.filter].
    rewrite (bool_decide_ext (V ∈ x :: l) (x = V ∨ V ∈ l))
      by (rewrite elem_of_cons; intuition congruence).
    destruct (decide (x = V)) as [->|Hne].
    - rewrite !bool_decide_eq_true_2 by (done || by left). split; [simpl; lia|].
      intros [Hx Hl]%NoDup_cons. simpl.
      rewrite (IH2 Hl), bool_decide_eq_false_2 by done. done.
    - rewrite (bool_decide_eq_false_2 (x = V)) by done.
      rewrite (bool_decide_ext (x = V ∨ V ∈ l) (V ∈ l)) by tauto.
      split; [done|]. intros [_ Hl]%NoDup_cons. by apply IH2. }
  induction bannedBooks as [|book books (IH1 & IH2 & IH3)].
  - unfold occurrences. simpl. split; [lia|]. split; [lia|done].
  - rewrite occurrences_cons. cbn [List.filter].
    destruct (Hbook book) as [Hle Heq].
    destruct (hasValue panelSubjects V book) eqn:Hv; cbn [length].
    + split; [lia|]. split; [lia|]. intros Hnd. rewrite Heq, IH3.
      * done.
      * intros b Hb. by apply Hnd, list_elem_of_further.
      * apply Hnd, list_elem_of_here.
    + assert (length (List.filter (λ x, bool_decide (x = V))
                        (panelSubjects book)) = 0%nat) as H0.
      { apply length_zero_iff_nil.
        destruct (List.filter _ (panelSubjects book)) as [|y ys] eqn:Hf;
          [done|].
        assert (y ∈ List.filter (λ x, bool_decide (x = V))
                      (panelSubjects book)) as Hy
          by (rewrite Hf; apply list_elem_of_here).
        apply elem_of_List_filter in Hy as [Hy ->%bool_decide_eq_true].
        unfold hasValue in Hv. by apply bool_decide_eq_false in Hv. }
      rewrite H0. split; [lia|]. split; [simpl; tauto|]. intros Hnd.
      simpl. apply IH3. intros b Hb. by apply Hnd, list_elem_of_further.
Qed.

Lemma panel_subject_count_bounds_list_witness :
  length (MapPanel.filteredBooks [bookA; bookB]
            (MapPanel.mkSelection ["Fiction"] [] []))
  = JS.get (MapPanel.subjectCounts [bookA; bookB]) "Fiction".
Proof.
  assert ("Fiction" ∉ JS.inherited) as Hplain
    by (apply (bool_decide_unpack _); vm_compute; exact I).
  apply (proj2 (proj2 (proj2
    (panel_subject_count_bounds_list [bookA; bookB] "Fiction") Hplain))).
  intros book Hb. apply (bool_decide_unpack _).
  apply elem_of_cons in Hb as [->|Hb]; [by vm_compute|].
  apply list_elem_of_singleton in Hb as ->. by vm_compute.
Defined.

(** ** The states of the map panel *)

Lemma NoDup_panel_toggle (l : list string) (x : string) :
  NoDup l → NoDup (MapPanel.toggle l x).
Proof. apply NoDup_toggleIn. Qed.

Lemma bannedBooksForDistrict_bans booksData districtName book :
  book ∈ MapMain.bannedBooksForDistrict booksData districtName →
  bans book ≠ None.
Proof.
  intros [_ Hin]%elem_of_List_filter Hb.
  unfold MapPanel.bannedIn in Hin. by rewrite Hb in Hin.
Qed.

(** X21: in every state the map panel can reach, the books it holds and
    the books it lists are books of the loaded data set, in the order of
    the data set; every held book has a [bans] array, so the unguarded
    loop of [allBanStatuses] never throws; and no subject, ban status or
    popularity level is selected twice. *)
Theorem panel_holds_banned_books_only (booksData : list Book)
    (p : MapPanel.Panel) :
  panelReachable booksData p →
  (MapPanel.bannedBooks p `sublist_of` booksData)
  ∧ (MapPanel.shownBooks p `sublist_of` booksData)
  ∧ (∀ book, book ∈ MapPanel.bannedBooks p → bans book ≠ None)
  ∧ is_Some (MapPanel.allBanStatuses (MapPanel.bannedBooks p))
  ∧ NoDup (MapPanel.selectedSubjects (MapPanel.selection p))
  ∧ NoDup (MapPanel.selectedBanStatus (MapPanel.selection p))
  ∧ NoDup (MapPanel.selectedPopularityLevels (MapPanel.selection p)).
Proof.
  intros Hr.
  assert ((MapPanel.bannedBooks p `sublist_of` booksData)
    ∧ (∀ book, book ∈ MapPanel.bannedBooks p → bans book ≠ None)
    ∧ NoDup (MapPanel.selectedSubjects (MapPanel.selection p))
    ∧ NoDup (MapPanel.selectedBanStatus (MapPanel.selection p))
    ∧ NoDup (MapPanel.selectedPopularityLevels (MapPanel.selection p)))
    as (Hsub & Hbans & H1 & H2 & H3).
  { induction Hr as [|p ev _ (Hsub & Hbans & H1 & H2 & H3)].
    - cbn. repeat split; try apply NoDup_nil_2; try apply sublist_nil_l.
      intros book Hb. by apply not_elem_of_nil in Hb.
    - destruct ev as [data ds|d|choice|x|x|x|book| |]; cbn [panelStep].
      + unfold MapMain.clickDistrict. destruct (1 <? length ds)%nat; cbn.
        * done.
        * repeat split; try apply NoDup_nil_2; [apply List_filter_sublist|].
          apply bannedBooksForDistrict_bans.
      + cbn. repeat split; try apply NoDup_nil_2; [apply List_filter_sublist|].
        apply bannedBooksForDistrict_bans.
      + cbn. repeat split; try apply NoDup_nil_2; [apply List_filter_sublist|].
        apply bannedBooksForDistrict_bans.
      + cbn. repeat split; try done. by apply NoDup_panel_toggle.
      + cbn. repeat split; try done. by apply NoDup_panel_toggle.
      + cbn. repeat split; try done. by apply NoDup_panel_toggle.
      + done.
      + done.
      + cbn. repeat split; try apply NoDup_nil_2; try apply sublist_nil_l.
        intros book Hb. by apply not_elem_of_nil in Hb. }
  split; [done|]. split; [|split; [done|split; [|done]]].
  - etrans; [apply shownBooks_sublist|done].
  - destruct (MapPanel.allBanStatuses _) as [l|] eqn:Ha; [by eexists|].
    exfalso. unfold MapPanel.allBanStatuses, MapPanel.collectStatuses in Ha.
    destruct (foldl _ (Some []) (MapPanel.bannedBooks p)) eqn:Hf; [done|].
    apply collect_fold_None in Hf as [?|(book & Hin & Hb)]; [done|].
    by apply (Hbans book).
Qed.

Lemma panel_holds_banned_books_only_witness :
  MapPanel.shownBooks
    (panelStep [bookA; bookB; bookScalar]
       (panelStep [bookA; bookB; bookScalar] MapPanel.initial
          (ClickDistrict katy [("Katy ISD", katy)]))
       (TickSubject "LGBTQ"))
  `sublist_of` [bookA; bookB; bookScalar].
Proof.
  apply (panel_holds_banned_books_only [bookA; bookB; bookScalar]).
  repeat constructor.
Defined.
